(** * simple_app.py: the weather-station dashboard

    A shallow embedding of [src/simple_app.py]: the cached loader
    [load_data], the charting routine [plot_visualizations] and the entry
    point [main], over a small model of the dataframe operations and of the
    dashboard calls they make.

    - [py]: the exceptions of the script and results that are a value or
      an exception.
    - [pd]: dataframes as the script uses them: typed columns with missing
      cells, label lookup, renaming, boolean selection, mode, group-by mean,
      duplicate and missing-row removal. A label names one column: the
      frames covered are those whose labels are distinct.
    - [plt]: a figure as what it was asked to draw and its captions.
    - [st]: the session, holding the store of frames, the page as the list
      of elements written so far and the memo table of the cached loader;
      the state-and-exception monad the script runs in.

    float64 cells are read as the rationals they denote. The arithmetic
    of means is the library's and stays a parameter ([pd.Numerics]): a mean
    is what the library returns for the values it is given, rounding
    included. Chart styling and what the plotting library does with the
    data it is handed are not modelled: a chart is the data it was asked to
    draw, and the statements about charts are made for frames whose plotted
    columns hold numbers. Signals that are not subclasses of [Exception]
    (interrupts, exits) are not modelled either. *)

From Stdlib Require Import ZArith QArith.
From stdpp Require Import gmap strings list fin_maps.

(** * Exceptions *)
Module py.

(** What a [KeyError] carries. *)
Inductive key :=
| Label (l : string)               (* a label that is not in the frame *)
| Position (i : Z)                 (* an integer label that is not in the index *)
| NotInIndex (ls : list string)    (* the labels of a list that are not in the frame *)
| ColumnNotFound (l : string).     (* a column asked of a group-by *)

(** The exceptions of the script; all are subclasses of [Exception]. *)
Inductive exn :=
| KeyError (k : key)
| IndexError (msg : string)
| TypeError (msg : string)
| ValueError (msg : string)
| AttributeError (msg : string)
| OtherException (cls msg : string).

Inductive result (A : Type) :=
| Ok (a : A)
| Raise (e : exn).
Arguments Ok {A} a.
Arguments Raise {A} e.

#[global] Instance result_ret : MRet result := fun A a => Ok a.
#[global] Instance result_bind : MBind result := fun A B f r =>
  match r with
  | Ok a => f a
  | Raise e => Raise e
  end.

End py.
Import py.

(** * The dataframe library *)
Module pd.

(** A non-missing value of a column. *)
Inductive scalar :=
| SInt (z : Z)        (* int64 *)
| SFloat (q : Q)      (* float64, not NaN *)
| SStr (s : string)   (* a str in an object column *)
| STime (ns : Z).     (* datetime64[ns]: nanoseconds since the epoch *)

(** A cell: [None] is the missing value (NaN, None or NaT). *)
Abbreviation cell := (option scalar).

(** A column with its dtype. int64 has no missing value. *)
Inductive Series :=
| Int64 (xs : list Z)
| Float64 (xs : list (option Q))
| Object (xs : list (option string))
| Datetime64 (xs : list (option Z)).

Inductive dtype := int64 | float64 | object | datetime64.

Definition dtype_of (c : Series) : dtype :=
  match c with
  | Int64 _ => int64
  | Float64 _ => float64
  | Object _ => object
  | Datetime64 _ => datetime64
  end.

(** The cells of a column, whatever its dtype. *)
Definition cells (c : Series) : list cell :=
  match c with
  | Int64 xs => List.map (fun z => Some (SInt z)) xs
  | Float64 xs => List.map (option_map SFloat) xs
  | Object xs => List.map (option_map SStr) xs
  | Datetime64 xs => List.map (option_map STime) xs
  end.

Definition len (c : Series) : nat := length (cells c).

(** A column of a given dtype from non-missing values of that dtype; a value
    of another dtype has no place in it and is left out. *)
Definition of_scalars (t : dtype) (l : list scalar) : Series :=
  match t with
  | int64 => Int64 (omap (fun v => match v with SInt z => Some z | _ => None end) l)
  | float64 => Float64 (omap (fun v => match v with SFloat q => Some (Some q) | _ => None end) l)
  | object => Object (omap (fun v => match v with SStr s => Some (Some s) | _ => None end) l)
  | datetime64 => Datetime64 (omap (fun v => match v with STime n => Some (Some n) | _ => None end) l)
  end.

(** ** Comparing values *)

Definition scalar_eqb (a b : scalar) : bool :=
  match a, b with
  | SInt x, SInt y => (x =? y)%Z
  | SFloat x, SFloat y => Qeq_bool x y
  | SStr x, SStr y => String.eqb x y
  | STime x, STime y => (x =? y)%Z
  | _, _ => false
  end.

(** [==] on cells: a missing value equals nothing, itself included. *)
Definition cell_eqb (a b : cell) : bool :=
  match a, b with
  | Some x, Some y => scalar_eqb x y
  | _, _ => false
  end.

(** Equality as duplicate detection sees it: two missing values agree. *)
Definition cell_same (a b : cell) : bool :=
  match a, b with
  | Some x, Some y => scalar_eqb x y
  | None, None => true
  | _, _ => false
  end.

Fixpoint row_same (r1 r2 : list cell) : bool :=
  match r1, r2 with
  | [], [] => true
  | a :: r1', b :: r2' => cell_same a b && row_same r1' r2'
  | _, _ => false
  end.

Definition rank (a : scalar) : Z :=
  match a with SInt _ => 0 | SFloat _ => 1 | SStr _ => 2 | STime _ => 3 end.

(** The order values are sorted in; a column holds one kind of value, so
    only the first four cases ever meet. *)
Definition scalar_leb (a b : scalar) : bool :=
  match a, b with
  | SInt x, SInt y => (x <=? y)%Z
  | SFloat x, SFloat y => Qle_bool x y
  | SStr x, SStr y => String.leb x y
  | STime x, STime y => (x <=? y)%Z
  | _, _ => (rank a <=? rank b)%Z
  end.

Fixpoint insert_sorted (x : scalar) (l : list scalar) : list scalar :=
  match l with
  | [] => [x]
  | y :: l' => if scalar_leb x y then x :: l else y :: insert_sorted x l'
  end.

Definition sort_values (l : list scalar) : list scalar :=
  foldr insert_sorted [] l.

(** First occurrences, in order of appearance. *)
Fixpoint unique (l : list scalar) : list scalar :=
  match l with
  | [] => []
  | x :: l' => x :: List.filter (fun y => negb (scalar_eqb x y)) (unique l')
  end.

(** The non-missing cells. *)
Definition dropna_cells (l : list cell) : list scalar := omap id l.

(** ** Selecting rows *)

(** The entries of [l] at the positions where the mask holds. *)
Fixpoint take_where {A} (mask : list bool) (l : list A) : list A :=
  match mask, l with
  | b :: mask', x :: l' =>
      if b then x :: take_where mask' l' else take_where mask' l'
  | _, _ => []
  end.

Definition select (f : forall A, list A -> list A) (c : Series) : Series :=
  match c with
  | Int64 xs => Int64 (f _ xs)
  | Float64 xs => Float64 (f _ xs)
  | Object xs => Object (f _ xs)
  | Datetime64 xs => Datetime64 (f _ xs)
  end.

(** ** Frames *)

(** A frame: the row labels and the labelled columns, in order. *)
Record DataFrame := {
  index : list Z;
  columns : list (string * Series)
}.

(** [pd.DataFrame()] *)
Definition empty_frame : DataFrame := {| index := []; columns := [] |}.

(** [len(df)] and [len(df.columns)] *)
Definition nrows (df : DataFrame) : nat := length (index df).
Definition ncols (df : DataFrame) : nat := length (columns df).

(** [df.empty]: some axis has length 0. *)
Definition empty (df : DataFrame) : bool :=
  (nrows df =? 0)%nat || (ncols df =? 0)%nat.

Definition labels (df : DataFrame) : list string := List.map fst (columns df).

(** [label in df.columns] *)
Definition contains (df : DataFrame) (label : string) : bool :=
  existsb (String.eqb label) (labels df).

Fixpoint assoc (label : string) (cols : list (string * Series)) : option Series :=
  match cols with
  | [] => None
  | (l, c) :: cols' => if String.eqb label l then Some c else assoc label cols'
  end.

(** Frames the model covers: labels are distinct and every column is as
    long as the index. *)
Definition well_formed (df : DataFrame) : Prop :=
  NoDup (labels df) /\ Forall (fun lc => len lc.2 = nrows df) (columns df).

(** [df.rename(columns=mapping)]: a new frame; labels outside the mapping
    stay. *)
Definition rename_label (mapping : list (string * string)) (l : string) : string :=
  match List.find (fun kv => String.eqb l kv.1) mapping with
  | Some kv => kv.2
  | None => l
  end.

Definition rename (mapping : list (string * string)) (df : DataFrame) : DataFrame :=
  {| index := index df;
     columns := List.map (fun lc => (rename_label mapping lc.1, lc.2)) (columns df) |}.

(** [df[label] = c]: replaces the column in place when the label exists,
    appends it otherwise. *)
Fixpoint set_assoc (label : string) (c : Series) (cols : list (string * Series))
  : list (string * Series) :=
  match cols with
  | [] => [(label, c)]
  | (l, c') :: cols' =>
      if String.eqb label l then (l, c) :: cols'
      else (l, c') :: set_assoc label c cols'
  end.

Definition setitem (label : string) (c : Series) (df : DataFrame) : DataFrame :=
  {| index := index df; columns := set_assoc label c (columns df) |}.

(** [df[mask]]: the rows where the mask holds, in every column and in the
    index. *)
Definition rows_where (mask : list bool) (df : DataFrame) : DataFrame :=
  {| index := take_where mask (index df);
     columns := List.map (fun lc => (lc.1, select (fun A => take_where mask) lc.2)) (columns df) |}.

(** [df.head()]: the first five rows. *)
Definition head (df : DataFrame) : DataFrame :=
  {| index := take 5 (index df);
     columns := List.map (fun lc => (lc.1, select (fun A => take 5) lc.2)) (columns df) |}.

(** The rows of a list of columns, [n] rows long. *)
Fixpoint rows_of (n : nat) (cols : list (list cell)) : list (list cell) :=
  match cols with
  | [] => replicate n []
  | c :: cols' => zip_with cons c (rows_of n cols')
  end.

Definition rows (df : DataFrame) : list (list cell) :=
  rows_of (nrows df) (List.map (fun lc => cells lc.2) (columns df)).

(** The mask of [~df.duplicated()]: a row is kept when no earlier row is
    the same. *)
Fixpoint first_seen (seen : list (list cell)) (rs : list (list cell)) : list bool :=
  match rs with
  | [] => []
  | r :: rs' => negb (existsb (row_same r) seen) :: first_seen (r :: seen) rs'
  end.

Definition drop_duplicates (df : DataFrame) : DataFrame :=
  rows_where (first_seen [] (rows df)) df.

(** ** Dates *)

(** The calendar year of a day count since 1970-01-01 (proleptic Gregorian
    calendar, 400-year eras of 146097 days starting on 1 March). *)
Definition year_of_days (d : Z) : Z :=
  let z := (d + 719468)%Z in
  let era := (z / 146097)%Z in
  let doe := (z - era * 146097)%Z in
  let yoe := ((doe - doe / 1460 + doe / 36524 - doe / 146096) / 365)%Z in
  let doy := (doe - (365 * yoe + yoe / 4 - yoe / 100))%Z in
  let mp := ((5 * doy + 2) / 153)%Z in
  if (mp <? 10)%Z then (yoe + era * 400)%Z else (yoe + era * 400 + 1)%Z.

Definition year_of (ns : Z) : Z := year_of_days (ns / 86400000000000).

(** [pd.api.types.is_datetime64_any_dtype] *)
Definition is_datetime64_any_dtype (c : Series) : bool :=
  match c with Datetime64 _ => true | _ => false end.

(** [s.dt.year]: int years, or float years with NaN when a date is
    missing; only datetime columns have the accessor. *)
Definition years (xs : list (option Z)) : Series :=
  if forallb (fun o => bool_decide (is_Some o)) xs
  then Int64 (omap (option_map year_of) xs)
  else Float64 (List.map (option_map (fun ns => inject_Z (year_of ns))) xs).

Definition dt_year (c : Series) : result Series :=
  match c with
  | Datetime64 xs => Ok (years xs)
  | _ => Raise (AttributeError "Can only use .dt accessor with datetimelike values")
  end.

(** ** Lookup *)

(** [df[label]], for a label that names one column of the frame: the
    lookup of a label that several columns bear is not modelled, and the
    statements about columns are made for frames whose labels are
    distinct. *)
Definition getitem (df : DataFrame) (label : string) : result Series :=
  match assoc label (columns df) with
  | Some c => Ok c
  | None => Raise (KeyError (Label label))
  end.

(** [df[[l1, ..., ln]]]: the listed columns, in the order asked. *)
Definition getitem_list (df : DataFrame) (ls : list string) : result DataFrame :=
  match List.filter (fun l => negb (contains df l)) ls with
  | [] => Ok {| index := index df;
                columns := omap (fun l => pair l <$> assoc l (columns df)) ls |}
  | missing => Raise (KeyError (NotInIndex missing))
  end.

(** [s[0]] on a column whose index is [0, 1, ...]: the label 0 is looked
    up, and is absent exactly when the column has no row. *)
Definition getitem_0 (c : Series) : result cell :=
  match cells c with
  | v :: _ => Ok v
  | [] => Raise (KeyError (Position 0))
  end.

(** [s == v] *)
Definition eq_mask (c : Series) (v : cell) : list bool :=
  List.map (fun x => cell_eqb x v) (cells c).

(** ** Mode *)

Definition value_count (l : list scalar) (v : scalar) : nat :=
  length (List.filter (scalar_eqb v) l).

(** [s.mode()]: the non-missing values that occur most often, sorted. *)
Definition mode_values (c : Series) : list scalar :=
  let vs := dropna_cells (cells c) in
  let best := max_list (List.map (value_count vs) vs) in
  sort_values (List.filter (fun v => (value_count vs v =? best)%nat) (unique vs)).

Definition mode (c : Series) : Series := of_scalars (dtype_of c) (mode_values c).

(** ** Group-by *)

(** The keys of [df.groupby(by)]: the distinct non-missing values, sorted. *)
Definition group_keys (by_ : Series) : list scalar :=
  sort_values (unique (dropna_cells (cells by_))).

(** The library's arithmetic, which rounds: the mean of a group of
    float64 numbers that is not empty, as the library computes it from
    these values, and the mean of a group of dates, in nanoseconds. *)
Class Numerics := {
  float64_mean : list Q -> Q;
  datetime64_mean : list Z -> Z
}.

(** The mean of the non-missing values of a group; NaN when there is none. *)
Definition mean_Q `{Numerics} (l : list Q) : option Q :=
  match l with
  | [] => None
  | _ => Some (float64_mean l)
  end.

Definition mean_Z `{Numerics} (l : list Z) : option Z :=
  match l with
  | [] => None
  | _ => Some (datetime64_mean l)
  end.

(** The per-group means of a column, one group per mask. Numbers average
    to floats and dates to dates; strings cannot be averaged. *)
Definition group_means `{Numerics} (vals : Series) (groups : list (list bool))
  : result Series :=
  match vals with
  | Int64 xs =>
      Ok (Float64 (List.map (fun m => mean_Q (List.map inject_Z (take_where m xs))) groups))
  | Float64 xs =>
      Ok (Float64 (List.map (fun m => mean_Q (omap id (take_where m xs))) groups))
  | Datetime64 xs =>
      Ok (Datetime64 (List.map (fun m => mean_Z (omap id (take_where m xs))) groups))
  | Object xs =>
      if existsb (fun m => existsb (fun o => bool_decide (is_Some o)) (take_where m xs)) groups
      then Raise (TypeError "agg function failed [how->mean,dtype->object]")
      else Ok (Object (List.map (fun _ => None) groups))
  end.

(** [df.groupby(by)[col].mean().reset_index()]: a frame with the keys in
    column [by] and the means in column [col]. *)
Definition groupby_mean `{Numerics} (df : DataFrame) (by_ col : string)
  : result DataFrame :=
  keys ← getitem df by_;
  vals ← match assoc col (columns df) with
         | Some c => Ok c
         | None => Raise (KeyError (ColumnNotFound col))
         end;
  let ks := group_keys keys in
  means ← group_means vals (List.map (fun k => eq_mask keys (Some k)) ks);
  if String.eqb by_ col then Raise (ValueError "cannot insert, already exists") else
  mret {| index := List.map Z.of_nat (seq 0 (length ks));
          columns := [(by_, of_scalars (dtype_of keys) ks); (col, means)] |}.

(** The groups that [df.boxplot(column=col, by=by)] draws: for each key,
    the non-missing values of the column in the rows of that key. What the
    plotting library does with no group at all, or with values that are
    not numbers, is not modelled: the statements about the boxplot are
    made for a numeric column and a year column that holds a year. *)
Definition boxplot_groups (df : DataFrame) (col by_ : string)
  : result (list (scalar * list scalar)) :=
  keys ← getitem df by_;
  vals ← match assoc col (columns df) with
         | Some c => Ok c
         | None => Raise (KeyError (ColumnNotFound col))
         end;
  mret (List.map
          (fun k => (k, dropna_cells (take_where (eq_mask keys (Some k)) (cells vals))))
          (group_keys keys)).

(** ** Missing rows *)

Definition notna (c : Series) : list bool :=
  List.map (fun x => bool_decide (is_Some x)) (cells c).

(** [df.dropna(subset=ls)]: the rows with a value in every listed column. *)
Definition dropna (ls : list string) (df : DataFrame) : result DataFrame :=
  match List.filter (fun l => negb (contains df l)) ls with
  | [] => Ok (rows_where
                (foldr (fun l mask =>
                          match assoc l (columns df) with
                          | Some c => zip_with andb (notna c) mask
                          | None => mask
                          end)
                       (replicate (nrows df) true) ls)
                df)
  | missing => Raise (KeyError (NotInIndex missing))
  end.

End pd.

(** * Formatted text *)

(** An f-string: literal text with the values put into it. *)
Inductive piece :=
| Text (s : string)
| Str (e : exn)          (* [{e}] for a caught exception *)
| Val (v : pd.cell)      (* [{v}] for a value of a column *)
| Num (n : nat).         (* [{len(...)}] *)

Abbreviation text := (list piece).

(** * Figures *)
Module plt.

(** What an axes was asked to draw. *)
Inductive drawing :=
| Line (x y : list pd.cell)                   (* [ax.plot(x, y)] *)
| Scatter (x y c : list pd.cell)              (* [ax.scatter(x, y, c=c)] *)
| Boxes (groups : list (pd.scalar * list pd.scalar)).  (* one box per group *)

Record Figure := {
  drawn : drawing;
  title : text;
  xlabel : string;
  ylabel : string;
  colorbar : option string
}.

End plt.

(** * The dashboard and the running script *)
Module st.

(** The elements a run writes on the page. *)
Inductive element :=
| Title (t : text)
| Header (t : text)
| Subheader (t : text)
| Markdown (t : text)
| Info (t : text)
| Success (t : text)
| Warning (t : text)
| Error (t : text)
| Dataframe (df : pd.DataFrame)
| Map (df : pd.DataFrame)
| Pyplot (fig : plt.Figure)
| TextInput (label value : string)
| Sidebar (e : element).

(** A frame variable holds a reference into the store. *)
Abbreviation ref := nat.

(** The state of a session: the store of frames, the page written so far,
    the page layout, the memo table of the cached loader (per argument: the
    value and the elements the call wrote), the calls made to the external
    data source, and the text typed in the sidebar field if any. *)
Record state := {
  heap : list pd.DataFrame;
  page : list element;
  layout : option string;
  cache : gmap string (pd.DataFrame * list element);
  fetched : list string;
  typed : option string
}.

Definition with_heap (h : list pd.DataFrame) (s : state) : state :=
  {| heap := h; page := page s; layout := layout s; cache := cache s;
     fetched := fetched s; typed := typed s |}.

Definition with_page (p : list element) (s : state) : state :=
  {| heap := heap s; page := p; layout := layout s; cache := cache s;
     fetched := fetched s; typed := typed s |}.

Definition with_layout (l : option string) (s : state) : state :=
  {| heap := heap s; page := page s; layout := l; cache := cache s;
     fetched := fetched s; typed := typed s |}.

Definition with_cache (c : gmap string (pd.DataFrame * list element)) (s : state) : state :=
  {| heap := heap s; page := page s; layout := layout s; cache := c;
     fetched := fetched s; typed := typed s |}.

Definition with_fetched (f : list string) (s : state) : state :=
  {| heap := heap s; page := page s; layout := layout s; cache := cache s;
     fetched := f; typed := typed s |}.

(** A computation of the script: it ends with a value or an exception, and
    what it did to the state stays done in both cases. *)
Definition M (A : Type) : Type := state -> result A * state.

#[global] Instance M_ret : MRet M := fun A a s => (Ok a, s).
#[global] Instance M_bind : MBind M := fun A B f m s =>
  match m s with
  | (Ok a, s') => f a s'
  | (Raise e, s') => (Raise e, s')
  end.

(** A library call that returns or raises. *)
Definition lift {A} (r : result A) : M A := fun s => (r, s).

(** [try: body except ...: handler]: [handler e] is the clause that
    catches [e], if there is one. *)
Definition try_except {A} (body : M A) (handler : exn -> option (M A)) : M A :=
  fun s =>
    match body s with
    | (Ok a, s') => (Ok a, s')
    | (Raise e, s') =>
        match handler e with
        | Some h => h s'
        | None => (Raise e, s')
        end
    end.

(** ** The store *)

(** A new frame object. *)
Definition new (df : pd.DataFrame) : M ref := fun s =>
  (Ok (length (heap s)), with_heap (heap s ++ [df]) s).

(** The frame a variable refers to. *)
Definition deref (r : ref) : M pd.DataFrame := fun s =>
  match heap s !! r with
  | Some df => (Ok df, s)
  | None => (Raise (OtherException "NameError" "unbound"), s)
  end.

(** In-place update of the frame a variable refers to. *)
Definition assign (r : ref) (df : pd.DataFrame) : M unit := fun s =>
  (Ok tt, with_heap (<[r := df]> (heap s)) s).

(** ** Writing on the page *)

Definition write (e : element) : M unit := fun s =>
  (Ok tt, with_page (page s ++ [e]) s).

Definition set_page_config (l : string) : M unit := fun s =>
  (Ok tt, with_layout (Some l) s).

Definition title (t : text) : M unit := write (Title t).
Definition header (t : text) : M unit := write (Header t).
Definition subheader (t : text) : M unit := write (Subheader t).
Definition markdown (t : text) : M unit := write (Markdown t).
Definition success (t : text) : M unit := write (Success t).
Definition warning (t : text) : M unit := write (Warning t).
Definition error (t : text) : M unit := write (Error t).
Definition dataframe (df : pd.DataFrame) : M unit := write (Dataframe df).
Definition map (df : pd.DataFrame) : M unit := write (Map df).
Definition pyplot (fig : plt.Figure) : M unit := write (Pyplot fig).
Definition sidebar_header (t : text) : M unit := write (Sidebar (Header t)).

(** [st.sidebar.text_input(label, value=value)]: the text of the field,
    [value] until something is typed. *)
Definition sidebar_text_input (label value : string) : M string := fun s =>
  let v := default value (typed s) in
  (Ok v, with_page (page s ++ [Sidebar (TextInput label v)]) s).

(** [st.info(t)] returns the element it wrote, to be replaced later. *)
Definition info (t : text) : M nat := fun s =>
  (Ok (length (page s)), with_page (page s ++ [Info t]) s).

(** [handle.success(t)]: the element is replaced where it stands. *)
Definition replace_success (handle : nat) (t : text) : M unit := fun s =>
  (Ok tt, with_page (<[handle := Success t]> (page s)) s).

(** [@st.cache_data]: the first call with an argument runs the function
    and stores a copy of its value with the elements it wrote; a later
    call with that argument writes those elements again and returns a new
    copy of the stored value without running the function. *)
Definition cache_data (f : string -> M ref) (arg : string) : M ref := fun s =>
  match cache s !! arg with
  | Some (value, shown) => new value (with_page (page s ++ shown) s)
  | None =>
      match f arg s with
      | (Ok r, s') =>
          match heap s' !! r with
          | Some value =>
              (Ok r, with_cache
                       (<[arg := (value, drop (length (page s)) (page s'))]> (cache s')) s')
          | None => (Ok r, s')
          end
      | (Raise e, s') => (Raise e, s')
      end
  end.

End st.
Import st.

(** * The script *)

(** ** plot_visualizations *)

(** The columns of the loaded frame and the names the charts use. *)
Definition column_names : list (string * string) :=
  [("tmin", "TN_float");
   ("latitude", "LAT_float");
   ("longitude", "LON_float");
   ("alti", "ALTI_float");
   ("station_id", "NUM_POSTE");
   ("station_name", "NOM_USUEL");
   ("date", "AAAAMMJJ")].

(** Chart 1: yearly mean of the minimum temperature at the most frequent
    station. *)
Definition visualisation_1 `{pd.Numerics} (df : ref) : M unit :=
  st.header [Text "1. Évolution Temporelle de la Température Minimale (TN) 📈"];;
  try_except
    (d ← deref df;
     ids ← lift (pd.getitem d "NUM_POSTE");
     top_station_id ← lift (pd.getitem_0 (pd.mode ids));
     let df_station := pd.rows_where (pd.eq_mask ids top_station_id) d in
     df_annual ← lift (pd.groupby_mean df_station "Year" "TN_float");
     x ← lift (pd.getitem df_annual "Year");
     y ← lift (pd.getitem df_annual "TN_float");
     st.pyplot
       {| plt.drawn := plt.Line (pd.cells x) (pd.cells y);
          plt.title := [Text "Température Minimale Moyenne Annuelle pour la station ";
                        Val top_station_id];
          plt.xlabel := "Année";
          plt.ylabel := "Température Minimale Moyenne (°C)";
          plt.colorbar := None |};;
     st.markdown
       [Text "Cette courbe montre la tendance annuelle de la température minimale pour la station la plus fréquente (";
        Val top_station_id; Text ")."])
    (fun e =>
       match e with
       | IndexError _ =>
           Some (st.warning [Text "Pas assez de données pour l'évolution temporelle."])
       | KeyError _ =>
           Some (st.error [Text "Erreur de colonne pour la Visualisation 1: "; Str e;
                           Text ". Vérifiez le renommage des colonnes."])
       | _ => None
       end).

(** Chart 2: where the stations are. No exception is caught here. The
    map and the scatter are the coordinates they are given; what the
    plotting calls do with coordinates that are not numbers is not
    modelled, and the statements about them are made for numeric
    coordinates. *)
Definition visualisation_2 (df : ref) : M unit :=
  st.header [Text "2. Distribution Spatiale des Stations Météo 🗺️"];;
  d ← deref df;
  sel ← lift (pd.getitem_list d
                ["NUM_POSTE"; "NOM_USUEL"; "LAT_float"; "LON_float"; "ALTI_float"]);
  stations_map ← lift (pd.dropna ["LAT_float"; "LON_float"] (pd.drop_duplicates sel));
  if negb (pd.empty stations_map) then
    st.subheader [Text "Carte Interactive des Stations"];;
    latlon ← lift (pd.getitem_list stations_map ["LAT_float"; "LON_float"]);
    st.map (pd.rename [("LAT_float", "lat"); ("LON_float", "lon")] latlon);;
    st.subheader [Text "Scatter Plot (Couleur par Altitude)"];;
    lon ← lift (pd.getitem stations_map "LON_float");
    lat ← lift (pd.getitem stations_map "LAT_float");
    alt ← lift (pd.getitem stations_map "ALTI_float");
    st.pyplot
      {| plt.drawn := plt.Scatter (pd.cells lon) (pd.cells lat) (pd.cells alt);
         plt.title := [Text "Localisation des Stations Météo du Département"];
         plt.xlabel := "Longitude";
         plt.ylabel := "Latitude";
         plt.colorbar := Some "Altitude (m)" |}
  else
    st.warning [Text "Impossible d'afficher la carte : données de Latitude/Longitude manquantes."].

(** Chart 3: the minimum temperatures of each year as a box. *)
Definition visualisation_3 (df : ref) : M unit :=
  st.header [Text "3. Distribution des Températures (Box Plot par Année) 🧊"];;
  try_except
    (d ← deref df;
     groups ← lift (pd.boxplot_groups d "TN_float" "Year");
     st.pyplot
       {| plt.drawn := plt.Boxes groups;
          plt.title := [Text "Distribution de la Température Minimale (TN) par Année"];
          plt.xlabel := "Année";
          plt.ylabel := "Température Minimale (°C)";
          plt.colorbar := None |};;
     st.markdown
       [Text "Chaque boîte représente la répartition des températures minimales pour une année donnée."])
    (fun e =>
       match e with
       | KeyError _ =>
           Some (st.error [Text "Erreur de colonne pour la Visualisation 3: "; Str e;
                           Text ". Vérifiez le renommage des colonnes."])
       | _ => None
       end).

Definition plot_visualizations `{pd.Numerics} (df : ref) (dept_code : string) : M unit :=
  d ← deref df;
  df ← new (pd.rename column_names d);
  d ← deref df;
  is_date ← (if pd.contains d "AAAAMMJJ"
             then c ← lift (pd.getitem d "AAAAMMJJ");
                  mret (pd.is_datetime64_any_dtype c)
             else mret false);
  if is_date : bool then
    c ← lift (pd.getitem d "AAAAMMJJ");
    year ← lift (pd.dt_year c);
    assign df (pd.setitem "Year" year d);;
    visualisation_1 df;;
    visualisation_2 df;;
    visualisation_3 df
  else
    st.error [Text "Colonne 'AAAAMMJJ' (date) manquante ou format incorrect."].

(** ** load_data and main *)

Section Script.

(** [frost.func.process_weather_data], which is not part of the script:
    given the department and the calls made before, it returns a frame or
    raises. *)
Variable process_weather_data : string -> list string -> result pd.DataFrame.
Context {arithmetic : pd.Numerics}.

Definition f_process_weather_data (dept : string) : M ref := fun s =>
  let s' := with_fetched (fetched s ++ [dept]) s in
  match process_weather_data dept (fetched s) with
  | Ok df => new df s'
  | Raise e => (Raise e, s')
  end.

(** The function under the decorator. *)
Definition load_data_uncached (dept_code : string) : M ref :=
  try_except
    (df ← f_process_weather_data dept_code;
     mret df)
    (fun e =>
       Some (st.error [Text "Erreur lors du chargement des données: "; Str e];;
             new pd.empty_frame)).

Definition load_data : string -> M ref := st.cache_data load_data_uncached.

Definition main : M unit :=
  st.set_page_config "wide";;
  st.title [Text "❄️ Analyse des Données Météo - Département 04"];;
  st.sidebar_header [Text "Paramètres"];;
  dept_code ← st.sidebar_text_input "Code du Département (ex: 04)" "04";
  data_load_state ← st.info [Text "Chargement des données en cours..."];
  df ← load_data dept_code;
  st.replace_success data_load_state [Text "Données chargées!"];;
  d ← deref df;
  if negb (pd.empty d) then
    st.success [Text "Données chargées : "; Num (pd.nrows d); Text " lignes et ";
                Num (pd.ncols d); Text " colonnes."];;
    st.dataframe (pd.head d);;
    st.markdown [Text "---"];;
    plot_visualizations df dept_code
  else
    st.error [Text "Le DataFrame est vide. Veuillez vérifier les logs d'erreur ci-dessus."].

End Script.

(** * Vocabulary of the statements *)

(** [writes P s s']: from [s] to [s'] nothing changed but the page, which
    got new elements at its end, all of them satisfying [P]. *)
Definition writes (P : element -> Prop) (s s' : state) : Prop :=
  heap s' = heap s /\ cache s' = cache s /\ fetched s' = fetched s /\
  layout s' = layout s /\ typed s' = typed s /\
  exists out, page s' = page s ++ out /\ Forall P out.

(** A computation that only writes elements satisfying [P]. *)
Definition only_writes {A} (P : element -> Prop) (m : M A) : Prop :=
  forall s, writes P s (m s).2.

(** A value of the kind a dtype holds. *)
Definition has_dtype (t : pd.dtype) (v : pd.scalar) : Prop :=
  match t, v with
  | pd.int64, pd.SInt _ | pd.float64, pd.SFloat _
  | pd.object, pd.SStr _ | pd.datetime64, pd.STime _ => True
  | _, _ => False
  end.

(** The elements the first and the third section can write. *)
Definition trend_element (e : element) : Prop :=
  match e with
  | Header _ | Markdown _ | Warning _ | Error _ => True
  | Pyplot fig => match plt.drawn fig with plt.Line _ _ => True | _ => False end
  | _ => False
  end.

Definition boxplot_element (e : element) : Prop :=
  match e with
  | Header _ | Markdown _ | Error _ => True
  | Pyplot fig => match plt.drawn fig with plt.Boxes _ => True | _ => False end
  | _ => False
  end.

(** A computation whose exceptions all satisfy [Q]. *)
Definition raises_only {A} (Q : exn -> Prop) (m : M A) : Prop :=
  forall s e, (m s).1 = Raise e -> Q e.

Definition not_IndexError (e : exn) : Prop :=
  match e with IndexError _ => False | _ => True end.

(** The warning of the [except IndexError] clause of the first section. *)
Definition not_enough_data : element :=
  Warning [Text "Pas assez de données pour l'évolution temporelle."].

(** ** The yearly trend, row by row *)

(** A numeric column as rationals. *)
Definition numbers (c : pd.Series) : option (list (option Q)) :=
  match c with
  | pd.Int64 xs => Some (List.map (fun z => Some (inject_Z z)) xs)
  | pd.Float64 xs => Some xs
  | _ => None
  end.

(** One reading per row: the station, the calendar year of the date and
    the minimum temperature. *)
Definition readings (ids : pd.Series) (dates : list (option Z)) (temps : list (option Q))
  : list (pd.cell * option Z * option Q) :=
  zip (zip (pd.cells ids) (List.map (option_map pd.year_of) dates)) temps.

Definition at_station (station : pd.scalar) (r : pd.cell * option Z * option Q) : bool :=
  pd.cell_eqb r.1.1 (Some station).

Definition in_year (y : Z) (r : pd.cell * option Z * option Q) : bool :=
  bool_decide (r.1.2 = Some y).

(** The mean of the minimum temperatures read at a station in a year. *)
Definition yearly_mean `{pd.Numerics} (rs : list (pd.cell * option Z * option Q))
    (station : pd.scalar) (y : Z) : option Q :=
  pd.mean_Q (omap snd (List.filter (fun r => at_station station r && in_year y r) rs)).

(** A year as the year column holds it: an int, or a float when some date
    is missing. *)
Definition year_value (dates : list (option Z)) (y : Z) : pd.scalar :=
  if forallb (fun o => bool_decide (is_Some o)) dates
  then pd.SInt y else pd.SFloat (inject_Z y).

(** ** Station rows *)


(** The columns of the data model and the names the charts read them by. *)
Definition source_columns : list string :=
  ["station_id"; "station_name"; "date"; "tmin"; "latitude"; "longitude"; "alti"].

Definition chart_columns : list string :=
  ["NUM_POSTE"; "NOM_USUEL"; "AAAAMMJJ"; "TN_float"; "LAT_float"; "LON_float"; "ALTI_float"].

(** Two frames with the same row labels and the same columns under the
    given labels. *)
Definition agree (ls : list string) (d1 d2 : pd.DataFrame) : Prop :=
  pd.index d1 = pd.index d2 /\
  forall l, In l ls -> pd.assoc l (pd.columns d1) = pd.assoc l (pd.columns d2).

(** Two computations, each with its own frame variable, that end the same
    way and write the same elements. *)
Definition same_output {A} (r1 r2 : ref) (d1 d2 : pd.DataFrame) (m1 m2 : M A) : Prop :=
  forall s1 s2,
    heap s1 !! r1 = Some d1 -> heap s2 !! r2 = Some d2 ->
    exists res out,
      m1 s1 = (res, with_page (page s1 ++ out) s1) /\
      m2 s2 = (res, with_page (page s2 ++ out) s2).

(** The charts on a page, in order, and its section headers. *)
Definition charts (p : list element) : list plt.drawing :=
  omap (fun e => match e with Pyplot fig => Some (plt.drawn fig) | _ => None end) p.

Definition headers (p : list element) : list text :=
  omap (fun e => match e with Header t => Some t | _ => None end) p.

(** The state after loading the given departments one after the other. *)
Definition load_all (fetch : string -> list string -> result pd.DataFrame)
    (depts : list string) (s : state) : state :=
  foldl (fun s dept => (load_data fetch dept s).2) s depts.

(** * Sample data *)

(** Means computed exactly. The sample frames below hold small multiples
    of one half, on which float64 arithmetic is exact. *)
Definition sum_Q (l : list Q) : Q := foldr Qplus 0%Q l.
Definition sum_Z (l : list Z) : Z := foldr Z.add 0%Z l.

Definition exact_means : pd.Numerics :=
  {| pd.float64_mean l := Qred (sum_Q l / inject_Z (Z.of_nat (length l)));
     pd.datetime64_mean l := Z.quot (sum_Z l) (Z.of_nat (length l)) |}.

Definition day : Z := 86400000000000.

(** Two stations in department 04 over two years; the last row is blank. *)
Definition sample_frame : pd.DataFrame :=
  {| pd.index := [0; 1; 2; 3]%Z;
     pd.columns :=
       [("station_id", pd.Object [Some "04049001"; Some "04070001"; Some "04049001"; None]);
        ("station_name", pd.Object [Some "BARCELONNETTE"; Some "DIGNE"; Some "BARCELONNETTE"; None]);
        ("date", pd.Datetime64 [Some (18262 * day)%Z; Some (18263 * day)%Z;
                                Some (18700 * day)%Z; None]);
        ("tmin", pd.Float64 [Some (1 # 2); Some (3 # 1); Some (-5 # 2); Some (5 # 1)]);
        ("latitude", pd.Float64 [Some (44 # 1); Some (45 # 1); Some (44 # 1); None]);
        ("longitude", pd.Float64 [Some (6 # 1); Some (7 # 1); Some (6 # 1); None]);
        ("alti", pd.Float64 [Some (1155 # 1); Some (600 # 1); Some (1155 # 1); None])] |}.

(** The same frame with a column the charts do not use. *)
Definition annotated_frame : pd.DataFrame :=
  {| pd.index := pd.index sample_frame;
     pd.columns := ("quality", pd.Int64 [1; 1; 9; 0]%Z) :: pd.columns sample_frame |}.

(** A data source that knows department 04 only. *)
Definition sample_source (dept : string) (calls : list string) : result pd.DataFrame :=
  if String.eqb dept "04" then Ok sample_frame
  else Raise (OtherException "ValueError" "unknown department").

(** A fresh session, and a session whose store holds one frame. *)
Definition fresh : state :=
  {| heap := []; page := []; layout := None; cache := ∅; fetched := []; typed := None |}.

Definition holding (d : pd.DataFrame) : state := with_heap [d] fresh.

(** One station, two days; the variants below leave a column out or
    change one. *)
Definition station_ids : pd.Series := pd.Object [Some "04049001"; Some "04049001"].
Definition station_names : pd.Series := pd.Object [Some "BARCELONNETTE"; Some "BARCELONNETTE"].
Definition dates : pd.Series := pd.Datetime64 [Some (18262 * day)%Z; Some (18263 * day)%Z].
Definition temperatures : pd.Series := pd.Float64 [Some (1 # 2); Some (3 # 2)].
Definition latitudes : pd.Series := pd.Float64 [Some (44 # 1); Some (44 # 1)].
Definition longitudes : pd.Series := pd.Float64 [Some (6 # 1); Some (6 # 1)].
Definition altitudes : pd.Series := pd.Float64 [Some (1155 # 1); Some (1155 # 1)].

(** Station identifiers, dates and minimum temperatures. *)
Definition trend_frame : pd.DataFrame :=
  {| pd.index := [0; 1]%Z;
     pd.columns := [("station_id", station_ids); ("date", dates);
                    ("tmin", temperatures)] |}.

(** No minimum temperature. *)
Definition no_tmin : pd.DataFrame :=
  {| pd.index := [0; 1]%Z;
     pd.columns := [("station_id", station_ids); ("station_name", station_names);
                    ("date", dates); ("latitude", latitudes);
                    ("longitude", longitudes); ("alti", altitudes)] |}.

(** No latitude. *)
Definition no_latitude : pd.DataFrame :=
  {| pd.index := [0; 1]%Z;
     pd.columns := [("station_id", station_ids); ("station_name", station_names);
                    ("date", dates); ("tmin", temperatures);
                    ("longitude", longitudes); ("alti", altitudes)] |}.

(** Dates and minimum temperatures only. *)
Definition dates_and_temperatures : pd.DataFrame :=
  {| pd.index := [0; 1]%Z;
     pd.columns := [("date", dates); ("tmin", temperatures)] |}.

(** Station identifiers all missing. *)
Definition no_station_ids : pd.DataFrame :=
  {| pd.index := [0; 1]%Z;
     pd.columns := [("station_id", pd.Object [None; None]); ("station_name", station_names);
                    ("date", dates); ("tmin", temperatures); ("latitude", latitudes);
                    ("longitude", longitudes); ("alti", altitudes)] |}.

(** No date, and no station with a position. *)
Definition no_date : pd.DataFrame :=
  {| pd.index := [0; 1]%Z;
     pd.columns := [("station_id", station_ids); ("station_name", station_names);
                    ("tmin", temperatures); ("latitude", pd.Float64 [None; None]);
                    ("longitude", longitudes); ("alti", altitudes)] |}.

(** Minimum temperatures held as text. *)
Definition text_temperatures : pd.DataFrame :=
  {| pd.index := [0; 1]%Z;
     pd.columns := [("station_id", station_ids); ("station_name", station_names);
                    ("date", dates); ("tmin", pd.Object [Some "0.5"; Some "1.5"]);
                    ("latitude", pd.Float64 [None; None]);
                    ("longitude", longitudes); ("alti", altitudes)] |}.

(** * More vocabulary *)

(** The headers of the three sections. *)
Definition header_1 : text :=
  [Text "1. Évolution Temporelle de la Température Minimale (TN) 📈"].
Definition header_2 : text :=
  [Text "2. Distribution Spatiale des Stations Météo 🗺️"].
Definition header_3 : text :=
  [Text "3. Distribution des Températures (Box Plot par Année) 🧊"].

(** The columns the second section selects. *)
Definition station_columns : list string :=
  ["NUM_POSTE"; "NOM_USUEL"; "LAT_float"; "LON_float"; "ALTI_float"].

(** The exception of a mean over text. *)
Definition mean_of_text : exn :=
  TypeError "agg function failed [how->mean,dtype->object]".

(** The message of the date check. *)
Definition date_error : element :=
  Error [Text "Colonne 'AAAAMMJJ' (date) manquante ou format incorrect."].

(** A fresh session in which a department code has been typed in the
    sidebar field. *)
Definition typing (code : string) : state :=
  {| heap := []; page := []; layout := None; cache := ∅; fetched := [];
     typed := Some code |}.

(** The columns that the charts plot, and those of them that the second
    section plots. *)
Definition plotted_columns : list string :=
  ["TN_float"; "LAT_float"; "LON_float"; "ALTI_float"].

Definition coordinate_columns : list string :=
  ["LAT_float"; "LON_float"; "ALTI_float"].

(** The listed columns hold numbers, where the frame has them. *)
Definition numeric_columns (ls : list string) (d : pd.DataFrame) : Prop :=
  forall l c, In l ls -> pd.assoc l (pd.columns d) = Some c -> is_Some (numbers c).

(** Numbers whose sums float64 holds: as many numbers as the column has
    rows, none larger in size than [2^1000] divided by that many, add up
    to a finite float64 in whatever order they are added and rounded. *)
Definition finite_sums (temps : list (option Q)) : Prop :=
  forall q, In (Some q) temps ->
            let n := inject_Z (Z.of_nat (length temps)) in
            (- inject_Z (2 ^ 1000) <= q * n <= inject_Z (2 ^ 1000))%Q.

(** A frame of the data source that the charts can be drawn from: once
    renamed, its labels are distinct, its plotted columns hold numbers,
    and its date column, if it is of datetime type, holds a date. *)
Definition drawable (d : pd.DataFrame) : Prop :=
  let d' := pd.rename column_names d in
  NoDup (pd.labels d') /\
  numeric_columns plotted_columns d' /\
  forall dates, pd.assoc "AAAAMMJJ" (pd.columns d') = Some (pd.Datetime64 dates) ->
                exists t, In (Some t) dates.

(** The message the first section writes when the mode of the station
    column has no first entry. *)
Definition no_first_entry : element :=
  Error [Text "Erreur de colonne pour la Visualisation 1: "; Str (KeyError (Position 0));
         Text ". Vérifiez le renommage des colonnes."].

(** The columns of a frame other than the year column. *)
Definition without_year (cols : list (string * pd.Series)) : list (string * pd.Series) :=
  List.filter (fun lc => negb (String.eqb lc.1 "Year")) cols.

(** * Running the script: equations and frame rules *)


Section Running.
Context {A B : Type}.

Lemma run_ret (a : A) (s : state) : (mret a : M A) s = (Ok a, s).
Proof. reflexivity. Qed.

Lemma run_bind (m : M A) (f : A -> M B) (s : state) :
  (m ≫= f) s =
  match m s with
  | (Ok a, s') => f a s'
  | (Raise e, s') => (Raise e, s')
  end.
Proof. reflexivity. Qed.

Lemma run_bind_ok (m : M A) (f : A -> M B) s a s' :
  m s = (Ok a, s') -> (m ≫= f) s = f a s'.
Proof. intros H. rewrite run_bind, H. reflexivity. Qed.

Lemma run_lift_bind (r : result A) (f : A -> M B) s :
  (lift r ≫= f) s =
  match r with
  | Ok a => f a s
  | Raise e => (Raise e, s)
  end.
Proof. rewrite run_bind. unfold lift. destruct r; reflexivity. Qed.

End Running.

Lemma run_assign_bind {B} r d (f : unit -> M B) s :
  (assign r d ≫= f) s = f tt (with_heap (<[r := d]> (heap s)) s).
Proof. reflexivity. Qed.

Lemma run_write_bind {B} e (f : unit -> M B) s :
  (st.write e ≫= f) s = f tt (with_page (page s ++ [e]) s).
Proof. reflexivity. Qed.

Lemma run_deref r d s : heap s !! r = Some d -> deref r s = (Ok d, s).
Proof. intros H. unfold deref. rewrite H. reflexivity. Qed.

Lemma writes_refl P s : writes P s s.
Proof.
  unfold writes. repeat split; try reflexivity.
  exists []. split; [by rewrite app_nil_r | constructor].
Qed.

Lemma writes_trans P s1 s2 s3 :
  writes P s1 s2 -> writes P s2 s3 -> writes P s1 s3.
Proof.
  intros (Hh & Hc & Hf & Hl & Ht & out & Hp & Ho)
         (Hh' & Hc' & Hf' & Hl' & Ht' & out' & Hp' & Ho').
  unfold writes. repeat split; try congruence.
  exists (out ++ out'). split.
  - rewrite Hp', Hp. by rewrite app_assoc.
  - by apply Forall_app.
Qed.

Lemma writes_weaken (P Q : element -> Prop) s s' :
  (forall e, P e -> Q e) -> writes P s s' -> writes Q s s'.
Proof.
  intros HPQ (Hh & Hc & Hf & Hl & Ht & out & Hp & Ho).
  unfold writes. repeat split; try assumption.
  exists out. split; [assumption |]. eapply Forall_impl; eauto.
Qed.

Section OnlyWrites.
Context {A B : Type} (P : element -> Prop).

Lemma only_writes_ret (a : A) : only_writes P (mret a : M A).
Proof. intros s. apply writes_refl. Qed.

Lemma only_writes_lift (r : result A) : only_writes P (lift r).
Proof. intros s. apply writes_refl. Qed.

Lemma only_writes_deref r : only_writes P (deref r).
Proof. intros s. unfold deref. destruct (heap s !! r); apply writes_refl. Qed.

Lemma only_writes_bind (m : M A) (f : A -> M B) :
  only_writes P m -> (forall a, only_writes P (f a)) -> only_writes P (m ≫= f).
Proof.
  intros Hm Hf s. rewrite run_bind. specialize (Hm s).
  destruct (m s) as [[a | e] s']; simpl in *; [| assumption].
  eapply writes_trans; [eassumption | apply Hf].
Qed.

Lemma only_writes_try (body : M A) handler :
  only_writes P body ->
  (forall e h, handler e = Some h -> only_writes P h) ->
  only_writes P (try_except body handler).
Proof.
  intros Hb Hh s. unfold try_except. specialize (Hb s).
  destruct (body s) as [[a | e] s']; simpl in *; [assumption |].
  destruct (handler e) as [h |] eqn:He; [| assumption].
  eapply writes_trans; [eassumption | eapply Hh; eassumption].
Qed.

Lemma only_writes_write e : P e -> only_writes P (st.write e).
Proof.
  intros He s. unfold writes; simpl. repeat split; try reflexivity.
  exists [e]. split; [reflexivity | by constructor].
Qed.

End OnlyWrites.

Lemma only_writes_weaken {A} (P Q : element -> Prop) (m : M A) :
  (forall e, P e -> Q e) -> only_writes P m -> only_writes Q m.
Proof. intros HPQ Hm s. eapply writes_weaken; eauto. Qed.

Ltac only_writes_step :=
  first
    [ apply only_writes_bind; [| intros ? ]
    | apply only_writes_lift
    | apply only_writes_ret
    | apply only_writes_deref
    | apply only_writes_write
    | apply only_writes_try ].

Section Claims.
Context {arithmetic : pd.Numerics}.

Lemma visualisation_1_only_writes r : only_writes trend_element (visualisation_1 r).
Proof.
  unfold visualisation_1, st.header, st.pyplot, st.markdown, st.warning, st.error.
  repeat only_writes_step; try exact I.
  intros e h He. destruct e; simplify_eq; apply only_writes_write; exact I.
Qed.

Lemma visualisation_3_only_writes r : only_writes boxplot_element (visualisation_3 r).
Proof.
  unfold visualisation_3, st.header, st.pyplot, st.markdown, st.error.
  repeat only_writes_step; try exact I.
  intros e h He. destruct e; simplify_eq; apply only_writes_write; exact I.
Qed.

Lemma visualisation_2_only_writes r : only_writes (fun _ => True) (visualisation_2 r).
Proof.
  unfold visualisation_2, st.header, st.subheader, st.map, st.pyplot, st.warning.
  apply only_writes_bind; [apply only_writes_write; exact I | intros _].
  apply only_writes_bind; [apply only_writes_deref | intros d].
  apply only_writes_bind; [apply only_writes_lift | intros sel].
  apply only_writes_bind; [apply only_writes_lift | intros stations_map].
  destruct (negb _); repeat only_writes_step; exact I.
Qed.

Lemma visualisations_only_write r :
  only_writes (fun _ => True) (visualisation_1 r;; visualisation_2 r;; visualisation_3 r).
Proof.
  apply only_writes_bind; [| intros _; apply only_writes_bind; [| intros _]].
  - eapply only_writes_weaken; [| apply visualisation_1_only_writes]. done.
  - apply visualisation_2_only_writes.
  - eapply only_writes_weaken; [| apply visualisation_3_only_writes]. done.
Qed.

(** * Frames: values *)

Lemma scalar_eqb_refl a : pd.scalar_eqb a a = true.
Proof.
  destruct a; simpl.
  - apply Z.eqb_refl.
  - apply Qeq_bool_iff. reflexivity.
  - apply String.eqb_refl.
  - apply Z.eqb_refl.
Qed.

Lemma scalar_eqb_sym a b : pd.scalar_eqb a b = pd.scalar_eqb b a.
Proof.
  destruct a, b; simpl; try reflexivity.
  - apply Z.eqb_sym.
  - apply eq_true_iff_eq. rewrite !Qeq_bool_iff. split; intros H; by symmetry.
  - apply String.eqb_sym.
  - apply Z.eqb_sym.
Qed.

Lemma scalar_eqb_trans a b c :
  pd.scalar_eqb a b = true -> pd.scalar_eqb b c = true -> pd.scalar_eqb a c = true.
Proof.
  destruct a, b, c; simpl; try discriminate.
  - rewrite !Z.eqb_eq. congruence.
  - rewrite !Qeq_bool_iff. intros H1 H2. by rewrite H1.
  - rewrite !String.eqb_eq. congruence.
  - rewrite !Z.eqb_eq. congruence.
Qed.

(** Two values that are equal are equal to the same values. *)
Lemma scalar_eqb_congr a b c :
  pd.scalar_eqb a b = true -> pd.scalar_eqb a c = pd.scalar_eqb b c.
Proof.
  intros Hab. destruct (pd.scalar_eqb b c) eqn:Hbc.
  - eapply scalar_eqb_trans; eauto.
  - destruct (pd.scalar_eqb a c) eqn:Hac; [| reflexivity].
    rewrite <- Hbc. symmetry. eapply scalar_eqb_trans; [| exact Hac].
    by rewrite scalar_eqb_sym.
Qed.

Lemma value_count_congr l a b :
  pd.scalar_eqb a b = true -> pd.value_count l a = pd.value_count l b.
Proof.
  intros Hab. unfold pd.value_count. f_equal.
  apply filter_ext. intros c. by apply scalar_eqb_congr.
Qed.

Lemma value_count_zero l a :
  (forall b, In b l -> pd.scalar_eqb a b = false) -> pd.value_count l a = 0.
Proof.
  unfold pd.value_count. induction l as [| x l IH]; simpl; [done |].
  intros H. rewrite (H x) by auto. apply IH. auto.
Qed.

(** ** First occurrences *)

Lemma unique_incl l a : In a (pd.unique l) -> In a l.
Proof.
  revert a. induction l as [| x l IH]; simpl; [done |].
  intros a [-> | Hin]; [auto |].
  apply filter_In in Hin as [Hin _]. auto.
Qed.

Lemma unique_covers l a :
  In a l -> exists b, In b (pd.unique l) /\ pd.scalar_eqb b a = true.
Proof.
  induction l as [| x l IH]; simpl; [done |].
  intros [-> | Hin].
  - exists a. split; [auto | apply scalar_eqb_refl].
  - destruct (IH Hin) as (b & Hb & Hba).
    destruct (pd.scalar_eqb x b) eqn:Hxb.
    + exists x. split; [auto |]. eapply scalar_eqb_trans; eauto.
    + exists b. split; [| exact Hba]. right. apply filter_In. by rewrite Hxb.
Qed.

Lemma unique_distinct l :
  ForallOrdPairs (fun a b => pd.scalar_eqb a b = false) (pd.unique l).
Proof.
  induction l as [| x l IH]; simpl; constructor.
  - apply List.Forall_forall. intros b Hb. apply filter_In in Hb as [_ Hb].
    by destruct (pd.scalar_eqb x b).
  - clear -IH. induction IH as [| b l' Hb Hl' IH']; simpl; [constructor |].
    destruct (negb (pd.scalar_eqb x b)); [| exact IH'].
    constructor; [| exact IH'].
    apply List.Forall_forall. intros c Hc. apply filter_In in Hc as [Hc _].
    rewrite List.Forall_forall in Hb. auto.
Qed.

(** ** Sorting *)

Lemma insert_sorted_perm x l : Permutation (pd.insert_sorted x l) (x :: l).
Proof.
  induction l as [| y l IH]; simpl; [done |].
  destruct (pd.scalar_leb x y); [done |].
  rewrite IH. apply perm_swap.
Qed.

Lemma sort_values_perm l : Permutation (pd.sort_values l) l.
Proof.
  unfold pd.sort_values. induction l as [| x l IH]; simpl; [done |].
  rewrite insert_sorted_perm. by constructor.
Qed.

Lemma sort_values_In l a : In a (pd.sort_values l) <-> In a l.
Proof.
  split; apply Permutation_in; [| symmetry]; apply sort_values_perm.
Qed.

(** ** Columns and their values *)

Lemma dropna_cells_In l v : In v (pd.dropna_cells l) <-> In (Some v) l.
Proof.
  unfold pd.dropna_cells. rewrite <- !list_elem_of_In, list_elem_of_omap.
  split.
  - intros (x & Hx & Hv). simpl in Hv. by subst.
  - intros H. by exists (Some v).
Qed.

Lemma cells_has_dtype c :
  Forall (has_dtype (pd.dtype_of c)) (pd.dropna_cells (pd.cells c)).
Proof.
  apply List.Forall_forall. intros v Hv. apply dropna_cells_In in Hv.
  destruct c; simpl in *; apply in_map_iff in Hv as (x & Hx & _);
    try (destruct x; simpl in Hx); simplify_eq; exact I.
Qed.

Lemma of_scalars_cells t l :
  Forall (has_dtype t) l -> pd.cells (pd.of_scalars t l) = List.map Some l.
Proof.
  induction 1 as [| v l Hv Hl IH]; [by destruct t |].
  destruct t, v; try done; simpl in *; f_equal; exact IH.
Qed.

(** ** The mode *)

Lemma mode_values_spec c top :
  In top (pd.mode_values c) ->
  In (Some top) (pd.cells c) /\
  forall v, pd.value_count (pd.dropna_cells (pd.cells c)) v
            <= pd.value_count (pd.dropna_cells (pd.cells c)) top.
Proof.
  unfold pd.mode_values. set (vs := pd.dropna_cells (pd.cells c)).
  rewrite sort_values_In, filter_In. intros [Hin Hbest].
  apply unique_incl in Hin. apply Nat.eqb_eq in Hbest.
  split; [by apply dropna_cells_In |].
  intros v. rewrite Hbest.
  destruct (existsb (pd.scalar_eqb v) vs) eqn:Hex.
  - apply existsb_exists in Hex as (w & Hw & Hvw).
    rewrite (value_count_congr _ _ _ Hvw).
    apply max_list_elem_of_le. apply list_elem_of_fmap.
    exists w. split; [reflexivity | by apply list_elem_of_In].
  - rewrite value_count_zero; [lia |].
    intros b Hb. destruct (pd.scalar_eqb v b) eqn:Hvb; [| reflexivity].
    rewrite <- Hex. symmetry. apply existsb_exists. eauto.
Qed.

Lemma mode_values_nonempty c v :
  In (Some v) (pd.cells c) -> pd.mode_values c <> [].
Proof.
  intros Hv. apply dropna_cells_In in Hv.
  unfold pd.mode_values. set (vs := pd.dropna_cells (pd.cells c)) in *.
  assert (Hne : List.map (pd.value_count vs) vs ≠ []) by (destruct vs; [done | discriminate]).
  apply max_list_elem_of, list_elem_of_fmap in Hne as (w & Hw & Hwin).
  apply list_elem_of_In, unique_covers in Hwin as (u & Hu & Huw).
  intros Hnil.
  assert (Hin : In u (pd.sort_values
            (List.filter (fun v => pd.value_count vs v =? max_list (List.map (pd.value_count vs) vs))
               (pd.unique vs)))).
  { apply sort_values_In, filter_In. split; [exact Hu |].
    apply Nat.eqb_eq. rewrite Hw. by apply value_count_congr. }
  rewrite Hnil in Hin. destruct Hin.
Qed.

Lemma mode_values_has_dtype c : Forall (has_dtype (pd.dtype_of c)) (pd.mode_values c).
Proof.
  apply List.Forall_forall. intros v Hv.
  apply mode_values_spec in Hv as [Hv _]. apply dropna_cells_In in Hv.
  pose proof (cells_has_dtype c) as H. rewrite List.Forall_forall in H. auto.
Qed.

Lemma mode_cells c : pd.cells (pd.mode c) = List.map Some (pd.mode_values c).
Proof. apply of_scalars_cells, mode_values_has_dtype. Qed.

(** The first entry of the mode, when the column has a value: a value of
    the column that no other value outnumbers. *)
Lemma mode_first c v :
  In (Some v) (pd.cells c) ->
  exists top,
    pd.getitem_0 (pd.mode c) = Ok (Some top) /\
    In (Some top) (pd.cells c) /\
    forall w, pd.value_count (pd.dropna_cells (pd.cells c)) w
              <= pd.value_count (pd.dropna_cells (pd.cells c)) top.
Proof.
  intros Hv. apply mode_values_nonempty in Hv.
  unfold pd.getitem_0. rewrite mode_cells.
  destruct (pd.mode_values c) as [| top rest] eqn:Hm; [done |].
  exists top. split; [reflexivity |].
  apply mode_values_spec. rewrite Hm. by left.
Qed.

(** No value: the mode is empty and has no first entry. *)
Lemma mode_empty c :
  (forall v, ~ In (Some v) (pd.cells c)) ->
  pd.getitem_0 (pd.mode c) = Raise (KeyError (Position 0)).
Proof.
  intros Hnone. unfold pd.getitem_0. rewrite mode_cells.
  destruct (pd.mode_values c) as [| top rest] eqn:Hm; [reflexivity |].
  destruct (mode_values_spec c top) as [Hin _]; [rewrite Hm; by left |].
  by apply Hnone in Hin.
Qed.

(** ** Rows selected by a mask *)

Lemma take_where_map {A B} (f : A -> B) mask (l : list A) :
  pd.take_where mask (List.map f l) = List.map f (pd.take_where mask l).
Proof.
  revert l. induction mask as [| b mask IH]; intros [| x l]; simpl; try reflexivity.
  destruct b; simpl; by rewrite IH.
Qed.

Lemma take_where_nil {A} mask : pd.take_where mask (@nil A) = [].
Proof. by destruct mask. Qed.

(** Selecting by a test on one column is filtering the rows. *)
Lemma take_where_filter {A B} (p : A -> bool) (la : list A) (lb : list B) :
  pd.take_where (List.map p la) lb = List.map snd (List.filter (fun r => p r.1) (zip la lb)).
Proof.
  revert lb. induction la as [| a la IH]; intros [| b lb]; simpl; try reflexivity.
  destruct (p a); simpl; by rewrite IH.
Qed.

(** Selecting by a test on a first column, then by a test on a second
    one, is filtering the rows by both tests. *)
Lemma take_where_twice {A B C} (p : A -> bool) (q : B -> bool)
    (la : list A) (lb : list B) (lc : list C) :
  pd.take_where (List.map q (pd.take_where (List.map p la) lb))
                (pd.take_where (List.map p la) lc)
  = List.map snd (List.filter (fun r => p r.1.1 && q r.1.2) (zip (zip la lb) lc)).
Proof.
  revert lb lc. induction la as [| a la IH]; intros [| b lb] [| c lc]; simpl;
    try reflexivity.
  - by rewrite take_where_nil.
  - destruct (p a); simpl; [| apply IH].
    destruct (q b); simpl; by rewrite IH.
Qed.

Lemma zip_extend {A B} (l : list A) (lc : list B) x :
  In x l -> length l <= length lc -> exists c, In (x, c) (zip l lc).
Proof.
  revert lc. induction l as [| a l IH]; intros [| c lc]; simpl; try done; try lia.
  intros [-> | Hin] Hlen.
  - exists c. by left.
  - destruct (IH lc Hin) as (c' & Hc'); [lia |]. exists c'. by right.
Qed.

Lemma zip_In_fst {A B} (l : list A) (lc : list B) x c :
  In (x, c) (zip l lc) -> In x l.
Proof.
  revert lc. induction l as [| a l IH]; intros [| c' lc]; simpl; try done.
  intros [H | H]; [left; congruence | right; eauto].
Qed.

Lemma cells_select_take_where mask c :
  pd.cells (pd.select (fun A => pd.take_where mask) c) = pd.take_where mask (pd.cells c).
Proof. destruct c; simpl; by rewrite take_where_map. Qed.

Lemma dtype_of_select f c : pd.dtype_of (pd.select f c) = pd.dtype_of c.
Proof. by destruct c. Qed.

Lemma omap_id_map_snd {A B} (l : list (A * option B)) :
  omap id (List.map snd l) = omap snd l.
Proof.
  induction l as [| [a [b |]] l IH]; simpl; [reflexivity | f_equal |]; exact IH.
Qed.

(** ** Years *)

Lemma year_value_eqb dates a b :
  pd.scalar_eqb (year_value dates a) (year_value dates b) = (a =? b)%Z.
Proof.
  unfold year_value. destruct (forallb _ dates); simpl; [reflexivity |].
  unfold Qeq_bool. simpl. by rewrite !Z.mul_1_r.
Qed.

Lemma year_value_inj dates a b : year_value dates a = year_value dates b -> a = b.
Proof.
  intros H. apply Z.eqb_eq. rewrite <- (year_value_eqb dates), H.
  apply scalar_eqb_refl.
Qed.

Lemma year_cell_eqb dates (o : option Z) y :
  pd.cell_eqb (year_value dates <$> o) (Some (year_value dates y))
  = bool_decide (o = Some y).
Proof.
  destruct o as [z |]; simpl; [| reflexivity].
  rewrite year_value_eqb. destruct (Z.eqb_spec z y) as [-> | Hne].
  - by rewrite bool_decide_eq_true_2.
  - rewrite bool_decide_eq_false_2; [reflexivity | congruence].
Qed.

Lemma cells_years dates :
  pd.cells (pd.years dates)
  = List.map (fun o => year_value dates <$> o) (List.map (option_map pd.year_of) dates).
Proof.
  unfold pd.years, year_value.
  destruct (forallb _ dates) eqn:Hall; simpl.
  - rewrite forallb_forall in Hall. rewrite List.map_map.
    induction dates as [| [ns |] dates IH]; simpl.
    + reflexivity.
    + f_equal. apply IH. intros x Hx. apply Hall. by right.
    + specialize (Hall None (or_introl eq_refl)). discriminate.
  - rewrite !List.map_map. apply map_ext. by intros [ns |].
Qed.

(** ** Group keys *)

Lemma group_keys_In c k : In k (pd.group_keys c) <-> exists k', In (Some k') (pd.cells c) /\ In k (pd.unique (pd.dropna_cells (pd.cells c))).
Proof.
  unfold pd.group_keys. rewrite sort_values_In. split.
  - intros H. exists k. split; [| exact H]. by apply dropna_cells_In, unique_incl.
  - by intros (_ & _ & H).
Qed.

Lemma group_keys_has_dtype c : Forall (has_dtype (pd.dtype_of c)) (pd.group_keys c).
Proof.
  apply List.Forall_forall. intros k Hk.
  unfold pd.group_keys in Hk. apply sort_values_In, unique_incl in Hk.
  pose proof (cells_has_dtype c) as H. rewrite List.Forall_forall in H. auto.
Qed.

Lemma group_keys_NoDup c : NoDup (pd.group_keys c).
Proof.
  unfold pd.group_keys.
  rewrite sort_values_perm.
  pose proof (unique_distinct (pd.dropna_cells (pd.cells c))) as H.
  induction H as [| a l Ha Hl IH]; constructor; [| exact IH].
  intros Hin. apply list_elem_of_In in Hin.
  rewrite List.Forall_forall in Ha. specialize (Ha a Hin).
  by rewrite scalar_eqb_refl in Ha.
Qed.

Lemma image_list {A B} (f : A -> B) (l : list B) :
  (forall b, In b l -> exists a, b = f a) -> exists la, l = List.map f la.
Proof.
  induction l as [| b l IH]; intros H; [by exists [] |].
  destruct (H b (or_introl eq_refl)) as (a & ->).
  destruct IH as (la & ->); [intros; apply H; by right |].
  by exists (a :: la).
Qed.

(** The keys of a year column are the years it holds, each once. *)
Lemma year_keys_of yr dates (yz : list (option Z)) :
  pd.cells yr = List.map (fun o => year_value dates <$> o) yz ->
  exists ys,
    pd.group_keys yr = List.map (year_value dates) ys /\
    NoDup ys /\
    forall y, In y ys <-> In (Some y) yz.
Proof.
  intros Hcells.
  assert (Hval : forall k, In (Some k) (pd.cells yr) <->
            exists y, k = year_value dates y /\ In (Some y) yz).
  { intros k. rewrite Hcells, in_map_iff. split.
    - intros ([y |] & Hk & Hin); simpl in Hk; simplify_eq. eauto.
    - intros (y & -> & Hin). by exists (Some y). }
  destruct (image_list (year_value dates) (pd.group_keys yr)) as (ys & Hys).
  { intros k Hk. apply group_keys_In in Hk as (_ & _ & Hk).
    apply unique_incl, dropna_cells_In, Hval in Hk as (y & -> & _). eauto. }
  exists ys. split; [exact Hys |]. split.
  - pose proof (group_keys_NoDup yr) as Hnd. rewrite Hys in Hnd.
    by apply NoDup_fmap_1 in Hnd.
  - intros y. split.
    + intros Hy.
      assert (Hk : In (year_value dates y) (pd.group_keys yr)).
      { rewrite Hys. by apply in_map. }
      apply group_keys_In in Hk as (_ & _ & Hk).
      apply unique_incl, dropna_cells_In, Hval in Hk as (y' & Heq & Hin).
      by apply year_value_inj in Heq as ->.
    + intros Hy.
      assert (Hin : In (year_value dates y) (pd.dropna_cells (pd.cells yr))).
      { apply dropna_cells_In, Hval. eauto. }
      destruct (unique_covers _ _ Hin) as (b & Hb & Hby).
      assert (Hb' := Hb). apply unique_incl, dropna_cells_In, Hval in Hb' as (y' & -> & _).
      rewrite year_value_eqb in Hby. apply Z.eqb_eq in Hby as ->.
      assert (Hk : In (year_value dates y) (pd.group_keys yr)).
      { apply group_keys_In. exists (year_value dates y).
        split; [by apply dropna_cells_In | exact Hb]. }
      rewrite Hys in Hk. apply in_map_iff in Hk as (y'' & Heq & Hk).
      by apply year_value_inj in Heq as ->.
Qed.

(** The keys of a year column restricted by a mask are the years of the
    rows the mask keeps. *)
Lemma year_keys dates mask :
  let yr' := pd.select (fun A => pd.take_where mask) (pd.years dates) in
  exists ys,
    pd.group_keys yr' = List.map (year_value dates) ys /\
    NoDup ys /\
    forall y, In y ys <->
              In (Some y) (pd.take_where mask (List.map (option_map pd.year_of) dates)).
Proof.
  intros yr'. apply year_keys_of.
  unfold yr'. by rewrite cells_select_take_where, cells_years, take_where_map.
Qed.

(** ** Yearly means *)



Lemma numbers_length c temps : numbers c = Some temps -> length temps = pd.len c.
Proof.
  destruct c; simpl; intros H; simplify_eq; unfold pd.len; simpl;
    by rewrite ?length_map.
Qed.

Lemma omap_id_map_Some {A B} (f : A -> B) (l : list A) :
  omap id (List.map (fun x => Some (f x)) l) = List.map f l.
Proof. induction l as [| x l IH]; simpl; [reflexivity | f_equal; exact IH]. Qed.

(** The group means of a numeric column restricted to a station, by year,
    are the yearly means of the readings. *)
Lemma yearly_group_means ids dates c temps top ys :
  numbers c = Some temps ->
  let mask := pd.eq_mask ids (Some top) in
  let yr' := pd.select (fun A => pd.take_where mask) (pd.years dates) in
  pd.group_means (pd.select (fun A => pd.take_where mask) c)
    (List.map (fun k => pd.eq_mask yr' (Some k)) (List.map (year_value dates) ys))
  = Ok (pd.Float64 (List.map (yearly_mean (readings ids dates temps) top) ys)).
Proof.
  intros Hc mask yr'.
  assert (Hmask : forall y, pd.eq_mask yr' (Some (year_value dates y))
    = List.map (fun oz => bool_decide (oz = Some y))
        (pd.take_where (List.map (fun x => pd.cell_eqb x (Some top)) (pd.cells ids))
           (List.map (option_map pd.year_of) dates))).
  { intros y. unfold pd.eq_mask, yr'.
    rewrite cells_select_take_where, cells_years, take_where_map, List.map_map.
    apply map_ext. intros oz. apply year_cell_eqb. }
  assert (Hgroup : forall y,
    omap id (pd.take_where (pd.eq_mask yr' (Some (year_value dates y)))
               (pd.take_where mask temps))
    = omap snd (List.filter (fun r => at_station top r && in_year y r)
                  (readings ids dates temps))).
  { intros y. rewrite Hmask. unfold mask, pd.eq_mask.
    rewrite take_where_twice. apply omap_id_map_snd. }
  destruct c as [zs | xs | |]; simpl in Hc; simplify_eq; simpl.
  - f_equal. f_equal. rewrite (List.map_map (year_value dates)), List.map_map.
    apply map_ext. intros y.
    unfold yearly_mean. rewrite <- Hgroup. f_equal. fold mask.
    rewrite !take_where_map. by rewrite omap_id_map_Some.
  - f_equal. f_equal. rewrite (List.map_map (year_value dates)), List.map_map.
    apply map_ext. intros y.
    unfold yearly_mean. by rewrite <- Hgroup.
Qed.

(** ** Rows *)








(** ** Masks and rows *)









(** ** Rows without duplicates *)







(** ** Frames: lookup *)

Lemma contains_assoc df l :
  pd.contains df l = bool_decide (is_Some (pd.assoc l (pd.columns df))).
Proof.
  unfold pd.contains, pd.labels. induction (pd.columns df) as [| [l' c] cols IH]; simpl.
  - reflexivity.
  - destruct (String.eqb l l'); simpl; [reflexivity | exact IH].
Qed.

(** ** Frames: renaming *)

Lemma assoc_In l cols c : pd.assoc l cols = Some c -> In (l, c) cols.
Proof.
  induction cols as [| [k c'] cols IH]; simpl; [done |].
  destruct (String.eqb_spec l k) as [-> | Hne]; intros H; [left; congruence | right; auto].
Qed.

Lemma assoc_rename mapping d l c :
  NoDup (pd.labels (pd.rename mapping d)) ->
  pd.assoc l (pd.columns d) = Some c ->
  pd.assoc (pd.rename_label mapping l) (pd.columns (pd.rename mapping d)) = Some c.
Proof.
  unfold pd.labels, pd.rename. simpl.
  induction (pd.columns d) as [| [k c'] cols IH]; simpl; [done |].
  intros Hnd Hl. apply NoDup_cons in Hnd as [Hk Hnd].
  destruct (String.eqb_spec l k) as [-> | Hne].
  - by rewrite String.eqb_refl.
  - destruct (String.eqb_spec (pd.rename_label mapping l) (pd.rename_label mapping k))
      as [Heq | _]; [| auto].
    exfalso. apply Hk. rewrite <- Heq. apply list_elem_of_In.
    rewrite List.map_map. apply in_map_iff. exists (l, c). split; [reflexivity |].
    by apply assoc_In.
Qed.

Lemma getitem_assoc d l c : pd.getitem d l = Ok c <-> pd.assoc l (pd.columns d) = Some c.
Proof.
  unfold pd.getitem. destruct (pd.assoc l (pd.columns d)); split; intros H; by simplify_eq.
Qed.

Lemma well_formed_len d l c :
  pd.well_formed d -> pd.assoc l (pd.columns d) = Some c -> pd.len c = pd.nrows d.
Proof.
  intros [_ Hlen] Hc. apply assoc_In in Hc.
  rewrite List.Forall_forall in Hlen. exact (Hlen _ Hc).
Qed.

(** ** plot_visualizations, step by step *)

(** What the routine does before the charts: a renamed copy of the argument
    is put in the store; either the date column is checked and the year
    column added to the copy, or the routine stops with an error message. *)
Lemma plot_visualizations_run df dept_code s d :
  heap s !! df = Some d ->
  plot_visualizations df dept_code s =
  let d' := pd.rename column_names d in
  let local := length (heap s) in
  match pd.assoc "AAAAMMJJ" (pd.columns d') with
  | Some (pd.Datetime64 xs) =>
      (visualisation_1 local;; visualisation_2 local;; visualisation_3 local)
        (with_heap (heap s ++ [pd.setitem "Year" (pd.years xs) d']) s)
  | _ =>
      (Ok tt,
       with_page
         (page s ++ [Error [Text "Colonne 'AAAAMMJJ' (date) manquante ou format incorrect."]])
         (with_heap (heap s ++ [d']) s))
  end.
Proof.
  intros Hd. unfold plot_visualizations.
  rewrite (run_bind_ok _ _ _ _ _ (run_deref _ _ _ Hd)).
  rewrite run_bind. unfold new at 1. cbv beta iota.
  set (d' := pd.rename column_names d).
  set (s1 := with_heap (heap s ++ [d']) s).
  assert (Hl : heap s1 !! length (heap s) = Some d').
  { unfold s1; simpl. by rewrite list_lookup_middle. }
  rewrite (run_bind_ok _ _ _ _ _ (run_deref _ _ _ Hl)).
  rewrite contains_assoc. unfold pd.getitem.
  destruct (pd.assoc "AAAAMMJJ" (pd.columns d')) as [c |] eqn:Hc.
  - rewrite bool_decide_eq_true_2 by eauto.
    rewrite run_bind, run_lift_bind, run_ret.
    destruct c; unfold pd.is_datetime64_any_dtype; cbv beta iota; try reflexivity.
    rewrite run_lift_bind. unfold pd.dt_year. rewrite run_lift_bind, run_assign_bind.
    f_equal. unfold s1, with_heap; simpl. f_equal.
    rewrite insert_app_r_alt by lia. by rewrite Nat.sub_diag.
  - rewrite bool_decide_eq_false_2 by (by intros [? ?]).
    rewrite run_bind, run_ret. reflexivity.
Qed.

(** * Which exceptions can be raised *)

Section RaisesOnly.
Context {A B : Type} (Q : exn -> Prop).

Lemma raises_only_ret (a : A) : raises_only Q (mret a : M A).
Proof. intros s e H. discriminate. Qed.

Lemma raises_only_lift (r : result A) :
  (forall e, r = Raise e -> Q e) -> raises_only Q (lift r).
Proof. intros H s e He. apply H. exact He. Qed.

Lemma raises_only_write el : raises_only Q (st.write el).
Proof. intros s e H. discriminate. Qed.

Lemma raises_only_deref r : Q (OtherException "NameError" "unbound") -> raises_only Q (deref r).
Proof.
  intros H s e. unfold deref. destruct (heap s !! r); simpl; intros He; by simplify_eq.
Qed.

Lemma raises_only_bind (m : M A) (f : A -> M B) :
  raises_only Q m -> (forall a, raises_only Q (f a)) -> raises_only Q (m ≫= f).
Proof.
  intros Hm Hf s e. rewrite run_bind. specialize (Hm s).
  destruct (m s) as [[a | e'] s']; simpl in *.
  - apply Hf.
  - intros He. apply Hm. by simplify_eq.
Qed.

End RaisesOnly.

(** A handler is only entered for the exceptions the body can raise. *)
Lemma only_writes_try_raised {A} (P : element -> Prop) (Q : exn -> Prop)
    (body : M A) handler :
  only_writes P body ->
  raises_only Q body ->
  (forall e h, Q e -> handler e = Some h -> only_writes P h) ->
  only_writes P (try_except body handler).
Proof.
  intros Hb Hq Hh s. unfold try_except. specialize (Hb s). specialize (Hq s).
  destruct (body s) as [[a | e] s']; simpl in *; [assumption |].
  destruct (handler e) as [h |] eqn:He; [| assumption].
  eapply writes_trans; [eassumption |]. eapply Hh; [| eassumption]. by apply Hq.
Qed.

Lemma getitem_raises d l e : pd.getitem d l = Raise e -> not_IndexError e.
Proof. unfold pd.getitem. destruct (pd.assoc l _); intros H; by simplify_eq. Qed.

Lemma getitem_0_raises c e : pd.getitem_0 c = Raise e -> not_IndexError e.
Proof. unfold pd.getitem_0. destruct (pd.cells c); intros H; by simplify_eq. Qed.

Lemma group_means_raises c ms e : pd.group_means c ms = Raise e -> not_IndexError e.
Proof.
  unfold pd.group_means. destruct c; try discriminate.
  destruct (existsb _ ms); intros H; by simplify_eq.
Qed.

Lemma groupby_mean_raises d by_ col e :
  pd.groupby_mean d by_ col = Raise e -> not_IndexError e.
Proof.
  unfold pd.groupby_mean.
  destruct (pd.getitem d by_) as [keys |] eqn:Hk; simpl;
    [| intros H; simplify_eq; by eapply getitem_raises].
  destruct (pd.assoc col (pd.columns d)) as [vals |]; simpl;
    [| intros H; by simplify_eq].
  destruct (pd.group_means vals _) as [means |] eqn:Hm; simpl;
    [| intros H; simplify_eq; by eapply group_means_raises].
  destruct (String.eqb by_ col); intros H; by simplify_eq.
Qed.

(** The first section never writes the warning of its [except IndexError]
    clause: nothing in its body raises that exception. *)
Lemma visualisation_1_never_warns r :
  only_writes (fun e => e <> not_enough_data) (visualisation_1 r).
Proof.
  unfold visualisation_1, st.header, st.pyplot, st.markdown, st.warning, st.error.
  apply only_writes_bind; [by apply only_writes_write | intros _].
  apply (only_writes_try_raised _ not_IndexError).
  - repeat only_writes_step; done.
  - apply raises_only_bind; [by apply raises_only_deref | intros d].
    apply raises_only_bind; [apply raises_only_lift, getitem_raises | intros ids].
    apply raises_only_bind; [apply raises_only_lift, getitem_0_raises | intros top].
    cbv zeta.
    apply raises_only_bind; [apply raises_only_lift, groupby_mean_raises | intros df_annual].
    apply raises_only_bind; [apply raises_only_lift, getitem_raises | intros x].
    apply raises_only_bind; [apply raises_only_lift, getitem_raises | intros y].
    apply raises_only_bind; [apply raises_only_write | intros _].
    apply raises_only_write.
  - intros e h He Hh. destruct e; simplify_eq; [| done].
    by apply only_writes_write.
Qed.

Lemma visualisation_2_never_warns r :
  only_writes (fun e => e <> not_enough_data) (visualisation_2 r).
Proof.
  unfold visualisation_2, st.header, st.subheader, st.map, st.pyplot, st.warning.
  apply only_writes_bind; [by apply only_writes_write | intros _].
  apply only_writes_bind; [apply only_writes_deref | intros d].
  apply only_writes_bind; [apply only_writes_lift | intros sel].
  apply only_writes_bind; [apply only_writes_lift | intros stations_map].
  destruct (negb _); repeat only_writes_step; done.
Qed.

Lemma plot_visualizations_never_warns df dept_code s d :
  heap s !! df = Some d ->
  exists out,
    page (plot_visualizations df dept_code s).2 = page s ++ out /\
    ~ In not_enough_data out.
Proof.
  intros Hd. rewrite (plot_visualizations_run _ _ _ _ Hd). cbv zeta.
  assert (Hstop : exists out,
    page s ++ [Error [Text "Colonne 'AAAAMMJJ' (date) manquante ou format incorrect."]]
      = page s ++ out /\ ~ In not_enough_data out).
  { eexists. split; [reflexivity |]. intros [H | []]. discriminate. }
  destruct (pd.assoc "AAAAMMJJ" _) as [[xs | xs | xs | xs] |]; try exact Hstop.
  set (s1 := with_heap _ s).
  assert (Hw : only_writes (fun e => e <> not_enough_data)
                 (visualisation_1 (length (heap s));; visualisation_2 (length (heap s));;
                  visualisation_3 (length (heap s)))).
  { apply only_writes_bind; [apply visualisation_1_never_warns | intros _].
    apply only_writes_bind; [apply visualisation_2_never_warns | intros _].
    eapply only_writes_weaken; [| apply visualisation_3_only_writes].
    intros e He ->. exact He. }
  destruct (Hw s1) as (_ & _ & _ & _ & _ & out & Hout & Hall).
  exists out. split; [exact Hout |].
  rewrite List.Forall_forall in Hall. intros Hin. by apply (Hall _ Hin).
Qed.

(** ** Frames: what an operation reads *)

Lemma assoc_set_assoc l l' c cols :
  pd.assoc l (pd.set_assoc l' c cols) =
  if String.eqb l l' then Some c else pd.assoc l cols.
Proof.
  induction cols as [| [k c'] cols IH]; simpl.
  - destruct (String.eqb l l'); reflexivity.
  - destruct (String.eqb_spec l' k) as [-> | Hne]; simpl.
    + destruct (String.eqb l k); reflexivity.
    + destruct (String.eqb_spec l k) as [-> | Hne'].
      * destruct (String.eqb_spec k l'); [congruence | reflexivity].
      * exact IH.
Qed.

Lemma assoc_rows_where mask l d :
  pd.assoc l (pd.columns (pd.rows_where mask d)) =
  pd.select (fun A => pd.take_where mask) <$> pd.assoc l (pd.columns d).
Proof.
  simpl. induction (pd.columns d) as [| [k c] cols IH]; simpl; [reflexivity |].
  destruct (String.eqb l k); [reflexivity | exact IH].
Qed.

Lemma agree_weaken ls ls' d1 d2 :
  (forall l, In l ls' -> In l ls) -> agree ls d1 d2 -> agree ls' d1 d2.
Proof. intros Hsub [Hi Hc]. split; auto. Qed.

Lemma agree_setitem ls l c d1 d2 :
  agree ls d1 d2 -> agree (l :: ls) (pd.setitem l c d1) (pd.setitem l c d2).
Proof.
  intros [Hi Hc]. split; [exact Hi |]. intros k Hk. simpl.
  rewrite !assoc_set_assoc. destruct (String.eqb_spec k l) as [-> | Hne]; [reflexivity |].
  destruct Hk as [-> | Hk]; [congruence | auto].
Qed.

Lemma agree_rows_where ls mask d1 d2 :
  agree ls d1 d2 -> agree ls (pd.rows_where mask d1) (pd.rows_where mask d2).
Proof.
  intros [Hi Hc]. split; [simpl; by rewrite Hi |].
  intros l Hl. rewrite !assoc_rows_where. by rewrite (Hc l Hl).
Qed.

Lemma agree_getitem ls l d1 d2 :
  agree ls d1 d2 -> In l ls -> pd.getitem d1 l = pd.getitem d2 l.
Proof. intros [_ Hc] Hl. unfold pd.getitem. by rewrite (Hc l Hl). Qed.

Lemma agree_contains ls l d1 d2 :
  agree ls d1 d2 -> In l ls -> pd.contains d1 l = pd.contains d2 l.
Proof. intros [_ Hc] Hl. rewrite !contains_assoc. by rewrite (Hc l Hl). Qed.

Lemma agree_groupby_mean ls by_ col d1 d2 :
  agree ls d1 d2 -> In by_ ls -> In col ls ->
  pd.groupby_mean d1 by_ col = pd.groupby_mean d2 by_ col.
Proof.
  intros Ha Hby Hcol. unfold pd.groupby_mean.
  rewrite (agree_getitem _ _ _ _ Ha Hby).
  destruct Ha as [_ Hc]. by rewrite (Hc col Hcol).
Qed.

Lemma agree_boxplot_groups ls col by_ d1 d2 :
  agree ls d1 d2 -> In by_ ls -> In col ls ->
  pd.boxplot_groups d1 col by_ = pd.boxplot_groups d2 col by_.
Proof.
  intros Ha Hby Hcol. unfold pd.boxplot_groups.
  rewrite (agree_getitem _ _ _ _ Ha Hby).
  destruct Ha as [_ Hc]. by rewrite (Hc col Hcol).
Qed.

Lemma agree_getitem_list ls ls' d1 d2 :
  agree ls d1 d2 -> (forall l, In l ls' -> In l ls) ->
  pd.getitem_list d1 ls' = pd.getitem_list d2 ls'.
Proof.
  intros Ha Hsub. unfold pd.getitem_list.
  assert (Hf : List.filter (fun l => negb (pd.contains d1 l)) ls'
             = List.filter (fun l => negb (pd.contains d2 l)) ls').
  { apply filter_ext_in. intros l Hl. f_equal. eapply agree_contains; eauto. }
  rewrite Hf. destruct Ha as [Hi Hc]. rewrite Hi.
  assert (Ho : omap (fun l => pair l <$> pd.assoc l (pd.columns d1)) ls'
             = omap (fun l => pair l <$> pd.assoc l (pd.columns d2)) ls').
  { clear Hf. induction ls' as [| l ls' IH]; [reflexivity |]. simpl.
    rewrite (Hc l) by (apply Hsub; by left).
    assert (IH' := IH (fun k Hk => Hsub k (or_intror Hk))).
    destruct (pd.assoc l (pd.columns d2)); simpl; [f_equal |]; exact IH'. }
  by rewrite Ho.
Qed.

(** * Computations that read the same columns *)

Section SameOutput.
Context {A B : Type} (r1 r2 : ref) (d1 d2 : pd.DataFrame).

Lemma same_output_ret (a : A) : same_output r1 r2 d1 d2 (mret a : M A) (mret a).
Proof.
  intros s1 s2 _ _. exists (Ok a), []. rewrite !app_nil_r.
  split; by destruct s1, s2.
Qed.

Lemma same_output_lift (r : result A) : same_output r1 r2 d1 d2 (lift r) (lift r).
Proof.
  intros s1 s2 _ _. exists r, []. rewrite !app_nil_r.
  split; by destruct s1, s2.
Qed.

Lemma same_output_write e : same_output r1 r2 d1 d2 (st.write e) (st.write e).
Proof. intros s1 s2 _ _. exists (Ok tt), [e]. split; reflexivity. Qed.

Lemma same_output_bind (m1 m2 : M A) (f1 f2 : A -> M B) :
  same_output r1 r2 d1 d2 m1 m2 ->
  (forall a, same_output r1 r2 d1 d2 (f1 a) (f2 a)) ->
  same_output r1 r2 d1 d2 (m1 ≫= f1) (m2 ≫= f2).
Proof.
  intros Hm Hf s1 s2 H1 H2.
  destruct (Hm s1 s2 H1 H2) as (res & out & E1 & E2).
  rewrite !run_bind, E1, E2. destruct res as [a | e].
  - destruct (Hf a (with_page (page s1 ++ out) s1) (with_page (page s2 ++ out) s2) H1 H2)
      as (res' & out' & E1' & E2').
    exists res', (out ++ out'). rewrite E1', E2'. simpl.
    by rewrite !app_assoc.
  - exists (Raise e), out. split; reflexivity.
Qed.

Lemma same_output_deref_bind (f1 f2 : pd.DataFrame -> M B) :
  same_output r1 r2 d1 d2 (f1 d1) (f2 d2) ->
  same_output r1 r2 d1 d2 (deref r1 ≫= f1) (deref r2 ≫= f2).
Proof.
  intros Hf s1 s2 H1 H2.
  rewrite (run_bind_ok _ _ _ _ _ (run_deref _ _ _ H1)).
  rewrite (run_bind_ok _ _ _ _ _ (run_deref _ _ _ H2)).
  by apply Hf.
Qed.

Lemma same_output_try (b1 b2 : M A) h1 h2 :
  same_output r1 r2 d1 d2 b1 b2 ->
  (forall e, match h1 e, h2 e with
             | Some k1, Some k2 => same_output r1 r2 d1 d2 k1 k2
             | None, None => True
             | _, _ => False
             end) ->
  same_output r1 r2 d1 d2 (try_except b1 h1) (try_except b2 h2).
Proof.
  intros Hb Hh s1 s2 H1 H2.
  destruct (Hb s1 s2 H1 H2) as (res & out & E1 & E2).
  unfold try_except. rewrite E1, E2. destruct res as [a | e].
  - exists (Ok a), out. split; reflexivity.
  - specialize (Hh e). destruct (h1 e) as [k1 |], (h2 e) as [k2 |]; try done.
    + destruct (Hh (with_page (page s1 ++ out) s1) (with_page (page s2 ++ out) s2) H1 H2)
        as (res' & out' & E1' & E2').
      exists res', (out ++ out'). rewrite E1', E2'. simpl. by rewrite !app_assoc.
    + exists (Raise e), out. split; reflexivity.
Qed.

End SameOutput.

Ltac same_output_step :=
  first
    [ apply same_output_bind; [| intros ? ]
    | apply same_output_lift
    | apply same_output_ret
    | apply same_output_write ].

Lemma visualisation_1_reads r1 r2 d1 d2 :
  agree ["NUM_POSTE"; "Year"; "TN_float"] d1 d2 ->
  same_output r1 r2 d1 d2 (visualisation_1 r1) (visualisation_1 r2).
Proof.
  intros Ha. unfold visualisation_1, st.header, st.pyplot, st.markdown, st.warning, st.error.
  apply same_output_bind; [apply same_output_write | intros _].
  apply same_output_try.
  - apply same_output_deref_bind.
    rewrite (agree_getitem _ "NUM_POSTE" _ _ Ha) by (simpl; auto).
    apply same_output_bind; [apply same_output_lift | intros ids].
    apply same_output_bind; [apply same_output_lift | intros top].
    cbv zeta.
    rewrite (agree_groupby_mean _ "Year" "TN_float" _ _
               (agree_rows_where _ (pd.eq_mask ids top) _ _ Ha)) by (simpl; auto).
    repeat same_output_step.
  - intros e. destruct e; try exact I; apply same_output_write.
Qed.

Lemma visualisation_2_reads r1 r2 d1 d2 :
  agree ["NUM_POSTE"; "NOM_USUEL"; "LAT_float"; "LON_float"; "ALTI_float"] d1 d2 ->
  same_output r1 r2 d1 d2 (visualisation_2 r1) (visualisation_2 r2).
Proof.
  intros Ha. unfold visualisation_2, st.header, st.subheader, st.map, st.pyplot, st.warning.
  apply same_output_bind; [apply same_output_write | intros _].
  apply same_output_deref_bind.
  rewrite (agree_getitem_list _ _ _ _ Ha) by auto.
  apply same_output_bind; [apply same_output_lift | intros sel].
  apply same_output_bind; [apply same_output_lift | intros stations_map].
  destruct (negb _); repeat same_output_step.
Qed.

Lemma visualisation_3_reads r1 r2 d1 d2 :
  agree ["TN_float"; "Year"] d1 d2 ->
  same_output r1 r2 d1 d2 (visualisation_3 r1) (visualisation_3 r2).
Proof.
  intros Ha. unfold visualisation_3, st.header, st.pyplot, st.markdown, st.error.
  apply same_output_bind; [apply same_output_write | intros _].
  apply same_output_try.
  - apply same_output_deref_bind.
    rewrite (agree_boxplot_groups _ "TN_float" "Year" _ _ Ha) by (simpl; auto).
    repeat same_output_step.
  - intros e. destruct e; try exact I; apply same_output_write.
Qed.

(** ** The first section when nothing is raised *)

Lemma visualisation_1_run r s d ids top yr tn means :
  heap s !! r = Some d ->
  pd.assoc "NUM_POSTE" (pd.columns d) = Some ids ->
  pd.getitem_0 (pd.mode ids) = Ok top ->
  pd.assoc "Year" (pd.columns d) = Some yr ->
  pd.assoc "TN_float" (pd.columns d) = Some tn ->
  let mask := pd.eq_mask ids top in
  let yr' := pd.select (fun A => pd.take_where mask) yr in
  let tn' := pd.select (fun A => pd.take_where mask) tn in
  let ks := pd.group_keys yr' in
  pd.group_means tn' (List.map (fun k => pd.eq_mask yr' (Some k)) ks) = Ok means ->
  visualisation_1 r s =
  (Ok tt,
   with_page
     (page s ++
      [Header [Text "1. Évolution Temporelle de la Température Minimale (TN) 📈"];
       Pyplot
         {| plt.drawn := plt.Line (pd.cells (pd.of_scalars (pd.dtype_of yr') ks))
                                  (pd.cells means);
            plt.title := [Text "Température Minimale Moyenne Annuelle pour la station ";
                          Val top];
            plt.xlabel := "Année";
            plt.ylabel := "Température Minimale Moyenne (°C)";
            plt.colorbar := None |};
       Markdown
         [Text "Cette courbe montre la tendance annuelle de la température minimale pour la station la plus fréquente (";
          Val top; Text ")."]])
     s).
Proof.
  intros Hd Hids Htop Hyr Htn mask yr' tn' ks Hmeans.
  unfold visualisation_1, st.header. rewrite run_write_bind.
  unfold try_except.
  set (s1 := with_page _ s).
  assert (Hd1 : heap s1 !! r = Some d) by exact Hd.
  rewrite (run_bind_ok _ _ _ _ _ (run_deref _ _ _ Hd1)). cbv beta.
  rewrite (proj2 (getitem_assoc _ _ _) Hids), run_lift_bind.
  rewrite Htop, run_lift_bind. cbv beta zeta.
  assert (Hg : pd.groupby_mean (pd.rows_where (pd.eq_mask ids top) d) "Year" "TN_float"
             = Ok {| pd.index := List.map Z.of_nat (seq 0 (length ks));
                     pd.columns := [("Year", pd.of_scalars (pd.dtype_of yr') ks);
                                    ("TN_float", means)] |}).
  { unfold pd.groupby_mean, pd.getitem.
    rewrite !assoc_rows_where, Hyr, Htn. simpl.
    fold mask. fold yr'. fold tn'. fold ks. rewrite Hmeans. reflexivity. }
  rewrite Hg, run_lift_bind.
  unfold pd.getitem. simpl pd.assoc. rewrite !run_lift_bind.
  unfold st.pyplot, st.markdown. rewrite !run_write_bind.
  unfold s1. simpl. repeat rewrite <- app_assoc. reflexivity.
Qed.

(** * The argument of plot_visualizations *)

(** C9. plot_visualizations does not change the frame it is given: the
    store after the call is the store before it followed by one new frame,
    the renamed copy, which alone receives the year column. *)
Theorem plot_visualizations_leaves_argument df dept_code s d :
  heap s !! df = Some d ->
  let s' := (plot_visualizations df dept_code s).2 in
  heap s' !! df = Some d /\
  exists local,
    heap s' = heap s ++ [local] /\
    (local = pd.rename column_names d \/
     exists year, local = pd.setitem "Year" year (pd.rename column_names d)).
Proof.
  intros Hd s'.
  assert (exists local,
    heap s' = heap s ++ [local] /\
    (local = pd.rename column_names d \/
     exists year, local = pd.setitem "Year" year (pd.rename column_names d)))
    as (local & Hs' & Hlocal).
  { unfold s'. rewrite (plot_visualizations_run _ _ _ _ Hd). cbv zeta.
    destruct (pd.assoc "AAAAMMJJ" _) as [[xs | xs | xs | xs] |];
      try (eexists; split; [reflexivity | by left]).
    destruct (visualisations_only_write (length (heap s))
                (with_heap (heap s ++ [pd.setitem "Year" (pd.years xs)
                                         (pd.rename column_names d)]) s))
      as (Hh & _).
    rewrite Hh. eexists; split; [reflexivity | right; eauto]. }
  split; [| eauto].
  rewrite Hs'. by apply lookup_app_l_Some.
Qed.


(** * The loader *)

Section Loader.
Variable process_weather_data : string -> list string -> result pd.DataFrame.

(** The function under the decorator: the call to the data source is
    recorded; its frame is returned, or its exception is turned into a
    message and an empty frame. *)
Lemma load_data_uncached_run dept_code s :
  load_data_uncached process_weather_data dept_code s =
  let s1 := with_fetched (fetched s ++ [dept_code]) s in
  match process_weather_data dept_code (fetched s) with
  | Ok df => (Ok (length (heap s)), with_heap (heap s ++ [df]) s1)
  | Raise e =>
      (Ok (length (heap s)),
       with_heap (heap s ++ [pd.empty_frame])
         (with_page (page s ++ [Error [Text "Erreur lors du chargement des données: "; Str e]])
            s1))
  end.
Proof.
  unfold load_data_uncached, try_except, f_process_weather_data.
  rewrite run_bind.
  destruct (process_weather_data dept_code (fetched s)); reflexivity.
Qed.

(** A first call. *)
Lemma load_data_miss dept_code s :
  cache s !! dept_code = None ->
  load_data process_weather_data dept_code s =
  let s1 := with_fetched (fetched s ++ [dept_code]) s in
  match process_weather_data dept_code (fetched s) with
  | Ok df =>
      (Ok (length (heap s)),
       with_cache (<[dept_code := (df, [])]> (cache s)) (with_heap (heap s ++ [df]) s1))
  | Raise e =>
      let shown := [Error [Text "Erreur lors du chargement des données: "; Str e]] in
      (Ok (length (heap s)),
       with_cache (<[dept_code := (pd.empty_frame, shown)]> (cache s))
         (with_heap (heap s ++ [pd.empty_frame]) (with_page (page s ++ shown) s1)))
  end.
Proof.
  intros Hmiss. unfold load_data, cache_data. rewrite Hmiss.
  rewrite load_data_uncached_run. cbv zeta.
  destruct (process_weather_data dept_code (fetched s)); simpl.
  - rewrite list_lookup_middle by reflexivity. by rewrite drop_all.
  - rewrite list_lookup_middle by reflexivity.
    by rewrite drop_app_length.
Qed.

(** A later call. *)
Lemma load_data_hit dept_code s value shown :
  cache s !! dept_code = Some (value, shown) ->
  load_data process_weather_data dept_code s =
  (Ok (length (heap s)), with_heap (heap s ++ [value]) (with_page (page s ++ shown) s)).
Proof. intros Hhit. unfold load_data, cache_data. rewrite Hhit. reflexivity. Qed.

(** After a call the memo table has an entry for the argument, holding the
    frame that was returned. *)
Lemma load_data_returns dept_code s :
  exists r df shown,
    load_data process_weather_data dept_code s = (Ok r, (load_data process_weather_data dept_code s).2) /\
    heap (load_data process_weather_data dept_code s).2 !! r = Some df /\
    cache (load_data process_weather_data dept_code s).2 !! dept_code = Some (df, shown).
Proof.
  destruct (cache s !! dept_code) as [[value shown] |] eqn:Hc.
  - rewrite (load_data_hit _ _ _ _ Hc). exists (length (heap s)), value, shown. simpl.
    split; [reflexivity |]. split; [by rewrite list_lookup_middle | exact Hc].
  - rewrite (load_data_miss _ _ Hc). cbv zeta.
    destruct (process_weather_data dept_code (fetched s)) as [df | e]; simpl.
    + exists (length (heap s)), df, []. split; [reflexivity |].
      split; [by rewrite list_lookup_middle | by rewrite lookup_insert_eq].
    + eexists (length (heap s)), pd.empty_frame, _. split; [reflexivity |].
      split; [by rewrite list_lookup_middle | by rewrite lookup_insert_eq].
Qed.

(** Entries of the memo table are never replaced. *)
Lemma load_data_keeps_entries dept_code s k v :
  cache s !! k = Some v ->
  cache (load_data process_weather_data dept_code s).2 !! k = Some v.
Proof.
  intros Hk.
  destruct (cache s !! dept_code) as [[value shown] |] eqn:Hc.
  - rewrite (load_data_hit _ _ _ _ Hc). exact Hk.
  - rewrite (load_data_miss _ _ Hc). cbv zeta.
    assert (dept_code <> k) by congruence.
    destruct (process_weather_data dept_code (fetched s)); simpl;
      by rewrite lookup_insert_ne.
Qed.

Lemma load_all_keeps_entries depts s k v :
  cache s !! k = Some v ->
  cache (load_all process_weather_data depts s) !! k = Some v.
Proof.
  revert s. induction depts as [| dept depts IH]; intros s Hk; simpl; [exact Hk |].
  apply IH. by apply load_data_keeps_entries.
Qed.

(** C2. On a first call with a department code, load_data returns the
    frame the data source produced for that code and writes nothing; if the
    data source raised, load_data raises nothing: it writes an error
    message carrying the exception and returns the empty frame. *)
Theorem load_data_returns_source_frame dept_code s :
  cache s !! dept_code = None ->
  exists r s',
    load_data process_weather_data dept_code s = (Ok r, s') /\
    match process_weather_data dept_code (fetched s) with
    | Ok df => heap s' !! r = Some df /\ page s' = page s
    | Raise e =>
        heap s' !! r = Some pd.empty_frame /\
        pd.empty pd.empty_frame = true /\
        page s' = page s ++ [Error [Text "Erreur lors du chargement des données: "; Str e]]
    end.
Proof.
  intros Hmiss. rewrite (load_data_miss _ _ Hmiss). cbv zeta.
  destruct (process_weather_data dept_code (fetched s)) as [df | e];
    eexists _, _; (split; [reflexivity |]); simpl.
  - split; [by rewrite list_lookup_middle | reflexivity].
  - split; [by rewrite list_lookup_middle |]. split; reflexivity.
Qed.

(** C6. The load step is memoised per department code: once a code has
    been loaded, and whatever other codes are loaded in between, loading it
    again yields an equal frame and makes no call to the data source. *)
Theorem load_data_memoized dept_code others s :
  let s1 := (load_data process_weather_data dept_code s).2 in
  let s2 := load_all process_weather_data others s1 in
  let s3 := (load_data process_weather_data dept_code s2).2 in
  exists r1 r3 df,
    (load_data process_weather_data dept_code s).1 = Ok r1 /\
    heap s1 !! r1 = Some df /\
    (load_data process_weather_data dept_code s2).1 = Ok r3 /\
    heap s3 !! r3 = Some df /\
    fetched s3 = fetched s2.
Proof.
  intros s1 s2 s3.
  destruct (load_data_returns dept_code s) as (r1 & df & shown & Hrun & Hheap & Hcache).
  fold s1 in Hrun, Hheap, Hcache.
  assert (Hc2 : cache s2 !! dept_code = Some (df, shown)).
  { unfold s2. by apply load_all_keeps_entries. }
  exists r1, (length (heap s2)), df.
  split; [by rewrite Hrun |]. split; [exact Hheap |].
  unfold s3. rewrite (load_data_hit _ _ _ _ Hc2). simpl.
  split; [reflexivity |]. split; [by rewrite list_lookup_middle | reflexivity].
Qed.

(** * The entry point *)

(** main never fails to load: it has a frame in hand after the load step. *)
Lemma main_run s :
  let dept_code := default "04" (typed s) in
  let s0 :=
    with_page
      (page s ++ [Title [Text "❄️ Analyse des Données Météo - Département 04"];
                  Sidebar (Header [Text "Paramètres"]);
                  Sidebar (TextInput "Code du Département (ex: 04)" dept_code);
                  Info [Text "Chargement des données en cours..."]])
      (with_layout (Some "wide") s) in
  let sL := (load_data process_weather_data dept_code s0).2 in
  let s1 :=
    with_page (<[length (page s) + 3 := Success [Text "Données chargées!"]]> (page sL)) sL in
  exists df d,
    (load_data process_weather_data dept_code s0).1 = Ok df /\
    heap s1 !! df = Some d /\
    main process_weather_data s =
    (if negb (pd.empty d) then
       st.success [Text "Données chargées : "; Num (pd.nrows d); Text " lignes et ";
                   Num (pd.ncols d); Text " colonnes."];;
       st.dataframe (pd.head d);;
       st.markdown [Text "---"];;
       plot_visualizations df dept_code
     else
       st.error [Text "Le DataFrame est vide. Veuillez vérifier les logs d'erreur ci-dessus."])
      s1.
Proof.
  intros dept_code s0 sL s1.
  destruct (load_data_returns dept_code s0) as (df & d & shown & Hrun & Hheap & _).
  fold sL in Hrun, Hheap.
  exists df, d. split; [by rewrite Hrun |]. split; [exact Hheap |].
  unfold main.
  erewrite run_bind_ok by reflexivity.
  erewrite run_bind_ok by reflexivity.
  erewrite run_bind_ok by reflexivity.
  erewrite run_bind_ok by reflexivity.
  erewrite run_bind_ok by reflexivity.
  cbn [heap page layout cache fetched typed with_page with_layout].
  repeat rewrite <- app_assoc. cbn [app].
  fold dept_code. fold s0.
  rewrite (run_bind_ok _ _ _ _ _ Hrun).
  erewrite run_bind_ok by reflexivity.
  assert (Hlen : length (page s ++ [Title [Text "❄️ Analyse des Données Météo - Département 04"];
                  Sidebar (Header [Text "Paramètres"]);
                  Sidebar (TextInput "Code du Département (ex: 04)" dept_code)])
                 = length (page s) + 3).
  { rewrite length_app. reflexivity. }
  rewrite Hlen. fold s1.
  rewrite (run_bind_ok _ _ s1 _ _ (run_deref df d s1 Hheap)).
  reflexivity.
Qed.

(** C7. main shows the preview of the frame and calls plot_visualizations
    exactly when the frame returned by load_data is not empty; when it is
    empty, main ends normally after writing one error message and nothing
    else. *)
Theorem main_charts_iff_frame_not_empty s :
  let dept_code := default "04" (typed s) in
  let s0 :=
    with_page
      (page s ++ [Title [Text "❄️ Analyse des Données Météo - Département 04"];
                  Sidebar (Header [Text "Paramètres"]);
                  Sidebar (TextInput "Code du Département (ex: 04)" dept_code);
                  Info [Text "Chargement des données en cours..."]])
      (with_layout (Some "wide") s) in
  let sL := (load_data process_weather_data dept_code s0).2 in
  let s1 :=
    with_page (<[length (page s) + 3 := Success [Text "Données chargées!"]]> (page sL)) sL in
  exists df d,
    (load_data process_weather_data dept_code s0).1 = Ok df /\
    heap s1 !! df = Some d /\
    if pd.empty d then
      main process_weather_data s =
      (Ok tt,
       with_page
         (page s1 ++ [Error [Text "Le DataFrame est vide. Veuillez vérifier les logs d'erreur ci-dessus."]])
         s1)
    else
      main process_weather_data s =
      plot_visualizations df dept_code
        (with_page
           (page s1 ++ [Success [Text "Données chargées : "; Num (pd.nrows d);
                                 Text " lignes et "; Num (pd.ncols d); Text " colonnes."];
                        Dataframe (pd.head d);
                        Markdown [Text "---"]])
           s1).
Proof.
  intros dept_code s0 sL s1.
  destruct (main_run s) as (df & d & Hload & Hheap & Hmain).
  exists df, d. split; [exact Hload |]. split; [exact Hheap |].
  fold dept_code s0 sL s1 in Hmain. rewrite Hmain.
  destruct (pd.empty d); cbn [negb]; [reflexivity |].
  unfold st.success, st.dataframe, st.markdown.
  rewrite !run_write_bind.
  cbn [heap page layout cache fetched typed with_page].
  repeat rewrite <- app_assoc. reflexivity.
Qed.

End Loader.


(** * Inputs on which a section does not run *)

(** The first and the third section catch every [KeyError] of their body:
    none leaves them. *)
Lemma guarded_sections_catch_KeyError r s k :
  (visualisation_1 r s).1 <> Raise (KeyError k) /\
  (visualisation_3 r s).1 <> Raise (KeyError k).
Proof.
  split.
  - unfold visualisation_1, st.header. rewrite run_write_bind. unfold try_except.
    match goal with |- context [let (_, _) := ?body ?s1 in _] => destruct (body s1) as [[a | e] s'] end;
      [discriminate |].
    destruct e; simpl; discriminate.
  - unfold visualisation_3, st.header. rewrite run_write_bind. unfold try_except.
    match goal with |- context [let (_, _) := ?body ?s1 in _] => destruct (body s1) as [[a | e] s'] end;
      [discriminate |].
    destruct e; simpl; discriminate.
Qed.





(** * The columns the charts read *)

Lemma renamed_exactly_source_columns :
  (forall l, In l source_columns <-> pd.rename_label column_names l <> l) /\
  List.map (pd.rename_label column_names) source_columns = chart_columns.
Proof.
  split; [| reflexivity].
  intros l. split.
  - intros Hl. simpl in Hl.
    repeat (destruct Hl as [<- | Hl]; [vm_compute; discriminate |]). destruct Hl.
  - unfold pd.rename_label, column_names, source_columns. simpl.
    repeat (match goal with
            | |- context [String.eqb l ?k] =>
                destruct (String.eqb_spec l k) as [-> | _]; [intros _; simpl; tauto |]
            end).
    intros H. by destruct H.
Qed.

Lemma set_assoc_other l c cols :
  List.filter (fun lc : string * pd.Series => negb (String.eqb lc.1 l)) (pd.set_assoc l c cols)
  = List.filter (fun lc : string * pd.Series => negb (String.eqb lc.1 l)) cols.
Proof.
  induction cols as [| [k c'] cols IH]; simpl.
  - by rewrite String.eqb_refl.
  - destruct (String.eqb_spec l k) as [-> | Hne]; simpl.
    + by rewrite String.eqb_refl.
    + destruct (String.eqb_spec k l) as [-> | _]; [done |]. simpl. by rewrite IH.
Qed.

(** The frame the charts are drawn from: the renamed copy of the argument,
    with the year column. *)
Lemma plot_visualizations_local_frame df dept_code s d :
  heap s !! df = Some d ->
  exists local,
    heap (plot_visualizations df dept_code s).2 = heap s ++ [local] /\
    pd.index local = pd.index d /\
    without_year (pd.columns local)
    = without_year
        (List.map (fun lc => (pd.rename_label column_names lc.1, lc.2)) (pd.columns d)).
Proof.
  intros Hd. rewrite (plot_visualizations_run _ _ _ _ Hd). cbv zeta.
  destruct (pd.assoc "AAAAMMJJ" _) as [[xs | xs | xs | xs] |];
    try (by eexists; split; [reflexivity | split; reflexivity]).
  destruct (visualisations_only_write (length (heap s))
              (with_heap (heap s ++ [pd.setitem "Year" (pd.years xs)
                                       (pd.rename column_names d)]) s))
    as (Hh & _).
  rewrite Hh. eexists. split; [reflexivity |]. split; [reflexivity |].
  unfold without_year. simpl. apply set_assoc_other.
Qed.

(** C8. plot_visualizations renames exactly the seven columns of the data
    model: the frame it draws the charts from is a new frame of the store
    whose columns, the year column apart, are the columns of its argument,
    in the same order, the seven under their chart names and the others
    under their own. What it returns and writes depends on the renamed
    frame only through its row labels and these seven columns: a second
    frame that agrees with the first on them, the labels of both being
    distinct once renamed, gets the same result and the same page
    elements, whatever its other columns, the session and the department
    code. *)
Theorem charts_read_renamed_columns df1 dept1 s1 d1 :
  heap s1 !! df1 = Some d1 ->
  ((forall l, In l source_columns <-> pd.rename_label column_names l <> l) /\
   List.map (pd.rename_label column_names) source_columns = chart_columns) /\
  (exists local,
     heap (plot_visualizations df1 dept1 s1).2 = heap s1 ++ [local] /\
     pd.index local = pd.index d1 /\
     without_year (pd.columns local)
     = without_year
         (List.map (fun lc => (pd.rename_label column_names lc.1, lc.2)) (pd.columns d1))) /\
  forall df2 dept2 s2 d2,
    heap s2 !! df2 = Some d2 ->
    NoDup (pd.labels (pd.rename column_names d1)) ->
    NoDup (pd.labels (pd.rename column_names d2)) ->
    agree chart_columns (pd.rename column_names d1) (pd.rename column_names d2) ->
    exists out,
      (plot_visualizations df1 dept1 s1).1 = (plot_visualizations df2 dept2 s2).1 /\
      page (plot_visualizations df1 dept1 s1).2 = page s1 ++ out /\
      page (plot_visualizations df2 dept2 s2).2 = page s2 ++ out.
Proof.
  intros H1. split; [exact renamed_exactly_source_columns |].
  split; [by apply plot_visualizations_local_frame |].
  intros df2 dept2 s2 d2 H2 _ _ Ha.
  rewrite (plot_visualizations_run _ _ _ _ H1), (plot_visualizations_run _ _ _ _ H2).
  cbv zeta.
  destruct Ha as [Hi Hc].
  rewrite <- (Hc "AAAAMMJJ") by (simpl; auto).
  assert (Hstop : exists out : list element,
    (Ok tt : result unit) = Ok tt /\
    page s1 ++ [Error [Text "Colonne 'AAAAMMJJ' (date) manquante ou format incorrect."]]
      = page s1 ++ out /\
    page s2 ++ [Error [Text "Colonne 'AAAAMMJJ' (date) manquante ou format incorrect."]]
      = page s2 ++ out) by (eexists; repeat split).
  destruct (pd.assoc "AAAAMMJJ" _) as [[xs | xs | xs | xs] |]; try exact Hstop.
  clear Hstop.
  set (y1 := pd.setitem "Year" (pd.years xs) (pd.rename column_names d1)).
  set (y2 := pd.setitem "Year" (pd.years xs) (pd.rename column_names d2)).
  assert (Hy : agree ("Year" :: chart_columns) y1 y2) by (by apply agree_setitem).
  assert (Hsame : same_output (length (heap s1)) (length (heap s2)) y1 y2
            (visualisation_1 (length (heap s1));; visualisation_2 (length (heap s1));;
             visualisation_3 (length (heap s1)))
            (visualisation_1 (length (heap s2));; visualisation_2 (length (heap s2));;
             visualisation_3 (length (heap s2)))).
  { apply same_output_bind; [| intros _; apply same_output_bind; [| intros _]].
    - apply visualisation_1_reads. eapply agree_weaken; [| exact Hy].
      simpl. intuition.
    - apply visualisation_2_reads. eapply agree_weaken; [| exact Hy].
      simpl. intuition.
    - apply visualisation_3_reads. eapply agree_weaken; [| exact Hy].
      simpl. intuition. }
  destruct (Hsame (with_heap (heap s1 ++ [y1]) s1) (with_heap (heap s2 ++ [y2]) s2))
    as (res & out & E1 & E2).
  - simpl. by rewrite list_lookup_middle.
  - simpl. by rewrite list_lookup_middle.
  - exists out. rewrite E1, E2. repeat split.
Qed.


(** * The yearly trend *)

(** The years kept by a station mask are the years of the readings at that
    station. *)
Lemma station_years ids dates temps top y :
  length dates = pd.len ids ->
  length temps = pd.len ids ->
  In (Some y) (pd.take_where (pd.eq_mask ids (Some top))
                 (List.map (option_map pd.year_of) dates))
  <-> exists r, In r (readings ids dates temps) /\ at_station top r = true /\ r.1.2 = Some y.
Proof.
  intros Hdates Htemps. unfold pd.eq_mask. rewrite take_where_filter, in_map_iff.
  unfold readings. split.
  - intros ([a oz] & Hoz & Hin). simpl in Hoz. subst oz.
    apply filter_In in Hin as [Hin Hp]. simpl in Hp.
    destruct (zip_extend _ temps _ Hin) as (t & Ht).
    { rewrite length_zip_with, length_map. unfold pd.len in *. lia. }
    exists (a, Some y, t). repeat split; assumption.
  - intros ([[a oz] t] & Hin & Hp & Hy). simpl in Hy. subst oz.
    exists (a, Some y). split; [reflexivity |].
    apply filter_In. split; [| exact Hp]. by apply zip_In_fst in Hin.
Qed.

(** C1, as the code has it. For a frame whose labels are distinct once
    renamed, whose station-identifier column holds a value, whose date
    column is datetime-typed and whose minimum-temperature column is
    numeric, with numbers whose sums float64 holds, the first chart plots,
    for the station that occurs most often and for each calendar year that
    station has a row in, the mean of its minimum temperatures of that
    year, as the library computes it from these values in row order. *)
Theorem trend_of_most_frequent_station df dept_code s d ids dates c temps v :
  heap s !! df = Some d ->
  pd.well_formed (pd.rename column_names d) ->
  pd.getitem d "station_id" = Ok ids ->
  In (Some v) (pd.cells ids) ->
  pd.getitem d "date" = Ok (pd.Datetime64 dates) ->
  pd.getitem d "tmin" = Ok c ->
  numbers c = Some temps ->
  finite_sums temps ->
  exists top ys rest,
    pd.getitem_0 (pd.mode ids) = Ok (Some top) /\
    (forall w, pd.value_count (pd.dropna_cells (pd.cells ids)) w
               <= pd.value_count (pd.dropna_cells (pd.cells ids)) top) /\
    NoDup ys /\
    (forall y, In y ys <->
               exists r, In r (readings ids dates temps) /\
                         at_station top r = true /\ r.1.2 = Some y) /\
    page (plot_visualizations df dept_code s).2 =
    page s ++
    [Header [Text "1. Évolution Temporelle de la Température Minimale (TN) 📈"];
     Pyplot
       {| plt.drawn :=
            plt.Line (List.map (fun y => Some (year_value dates y)) ys)
                     (List.map (fun y => pd.SFloat <$> yearly_mean (readings ids dates temps) top y)
                        ys);
          plt.title := [Text "Température Minimale Moyenne Annuelle pour la station ";
                        Val (Some top)];
          plt.xlabel := "Année";
          plt.ylabel := "Température Minimale Moyenne (°C)";
          plt.colorbar := None |};
     Markdown
       [Text "Cette courbe montre la tendance annuelle de la température minimale pour la station la plus fréquente (";
        Val (Some top); Text ")."]]
    ++ rest.
Proof.
  intros Hd Hwf Hids Hv Hdate Htmin Hnum _.
  assert (Hnd := proj1 Hwf).
  apply getitem_assoc in Hids, Hdate, Htmin.
  pose proof (assoc_rename column_names d _ _ Hnd Hids) as Hids'.
  pose proof (assoc_rename column_names d _ _ Hnd Hdate) as Hdate'.
  pose proof (assoc_rename column_names d _ _ Hnd Htmin) as Htmin'.
  change (pd.rename_label column_names "station_id") with "NUM_POSTE" in Hids'.
  change (pd.rename_label column_names "date") with "AAAAMMJJ" in Hdate'.
  change (pd.rename_label column_names "tmin") with "TN_float" in Htmin'.
  set (d' := pd.rename column_names d) in *.
  destruct (mode_first ids v Hv) as (top & Htop & _ & Hmax).
  set (mask := pd.eq_mask ids (Some top)).
  destruct (year_keys dates mask) as (ys & Hks & Hys & Hmem).
  exists top, ys.
  pose proof (yearly_group_means ids dates c temps top ys Hnum) as Hmeans.
  cbv zeta in Hmeans. fold mask in Hmeans. rewrite <- Hks in Hmeans.
  set (dY := pd.setitem "Year" (pd.years dates) d').
  set (s1 := with_heap (heap s ++ [dY]) s).
  assert (Hrun := visualisation_1_run (length (heap s)) s1 dY ids (Some top)
                    (pd.years dates) c
                    (pd.Float64 (List.map (yearly_mean (readings ids dates temps) top) ys))).
  cbv zeta in Hrun. fold mask in Hrun.
  rewrite Hks in Hrun at 2.
  rewrite of_scalars_cells in Hrun.
  2:{ rewrite <- Hks. apply group_keys_has_dtype. }
  rewrite (plot_visualizations_run _ _ _ _ Hd). cbv zeta. fold d'. rewrite Hdate'.
  fold dY. fold s1. rewrite run_bind, Hrun.
  - destruct (only_writes_bind (fun _ => True) (visualisation_2 (length (heap s)))
                (fun _ => visualisation_3 (length (heap s)))
                (visualisation_2_only_writes _)
                (fun _ => only_writes_weaken _ _ _ (fun _ _ => I)
                            (visualisation_3_only_writes _))
                (with_page
                   (page s1 ++
                    [Header [Text "1. Évolution Temporelle de la Température Minimale (TN) 📈"];
                     Pyplot
                       {| plt.drawn :=
                            plt.Line (List.map Some (List.map (year_value dates) ys))
                              (pd.cells (pd.Float64
                                 (List.map (yearly_mean (readings ids dates temps) top) ys)));
                          plt.title := [Text "Température Minimale Moyenne Annuelle pour la station ";
                                        Val (Some top)];
                          plt.xlabel := "Année";
                          plt.ylabel := "Température Minimale Moyenne (°C)";
                          plt.colorbar := None |};
                     Markdown
                       [Text "Cette courbe montre la tendance annuelle de la température minimale pour la station la plus fréquente (";
                        Val (Some top); Text ")."]])
                   s1))
      as (_ & _ & _ & _ & _ & rest & Hrest & _).
    exists rest. split; [exact Htop |]. split; [exact Hmax |]. split; [exact Hys |].
    split.
    + intros y. rewrite Hmem. apply station_years.
      * pose proof (well_formed_len d' _ _ Hwf Hdate') as H1.
        pose proof (well_formed_len d' _ _ Hwf Hids') as H2.
        unfold pd.len in H1 at 1. simpl in H1. rewrite length_map in H1. congruence.
      * pose proof (well_formed_len d' _ _ Hwf Htmin') as H1.
        pose proof (well_formed_len d' _ _ Hwf Hids') as H2.
        rewrite (numbers_length _ _ Hnum). congruence.
    + rewrite Hrest. unfold s1.
      cbn [page heap with_page with_heap pd.cells]. rewrite !List.map_map.
      by rewrite <- app_assoc.
  - exact (list_lookup_middle (heap s) [] dY _ eq_refl).
  - unfold dY. simpl. rewrite assoc_set_assoc. exact Hids'.
  - exact Htop.
  - unfold dY. simpl. by rewrite assoc_set_assoc.
  - unfold dY. simpl. rewrite assoc_set_assoc. exact Htmin'.
  - exact Hmeans.
Qed.


(** * The station map *)

Lemma writes_state P s s' :
  writes P s s' -> exists out, s' = with_page (page s ++ out) s /\ Forall P out.
Proof.
  intros (Hh & Hc & Hf & Hl & Ht & out & Hp & Ho). exists out. split; [| exact Ho].
  destruct s'. simpl in *. subst. reflexivity.
Qed.

Lemma numbers_not_object c : is_Some (numbers c) -> pd.dtype_of c <> pd.object.
Proof. destruct c; simpl; intros [x Hx]; done. Qed.

Lemma group_means_not_object c groups :
  pd.dtype_of c <> pd.object -> exists means, pd.group_means c groups = Ok means.
Proof. destruct c; simpl; intros H; try done; eauto. Qed.

Lemma getitem_raise d l e : pd.getitem d l = Raise e -> e = KeyError (Label l).
Proof. unfold pd.getitem. destruct (pd.assoc l _); intros H; by simplify_eq. Qed.

Lemma getitem_0_raise c e : pd.getitem_0 c = Raise e -> e = KeyError (Position 0).
Proof. unfold pd.getitem_0. destruct (pd.cells c); intros H; by simplify_eq. Qed.

(** The first section ends normally when the minimum temperatures, if
    there are any, are not held as objects: what it raises then is a
    [KeyError], which it catches. *)
Lemma visualisation_1_completes r s d year :
  heap s !! r = Some d ->
  pd.assoc "Year" (pd.columns d) = Some year ->
  (forall tn, pd.assoc "TN_float" (pd.columns d) = Some tn -> pd.dtype_of tn <> pd.object) ->
  exists out,
    visualisation_1 r s = (Ok tt, with_page (page s ++ out) s) /\
    Forall trend_element out.
Proof.
  intros Hd Hyear Htn.
  assert (Hres : (visualisation_1 r s).1 = Ok tt).
  { unfold visualisation_1, st.header. rewrite run_write_bind.
    unfold try_except.
    set (s1 := with_page _ s).
    assert (Hd1 : heap s1 !! r = Some d) by exact Hd.
    rewrite (run_bind_ok _ _ _ _ _ (run_deref _ _ _ Hd1)). cbv beta.
    rewrite run_lift_bind.
    destruct (pd.getitem d "NUM_POSTE") as [ids | e] eqn:Hids.
    2:{ apply getitem_raise in Hids as ->. reflexivity. }
    rewrite run_lift_bind.
    destruct (pd.getitem_0 (pd.mode ids)) as [top | e] eqn:Htop.
    2:{ apply getitem_0_raise in Htop as ->. reflexivity. }
    cbv beta zeta. rewrite run_lift_bind.
    unfold pd.groupby_mean, pd.getitem. rewrite !assoc_rows_where, Hyear.
    destruct (pd.assoc "TN_float" (pd.columns d)) as [tn |] eqn:Htn'; [| reflexivity].
    destruct (group_means_not_object
                (pd.select (fun A => pd.take_where (pd.eq_mask ids top)) tn)
                (List.map
                   (fun k => pd.eq_mask
                      (pd.select (fun A => pd.take_where (pd.eq_mask ids top)) year) (Some k))
                   (pd.group_keys
                      (pd.select (fun A => pd.take_where (pd.eq_mask ids top)) year))))
      as (means & Hmeans).
    { rewrite dtype_of_select. by apply Htn. }
    simpl. rewrite Hmeans. reflexivity. }
  destruct (writes_state _ _ _ (visualisation_1_only_writes r s)) as (out & Hs & Hout).
  exists out. split; [| exact Hout].
  destruct (visualisation_1 r s) as [res s']. simpl in *. by subst.
Qed.

Lemma with_page_with_page p q s : with_page p (with_page q s) = with_page p s.
Proof. reflexivity. Qed.

Lemma page_with_page p s : page (with_page p s) = p.
Proof. reflexivity. Qed.




(** * The boxplot *)

(** The third section, when the frame has the year column of its dates and
    a minimum-temperature column: one box per calendar year that a date
    falls in, holding the minimum temperatures read in that year. *)
Lemma boxplot_of_each_year r s d dates c :
  heap s !! r = Some d ->
  pd.assoc "Year" (pd.columns d) = Some (pd.years dates) ->
  pd.assoc "TN_float" (pd.columns d) = Some c ->
  exists ys,
    NoDup ys /\
    (forall y, In y ys <-> In (Some y) (List.map (option_map pd.year_of) dates)) /\
    visualisation_3 r s =
    (Ok tt,
     with_page
       (page s ++
        [Header [Text "3. Distribution des Températures (Box Plot par Année) 🧊"];
         Pyplot
           {| plt.drawn :=
                plt.Boxes
                  (List.map
                     (fun y =>
                        (year_value dates y,
                         omap snd
                           (List.filter (fun p => bool_decide (p.1 = Some y))
                              (zip (List.map (option_map pd.year_of) dates) (pd.cells c)))))
                     ys);
              plt.title := [Text "Distribution de la Température Minimale (TN) par Année"];
              plt.xlabel := "Année";
              plt.ylabel := "Température Minimale (°C)";
              plt.colorbar := None |};
         Markdown
           [Text "Chaque boîte représente la répartition des températures minimales pour une année donnée."]])
       s).
Proof.
  intros Hd Hyear Htn.
  destruct (year_keys_of (pd.years dates) dates (List.map (option_map pd.year_of) dates))
    as (ys & Hks & Hnd & Hmem); [apply cells_years |].
  exists ys. split; [exact Hnd |]. split; [exact Hmem |].
  assert (Hgroups : pd.boxplot_groups d "TN_float" "Year"
    = Ok (List.map
            (fun y =>
               (year_value dates y,
                omap snd
                  (List.filter (fun p => bool_decide (p.1 = Some y))
                     (zip (List.map (option_map pd.year_of) dates) (pd.cells c)))))
            ys)).
  { unfold pd.boxplot_groups, pd.getitem. rewrite Hyear, Htn. simpl.
    rewrite Hks, List.map_map. f_equal. apply map_ext. intros y. f_equal.
    unfold pd.eq_mask. rewrite cells_years, List.map_map.
    rewrite (map_ext _ (fun oz => bool_decide (oz = Some y)))
      by (intros oz; apply year_cell_eqb).
    rewrite take_where_filter. apply omap_id_map_snd. }
  unfold visualisation_3, st.header. rewrite run_write_bind. unfold try_except.
  set (s1 := with_page _ s).
  assert (Hd1 : heap s1 !! r = Some d) by exact Hd.
  rewrite (run_bind_ok _ _ _ _ _ (run_deref _ _ _ Hd1)). cbv beta.
  rewrite Hgroups, run_lift_bind.
  unfold st.pyplot, st.markdown. rewrite run_write_bind.
  unfold st.write, s1. rewrite !with_page_with_page, !page_with_page.
  repeat rewrite <- app_assoc. reflexivity.
Qed.

(** * The most frequent station *)

Lemma writes_with_page (P : element -> Prop) s out :
  Forall P out -> writes P s (with_page (page s ++ out) s).
Proof. intros Hout. repeat split; try reflexivity. by exists out. Qed.

Lemma groupby_mean_raise d by_ col e :
  pd.groupby_mean d by_ col = Raise e ->
  e = KeyError (Label by_) \/ e = KeyError (ColumnNotFound col) \/
  e = mean_of_text \/ e = ValueError "cannot insert, already exists".
Proof.
  unfold pd.groupby_mean.
  destruct (pd.getitem d by_) as [keys | e'] eqn:Hk; simpl.
  2:{ apply getitem_raise in Hk as ->. intros [= <-]. by left. }
  destruct (pd.assoc col (pd.columns d)) as [vals |]; simpl.
  2:{ intros [= <-]. right. by left. }
  destruct (pd.group_means vals _) as [means | e'] eqn:Hm; simpl.
  2:{ intros [= <-]. right. right. left.
      revert Hm. unfold pd.group_means. destruct vals; try discriminate.
      destruct (existsb _ _); intros H; by simplify_eq. }
  destruct (String.eqb by_ col); intros H; simplify_eq. by repeat right.
Qed.

(** The first section on a frame whose station column has a most
    frequent value: it writes neither the message about a missing first
    entry nor the warning of the [except IndexError] clause. *)
Lemma visualisation_1_finds_station r s d ids top :
  heap s !! r = Some d ->
  pd.getitem d "NUM_POSTE" = Ok ids ->
  pd.getitem_0 (pd.mode ids) = Ok top ->
  writes (fun e => e <> no_first_entry /\ e <> not_enough_data) s (visualisation_1 r s).2.
Proof.
  intros Hd Hids Htop.
  unfold visualisation_1, st.header. rewrite run_write_bind.
  unfold try_except.
  set (s1 := with_page _ s).
  assert (Hd1 : heap s1 !! r = Some d) by exact Hd.
  rewrite (run_bind_ok _ _ _ _ _ (run_deref _ _ _ Hd1)). cbv beta.
  rewrite Hids, run_lift_bind, Htop, run_lift_bind. cbv beta zeta.
  rewrite run_lift_bind.
  destruct (pd.groupby_mean (pd.rows_where (pd.eq_mask ids top) d) "Year" "TN_float")
    as [df_annual | e] eqn:Hg.
  - revert Hg. unfold pd.groupby_mean.
    destruct (pd.getitem _ "Year") as [keys |]; [| discriminate].
    destruct (pd.assoc "TN_float" _) as [vals |]; [| discriminate].
    simpl. destruct (pd.group_means vals _) as [means |]; [| discriminate].
    simpl. intros [= <-].
    unfold pd.getitem. simpl pd.assoc. rewrite !run_lift_bind.
    unfold st.pyplot, st.markdown. rewrite !run_write_bind.
    unfold st.write, s1. simpl.
    repeat (split; [reflexivity |]). eexists.
    split; [by repeat rewrite <- app_assoc | repeat constructor; discriminate].
  - apply groupby_mean_raise in Hg as [-> | [-> | [-> | ->]]]; simpl.
    all: unfold st.error, st.write, s1; simpl;
      repeat (split; [reflexivity |]); eexists;
      (split; [by repeat rewrite <- app_assoc | repeat constructor; discriminate]).
Qed.

Lemma later_sections_find_station r :
  only_writes (fun e => e <> no_first_entry /\ e <> not_enough_data)
    (visualisation_2 r;; visualisation_3 r).
Proof.
  apply only_writes_bind; [| intros _].
  - unfold visualisation_2, st.header, st.subheader, st.map, st.pyplot, st.warning.
    apply only_writes_bind; [by apply only_writes_write | intros _].
    apply only_writes_bind; [apply only_writes_deref | intros d].
    apply only_writes_bind; [apply only_writes_lift | intros sel].
    apply only_writes_bind; [apply only_writes_lift | intros stations_map].
    destruct (negb _); repeat only_writes_step; done.
  - unfold visualisation_3, st.header, st.pyplot, st.markdown, st.error.
    repeat only_writes_step; try done.
    intros e h He. destruct e; simplify_eq. by apply only_writes_write.
Qed.

(** C10, as the code has it. For a frame whose labels are distinct once
    renamed and whose station-identifier column holds at least one value,
    the column the first section reads is that column, its mode is not
    empty, and taking its first entry succeeds and gives a station of the
    column: plot_visualizations writes neither the message about a missing
    first entry nor the warning of the [except IndexError] clause. *)
Theorem first_station_found df dept_code s d ids v :
  heap s !! df = Some d ->
  NoDup (pd.labels (pd.rename column_names d)) ->
  pd.getitem d "station_id" = Ok ids ->
  In (Some v) (pd.cells ids) ->
  exists top out,
    pd.getitem (pd.rename column_names d) "NUM_POSTE" = Ok ids /\
    pd.getitem_0 (pd.mode ids) = Ok (Some top) /\
    In (Some top) (pd.cells ids) /\
    page (plot_visualizations df dept_code s).2 = page s ++ out /\
    ~ In no_first_entry out /\
    ~ In not_enough_data out.
Proof.
  intros Hd Hnd Hids Hv.
  destruct (mode_first ids v Hv) as (top & Htop & Hin & _).
  apply getitem_assoc in Hids.
  pose proof (assoc_rename column_names d _ _ Hnd Hids) as Hids'.
  change (pd.rename_label column_names "station_id") with "NUM_POSTE" in Hids'.
  set (d' := pd.rename column_names d) in *.
  assert (Hw : exists local,
                 writes (fun e => e <> no_first_entry /\ e <> not_enough_data)
                   (with_heap (heap s ++ [local]) s) (plot_visualizations df dept_code s).2).
  { rewrite (plot_visualizations_run _ _ _ _ Hd). cbv zeta. fold d'.
    assert (Hstop : forall st : state,
      exists local,
        writes (fun e => e <> no_first_entry /\ e <> not_enough_data)
          (with_heap (heap s ++ [local]) s)
          (Ok tt : result unit,
           with_page
             (page s ++ [Error [Text "Colonne 'AAAAMMJJ' (date) manquante ou format incorrect."]])
             (with_heap (heap s ++ [d']) s)).2).
    { intros _. exists d'. simpl.
      apply (writes_with_page _ (with_heap (heap s ++ [d']) s)).
      repeat constructor; discriminate. }
    destruct (pd.assoc "AAAAMMJJ" (pd.columns d')) as [[xs | xs | xs | xs] |];
      try (apply Hstop; exact s).
    set (dY := pd.setitem "Year" (pd.years xs) d').
    set (s1 := with_heap (heap s ++ [dY]) s).
    exists dY. fold s1.
    assert (Hl : heap s1 !! length (heap s) = Some dY).
    { unfold s1; simpl. by rewrite list_lookup_middle. }
    assert (HidsY : pd.getitem dY "NUM_POSTE" = Ok ids).
    { apply getitem_assoc. unfold dY. simpl. by rewrite assoc_set_assoc. }
    pose proof (visualisation_1_finds_station _ _ _ _ _ Hl HidsY Htop) as H1.
    rewrite run_bind.
    destruct (visualisation_1 (length (heap s)) s1) as [[[] | e] s2]; simpl in H1.
    - eapply writes_trans; [exact H1 |]. apply later_sections_find_station.
    - exact H1. }
  destruct Hw as (local & _ & _ & _ & _ & _ & out & Hp & Hall).
  change (page (with_heap (heap s ++ [local]) s)) with (page s) in Hp.
  exists top, out.
  split; [by apply getitem_assoc |]. split; [exact Htop |]. split; [exact Hin |].
  split; [exact Hp |].
  rewrite List.Forall_forall in Hall.
  split; intros Hi; by destruct (Hall _ Hi).
Qed.

End Claims.

(** * How a section ends *)

Section Further.
Context {arithmetic : pd.Numerics}.

Lemma headers_app p q : headers (p ++ q) = headers p ++ headers q.
Proof. apply omap_app. Qed.

Lemma group_means_raise c groups e : pd.group_means c groups = Raise e -> e = mean_of_text.
Proof.
  unfold pd.group_means. destruct c; try discriminate.
  destruct (existsb _ groups); intros H; by simplify_eq.
Qed.

(** The first section writes its header, then either ends normally, with
    a chart or an error message, or raises the exception of a mean over
    text before writing anything else. *)
Lemma visualisation_1_outcome r s d :
  heap s !! r = Some d ->
  exists res out,
    visualisation_1 r s = (res, with_page (page s ++ Header header_1 :: out) s) /\
    headers out = [] /\
    (res = Ok tt \/ res = Raise mean_of_text /\ out = []).
Proof.
  intros Hd.
  assert (Hcaught : forall k,
    exists res out,
      (Ok tt : result unit,
       with_page
         (page (with_page (page s ++ [Header header_1]) s) ++
          [Error [Text "Erreur de colonne pour la Visualisation 1: "; Str (KeyError k);
                  Text ". Vérifiez le renommage des colonnes."]])
         (with_page (page s ++ [Header header_1]) s))
      = (res, with_page (page s ++ Header header_1 :: out) s) /\
      headers out = [] /\ (res = Ok tt \/ res = Raise mean_of_text /\ out = [])).
  { intros k. eexists (Ok tt), [_].
    split; [simpl; by rewrite <- app_assoc | split; [reflexivity | by left]]. }
  unfold visualisation_1, st.header. rewrite run_write_bind.
  unfold try_except. fold header_1.
  set (s1 := with_page _ s).
  assert (Hd1 : heap s1 !! r = Some d) by exact Hd.
  rewrite (run_bind_ok _ _ _ _ _ (run_deref _ _ _ Hd1)). cbv beta.
  rewrite run_lift_bind.
  destruct (pd.getitem d "NUM_POSTE") as [ids | e] eqn:Hids.
  2:{ apply getitem_raise in Hids as ->. apply Hcaught. }
  rewrite run_lift_bind.
  destruct (pd.getitem_0 (pd.mode ids)) as [top | e] eqn:Htop.
  2:{ apply getitem_0_raise in Htop as ->. apply Hcaught. }
  cbv beta zeta. rewrite run_lift_bind.
  destruct (pd.groupby_mean (pd.rows_where (pd.eq_mask ids top) d) "Year" "TN_float")
    as [df_annual | e] eqn:Hg.
  - revert Hg. unfold pd.groupby_mean.
    destruct (pd.getitem _ "Year") as [keys |]; [| discriminate].
    destruct (pd.assoc "TN_float" _) as [vals |]; [| discriminate].
    simpl. destruct (pd.group_means vals _) as [means |]; [| discriminate].
    simpl. intros [= <-].
    unfold pd.getitem. simpl pd.assoc. rewrite !run_lift_bind.
    unfold st.pyplot, st.markdown. rewrite !run_write_bind.
    eexists (Ok tt), [_; _].
    split; [unfold st.write, s1; simpl; by repeat rewrite <- app_assoc |].
    split; [reflexivity | by left].
  - revert Hg. unfold pd.groupby_mean.
    destruct (pd.getitem _ "Year") as [keys | e'] eqn:Hy.
    2:{ apply getitem_raise in Hy as ->. simpl. intros [= <-]. apply Hcaught. }
    destruct (pd.assoc "TN_float" _) as [vals |].
    2:{ simpl. intros [= <-]. apply Hcaught. }
    simpl. destruct (pd.group_means vals _) as [means | e'] eqn:Hm; [discriminate |].
    apply group_means_raise in Hm as ->. simpl. intros [= <-].
    exists (Raise mean_of_text), []. split; [reflexivity |]. split; [reflexivity |]. by right.
Qed.

(** The third section always ends normally. *)
Lemma visualisation_3_outcome r s d :
  heap s !! r = Some d ->
  exists out,
    visualisation_3 r s = (Ok tt, with_page (page s ++ Header header_3 :: out) s) /\
    headers out = [].
Proof.
  intros Hd.
  unfold visualisation_3, st.header. rewrite run_write_bind.
  unfold try_except. fold header_3.
  set (s1 := with_page _ s).
  assert (Hd1 : heap s1 !! r = Some d) by exact Hd.
  rewrite (run_bind_ok _ _ _ _ _ (run_deref _ _ _ Hd1)). cbv beta.
  rewrite run_lift_bind.
  destruct (pd.boxplot_groups d "TN_float" "Year") as [groups | e] eqn:Hg.
  - unfold st.pyplot, st.markdown. rewrite run_write_bind.
    eexists [_; _].
    split; [unfold st.write, s1; simpl; by repeat rewrite <- app_assoc | reflexivity].
  - revert Hg. unfold pd.boxplot_groups.
    destruct (pd.getitem d "Year") as [keys | e'] eqn:Hy.
    2:{ apply getitem_raise in Hy as ->. simpl. intros [= <-].
        eexists [_].
        split; [unfold st.error, st.write, s1; simpl; by rewrite <- app_assoc | reflexivity]. }
    destruct (pd.assoc "TN_float" _) as [vals |]; [discriminate |].
    simpl. intros [= <-].
    eexists [_].
    split; [unfold st.error, st.write, s1; simpl; by rewrite <- app_assoc | reflexivity].
Qed.

Lemma contains_all d ls l :
  List.filter (fun l => negb (pd.contains d l)) ls = [] -> In l ls ->
  exists c, pd.assoc l (pd.columns d) = Some c.
Proof.
  intros Hf Hin.
  destruct (pd.assoc l (pd.columns d)) as [c |] eqn:Hc; [by exists c |].
  assert (Hm : In l (List.filter (fun l => negb (pd.contains d l)) ls)).
  { apply filter_In. split; [exact Hin |]. rewrite contains_assoc, Hc. reflexivity. }
  rewrite Hf in Hm. destruct Hm.
Qed.

(** The second section writes its header, then either ends normally, when
    the frame has the five columns it selects, or raises the [KeyError] of
    the selection, which names the columns that are not there, before
    writing anything else. *)
Lemma visualisation_2_outcome r s d :
  heap s !! r = Some d ->
  let missing := List.filter (fun l => negb (pd.contains d l)) station_columns in
  exists res out,
    visualisation_2 r s = (res, with_page (page s ++ Header header_2 :: out) s) /\
    headers out = [] /\
    (missing = [] /\ res = Ok tt \/
     missing <> [] /\ res = Raise (KeyError (NotInIndex missing)) /\ out = []).
Proof.
  intros Hd missing.
  destruct missing as [| m ms] eqn:Hmiss; subst missing.
  - destruct (contains_all d station_columns "NUM_POSTE" Hmiss) as (ids & Hids);
      [simpl; tauto |].
    destruct (contains_all d station_columns "NOM_USUEL" Hmiss) as (names & Hnames);
      [simpl; tauto |].
    destruct (contains_all d station_columns "LAT_float" Hmiss) as (lat & Hlat);
      [simpl; tauto |].
    destruct (contains_all d station_columns "LON_float" Hmiss) as (lon & Hlon);
      [simpl; tauto |].
    destruct (contains_all d station_columns "ALTI_float" Hmiss) as (alt & Halt);
      [simpl; tauto |].
    set (sel := {| pd.index := pd.index d;
                   pd.columns := [("NUM_POSTE", ids); ("NOM_USUEL", names); ("LAT_float", lat);
                                  ("LON_float", lon); ("ALTI_float", alt)] |}).
    assert (Hsel : pd.getitem_list d station_columns = Ok sel).
    { unfold pd.getitem_list. rewrite Hmiss. unfold station_columns.
      simpl. rewrite Hids, Hnames, Hlat, Hlon, Halt. reflexivity. }
    set (m1 := pd.first_seen [] (pd.rows sel)).
    set (df1 := pd.rows_where m1 sel).
    set (sl f c := pd.select (fun A => pd.take_where f) c).
    set (m2 := zip_with andb (pd.notna (sl m1 lat))
                 (zip_with andb (pd.notna (sl m1 lon)) (replicate (pd.nrows df1) true))).
    set (stations_map := pd.rows_where m2 df1).
    assert (Hdrop : pd.dropna ["LAT_float"; "LON_float"] (pd.drop_duplicates sel)
                    = Ok stations_map) by reflexivity.
    unfold visualisation_2, st.header. rewrite run_write_bind.
    fold header_2. fold station_columns.
    set (s1 := with_page _ s).
    assert (Hd1 : heap s1 !! r = Some d) by exact Hd.
    rewrite (run_bind_ok _ _ _ _ _ (run_deref _ _ _ Hd1)). cbv beta.
    rewrite Hsel, run_lift_bind, Hdrop, run_lift_bind.
    destruct (negb (pd.empty stations_map)).
    + unfold st.subheader, st.map, st.pyplot.
      change (pd.getitem_list stations_map ["LAT_float"; "LON_float"])
        with (Ok {| pd.index := pd.index stations_map;
                    pd.columns := [("LAT_float", sl m2 (sl m1 lat));
                                   ("LON_float", sl m2 (sl m1 lon))] |}).
      change (pd.getitem stations_map "LON_float") with (Ok (sl m2 (sl m1 lon))).
      change (pd.getitem stations_map "LAT_float") with (Ok (sl m2 (sl m1 lat))).
      change (pd.getitem stations_map "ALTI_float") with (Ok (sl m2 (sl m1 alt))).
      repeat (first [rewrite run_write_bind | rewrite run_lift_bind]; cbv beta iota).
      eexists (Ok tt), [_; _; _; _].
      split; [unfold st.write, s1;
              rewrite !with_page_with_page, !page_with_page;
              repeat rewrite <- app_assoc; reflexivity |].
      split; [reflexivity | by left].
    + eexists (Ok tt), [_].
      split; [unfold st.warning, st.write, s1;
              rewrite !with_page_with_page, !page_with_page; by rewrite <- app_assoc |].
      split; [reflexivity | by left].
  - unfold visualisation_2, st.header. rewrite run_write_bind.
    fold header_2. fold station_columns.
    set (s1 := with_page _ s).
    assert (Hd1 : heap s1 !! r = Some d) by exact Hd.
    rewrite (run_bind_ok _ _ _ _ _ (run_deref _ _ _ Hd1)). cbv beta.
    unfold pd.getitem_list. rewrite Hmiss. rewrite run_lift_bind.
    exists (Raise (KeyError (NotInIndex (m :: ms)))), [].
    split; [reflexivity |]. split; [reflexivity |]. right. done.
Qed.

(** * The date check *)

Lemma sections_never_write_date_error r :
  only_writes (fun e => e <> date_error)
    (visualisation_1 r;; visualisation_2 r;; visualisation_3 r).
Proof.
  apply only_writes_bind; [| intros _; apply only_writes_bind; [| intros _]].
  - unfold visualisation_1, st.header, st.pyplot, st.markdown, st.warning, st.error.
    repeat only_writes_step; try done.
    intros e h He. destruct e; simplify_eq; by apply only_writes_write.
  - unfold visualisation_2, st.header, st.subheader, st.map, st.pyplot, st.warning.
    apply only_writes_bind; [by apply only_writes_write | intros _].
    apply only_writes_bind; [apply only_writes_deref | intros d].
    apply only_writes_bind; [apply only_writes_lift | intros sel].
    apply only_writes_bind; [apply only_writes_lift | intros stations_map].
    destruct (negb _); repeat only_writes_step; done.
  - unfold visualisation_3, st.header, st.pyplot, st.markdown, st.error.
    repeat only_writes_step; try done.
    intros e h He. destruct e; simplify_eq; by apply only_writes_write.
Qed.

(** X1. The date check of plot_visualizations, on a frame whose labels
    are distinct once renamed. The message about the date column is
    written exactly when the renamed frame has no column 'AAAAMMJJ' of
    datetime type; it is then the only element written, and the routine
    returns normally without starting any section. *)
Theorem date_error_iff_no_datetime_column df dept_code s d :
  heap s !! df = Some d ->
  let d' := pd.rename column_names d in
  NoDup (pd.labels d') ->
  let run := plot_visualizations df dept_code s in
  exists out,
    page run.2 = page s ++ out /\
    (In date_error out <-> forall xs, pd.getitem d' "AAAAMMJJ" <> Ok (pd.Datetime64 xs)) /\
    (In date_error out -> run.1 = Ok tt /\ out = [date_error]).
Proof.
  intros Hd d' _ run. subst run. rewrite (plot_visualizations_run _ _ _ _ Hd). cbv zeta.
  fold d'. unfold pd.getitem.
  assert (Hstop : (forall xs, pd.assoc "AAAAMMJJ" (pd.columns d') <> Some (pd.Datetime64 xs)) ->
    exists out,
      page s ++ [date_error] = page s ++ out /\
      (In date_error out <-> forall xs,
         match pd.assoc "AAAAMMJJ" (pd.columns d') with
         | Some c => Ok c
         | None => Raise (KeyError (Label "AAAAMMJJ"))
         end <> Ok (pd.Datetime64 xs)) /\
      (In date_error out -> Ok tt = Ok tt /\ out = [date_error])).
  { intros Hno. exists [date_error]. split; [reflexivity |]. split; [| done].
    split; [| by left]. intros _ xs H. apply (Hno xs).
    destruct (pd.assoc "AAAAMMJJ" (pd.columns d')); by simplify_eq. }
  destruct (pd.assoc "AAAAMMJJ" (pd.columns d')) as [[xs | xs | xs | xs] |] eqn:Hc;
    try (apply Hstop; intros ys; congruence).
  set (s1 := with_heap _ s).
  destruct (sections_never_write_date_error (length (heap s)) s1)
    as (_ & _ & _ & _ & _ & out & Hout & Hall).
  exists out. split; [exact Hout |].
  rewrite List.Forall_forall in Hall.
  assert (Hnot : ~ In date_error out) by (intros Hin; by apply (Hall _ Hin)).
  split; [| done]. split; [done |]. intros H. by destruct (H xs).
Qed.


(** * What leaves plot_visualizations *)

Lemma contains_setitem l l' c d :
  l <> l' -> pd.contains (pd.setitem l' c d) l = pd.contains d l.
Proof.
  intros Hne. rewrite !contains_assoc. simpl. rewrite assoc_set_assoc.
  by destruct (String.eqb_spec l l').
Qed.

Lemma station_columns_setitem_Year c d :
  List.filter (fun l => negb (pd.contains (pd.setitem "Year" c d) l)) station_columns
  = List.filter (fun l => negb (pd.contains d l)) station_columns.
Proof.
  apply List.filter_ext_in. intros l Hl. rewrite contains_setitem; [reflexivity |].
  intros ->. simpl in Hl. intuition discriminate.
Qed.

(** The three sections in a row: they end normally with their three
    headers on the page, or the first raises the exception of a mean over
    text, or the second raises the [KeyError] of its column selection. *)
Lemma sections_outcome r s d :
  heap s !! r = Some d ->
  let missing := List.filter (fun l => negb (pd.contains d l)) station_columns in
  let run := (visualisation_1 r;; visualisation_2 r;; visualisation_3 r) s in
  exists out,
    run.2 = with_page (page s ++ out) s /\
    (run.1 = Ok tt /\ missing = [] /\ headers out = [header_1; header_2; header_3] \/
     run.1 = Raise mean_of_text /\ headers out = [header_1] \/
     run.1 = Raise (KeyError (NotInIndex missing)) /\ missing <> [] /\
     headers out = [header_1; header_2]) /\
    (forall year, pd.assoc "Year" (pd.columns d) = Some year ->
       (forall tn, pd.assoc "TN_float" (pd.columns d) = Some tn ->
                   pd.dtype_of tn <> pd.object) ->
       run.1 <> Raise mean_of_text).
Proof.
  intros Hd missing run. subst run.
  assert (Hl : forall p, heap (with_page p s) !! r = Some d) by (intros p; exact Hd).
  destruct (visualisation_1_outcome r s d Hd) as (res1 & out1 & Hrun1 & Hh1 & Hres1).
  assert (Hnum : forall year, pd.assoc "Year" (pd.columns d) = Some year ->
            (forall tn, pd.assoc "TN_float" (pd.columns d) = Some tn ->
                        pd.dtype_of tn <> pd.object) ->
            res1 = Ok tt).
  { intros year Hy Htn.
    destruct (visualisation_1_completes r s d year Hd Hy Htn) as (out & Hrun & _).
    rewrite Hrun in Hrun1. congruence. }
  rewrite run_bind, Hrun1.
  destruct Hres1 as [-> | [-> ->]].
  2:{ exists [Header header_1]. split; [reflexivity |]. split; [right; left; done |].
      intros year Hy Htn. by specialize (Hnum year Hy Htn). }
  set (s2 := with_page _ s).
  destruct (visualisation_2_outcome r s2 d (Hl _))
    as (res2 & out2 & Hrun2 & Hh2 & Hres2).
  fold missing in Hres2.
  rewrite run_bind, Hrun2.
  destruct Hres2 as [[Hmiss ->] | (Hmiss & -> & ->)].
  2:{ exists (Header header_1 :: out1 ++ [Header header_2]).
      split; [simpl; by rewrite <- app_assoc |]. split; [| done]. right; right.
      split; [reflexivity |]. split; [exact Hmiss |].
      simpl. by rewrite headers_app, Hh1. }
  set (s3 := with_page _ s2).
  destruct (visualisation_3_outcome r s3 d (Hl _)) as (out3 & Hrun3 & Hh3).
  rewrite Hrun3.
  exists (Header header_1 :: out1 ++ Header header_2 :: out2 ++ Header header_3 :: out3).
  split; [| split; [| done]].
  - simpl. repeat rewrite <- app_assoc. reflexivity.
  - left. split; [reflexivity |]. split; [exact Hmiss |].
    simpl. rewrite headers_app, Hh1. simpl. rewrite headers_app, Hh2. simpl. by rewrite Hh3.
Qed.

(** X2. How plot_visualizations ends. For a frame whose renamed copy has
    distinct labels, a date column of datetime type that holds a date, and
    numbers in the columns that are plotted, plot_visualizations returns normally exactly
    when the five columns of the second section are there, and the three
    section headers are then on the page. When one of them is missing it
    raises the KeyError of the column selection of the second section,
    which lists the missing columns, after the headers of the first two
    sections and before the third. *)
Theorem plot_visualizations_outcome df dept_code s d dates t :
  heap s !! df = Some d ->
  let d' := pd.rename column_names d in
  NoDup (pd.labels d') ->
  pd.getitem d' "AAAAMMJJ" = Ok (pd.Datetime64 dates) ->
  In (Some t) dates ->
  numeric_columns plotted_columns d' ->
  let missing := List.filter (fun l => negb (pd.contains d' l)) station_columns in
  let run := plot_visualizations df dept_code s in
  exists out,
    page run.2 = page s ++ out /\
    (run.1 = Ok tt /\ missing = [] /\ headers out = [header_1; header_2; header_3] \/
     run.1 = Raise (KeyError (NotInIndex missing)) /\ missing <> [] /\
     headers out = [header_1; header_2]).
Proof.
  intros Hd d' _ Hdate _ Hnumeric missing run. subst run.
  apply getitem_assoc in Hdate.
  rewrite (plot_visualizations_run _ _ _ _ Hd). cbv zeta. fold d'. rewrite Hdate.
  set (dY := pd.setitem "Year" (pd.years dates) d').
  set (s1 := with_heap (heap s ++ [dY]) s).
  assert (Hl : heap s1 !! length (heap s) = Some dY).
  { unfold s1; simpl. by rewrite list_lookup_middle. }
  destruct (sections_outcome (length (heap s)) s1 dY Hl) as (out & Hs & Hres & Hnum).
  unfold dY in Hres. rewrite station_columns_setitem_Year in Hres. fold dY in Hres.
  exists out. split; [by rewrite Hs |].
  destruct Hres as [H | [[H _] | H]]; [by left | | by right].
  exfalso. revert H. apply (Hnum (pd.years dates)).
  - unfold dY. simpl. by rewrite assoc_set_assoc.
  - intros tn Hc. apply numbers_not_object. apply (Hnumeric "TN_float"); [simpl; tauto |].
    unfold dY in Hc. simpl in Hc. by rewrite assoc_set_assoc in Hc.
Qed.


(** * The session: the memo table and the calls to the data source *)

(** plot_visualizations touches neither the memo table nor the log of
    calls, nor the sidebar field and the layout. *)
Lemma plot_visualizations_session df dept_code s :
  let s' := (plot_visualizations df dept_code s).2 in
  cache s' = cache s /\ fetched s' = fetched s /\ typed s' = typed s /\ layout s' = layout s.
Proof.
  destruct (heap s !! df) as [d |] eqn:Hd.
  - rewrite (plot_visualizations_run _ _ _ _ Hd). cbv zeta.
    destruct (pd.assoc "AAAAMMJJ" _) as [[xs | xs | xs | xs] |]; try done.
    destruct (visualisations_only_write (length (heap s))
                (with_heap (heap s ++ [pd.setitem "Year" (pd.years xs)
                                         (pd.rename column_names d)]) s))
      as (_ & Hc & Hf & Hl & Ht & _).
    done.
  - assert (Hr : deref df s = (Raise (OtherException "NameError" "unbound"), s)).
    { unfold deref. by rewrite Hd. }
    unfold plot_visualizations. rewrite run_bind, Hr. done.
Qed.

(** What plot_visualizations returns and writes depends on the frame
    only, not on the variable that holds it nor on the department code. *)
Lemma plot_visualizations_reads_frame df1 df2 dept1 dept2 s1 s2 d :
  heap s1 !! df1 = Some d ->
  heap s2 !! df2 = Some d ->
  exists res out,
    (plot_visualizations df1 dept1 s1).1 = res /\
    page (plot_visualizations df1 dept1 s1).2 = page s1 ++ out /\
    (plot_visualizations df2 dept2 s2).1 = res /\
    page (plot_visualizations df2 dept2 s2).2 = page s2 ++ out.
Proof.
  intros H1 H2.
  rewrite (plot_visualizations_run _ _ _ _ H1), (plot_visualizations_run _ _ _ _ H2).
  cbv zeta.
  destruct (pd.assoc "AAAAMMJJ" _) as [[xs | xs | xs | xs] |];
    try (by eexists (Ok tt), [_]).
  set (y := pd.setitem "Year" (pd.years xs) (pd.rename column_names d)).
  assert (Hy : forall ls, agree ls y y) by (intros ls; split; done).
  assert (Hsame : same_output (length (heap s1)) (length (heap s2)) y y
            (visualisation_1 (length (heap s1));; visualisation_2 (length (heap s1));;
             visualisation_3 (length (heap s1)))
            (visualisation_1 (length (heap s2));; visualisation_2 (length (heap s2));;
             visualisation_3 (length (heap s2)))).
  { apply same_output_bind; [| intros _; apply same_output_bind; [| intros _]].
    - apply visualisation_1_reads, Hy.
    - apply visualisation_2_reads, Hy.
    - apply visualisation_3_reads, Hy. }
  destruct (Hsame (with_heap (heap s1 ++ [y]) s1) (with_heap (heap s2 ++ [y]) s2))
    as (res & out & E1 & E2).
  - simpl. by rewrite list_lookup_middle.
  - simpl. by rewrite list_lookup_middle.
  - exists res, out. rewrite E1, E2. repeat split.
Qed.

Section Session.
Variable process_weather_data : string -> list string -> result pd.DataFrame.

(** A call of load_data, memoised or not. *)
Lemma load_data_steps dept_code s :
  exists d shown,
    load_data process_weather_data dept_code s
      = (Ok (length (heap s)), (load_data process_weather_data dept_code s).2) /\
    heap (load_data process_weather_data dept_code s).2 = heap s ++ [d] /\
    cache (load_data process_weather_data dept_code s).2 !! dept_code = Some (d, shown) /\
    page (load_data process_weather_data dept_code s).2 = page s ++ shown /\
    typed (load_data process_weather_data dept_code s).2 = typed s /\
    layout (load_data process_weather_data dept_code s).2 = layout s /\
    match cache s !! dept_code with
    | Some _ =>
        fetched (load_data process_weather_data dept_code s).2 = fetched s /\ cache (load_data process_weather_data dept_code s).2 = cache s
    | None => fetched (load_data process_weather_data dept_code s).2 = fetched s ++ [dept_code]
    end.
Proof.
  destruct (cache s !! dept_code) as [[value shown] |] eqn:Hc.
  - rewrite (load_data_hit _ _ _ _ _ Hc). exists value, shown. simpl.
    by rewrite Hc.
  - rewrite (load_data_miss _ _ _ Hc). cbv zeta.
    destruct (process_weather_data dept_code (fetched s)) as [df | e]; simpl.
    + exists df, []. rewrite lookup_insert_eq, app_nil_r. done.
    + eexists pd.empty_frame, _. rewrite lookup_insert_eq. done.
Qed.

(** main, from the loaded frame on. *)
Lemma main_steps s :
  let dept_code := default "04" (typed s) in
  let s0 :=
    with_page
      (page s ++ [Title [Text "❄️ Analyse des Données Météo - Département 04"];
                  Sidebar (Header [Text "Paramètres"]);
                  Sidebar (TextInput "Code du Département (ex: 04)" dept_code);
                  Info [Text "Chargement des données en cours..."]])
      (with_layout (Some "wide") s) in
  let sL := (load_data process_weather_data dept_code s0).2 in
  let s1 :=
    with_page (<[length (page s) + 3 := Success [Text "Données chargées!"]]> (page sL)) sL in
  exists d shown,
    heap sL = heap s ++ [d] /\
    cache sL !! dept_code = Some (d, shown) /\
    page sL = page s0 ++ shown /\
    main process_weather_data s =
    if pd.empty d then
      (Ok tt,
       with_page
         (page s1 ++ [Error [Text "Le DataFrame est vide. Veuillez vérifier les logs d'erreur ci-dessus."]])
         s1)
    else
      plot_visualizations (length (heap s)) dept_code
        (with_page
           (page s1 ++ [Success [Text "Données chargées : "; Num (pd.nrows d);
                                 Text " lignes et "; Num (pd.ncols d); Text " colonnes."];
                        Dataframe (pd.head d);
                        Markdown [Text "---"]])
           s1).
Proof.
  intros dept_code s0 sL s1.
  destruct (load_data_steps dept_code s0) as (d & shown & Hrun & Hheap & Hcache & Hpage & _).
  fold sL in Hrun, Hheap, Hcache, Hpage.
  destruct (main_run process_weather_data s) as (df & d' & Hload & Hd' & Hmain).
  fold dept_code s0 sL s1 in Hload, Hd', Hmain.
  rewrite Hrun in Hload. simpl in Hload. injection Hload as <-.
  change (heap s0) with (heap s) in *.
  assert (d' = d) as ->.
  { change (heap s1) with (heap sL) in Hd'. rewrite Hheap in Hd'.
    rewrite list_lookup_middle in Hd' by reflexivity. congruence. }
  exists d, shown. split; [exact Hheap |]. split; [exact Hcache |]. split; [exact Hpage |].
  rewrite Hmain.
  destruct (pd.empty d); cbn [negb]; [reflexivity |].
  unfold st.success, st.dataframe, st.markdown.
  rewrite !run_write_bind.
  cbn [heap page layout cache fetched typed with_page].
  repeat rewrite <- app_assoc. reflexivity.
Qed.

(** The session after main: what the load step left. *)
Lemma main_session s :
  let dept_code := default "04" (typed s) in
  let s' := (main process_weather_data s).2 in
  typed s' = typed s /\
  (exists entry, cache s' !! dept_code = Some entry) /\
  match cache s !! dept_code with
  | Some _ => fetched s' = fetched s /\ cache s' = cache s
  | None => fetched s' = fetched s ++ [dept_code]
  end.
Proof.
  intros dept_code s'.
  pose proof (main_steps s) as Hm. cbv zeta in Hm. fold dept_code in Hm.
  set (s0 := with_page _ (with_layout (Some "wide") s)) in Hm.
  destruct Hm as (d & shown & _ & Hcache & _ & Hmain).
  destruct (load_data_steps dept_code s0) as (_ & _ & _ & _ & _ & _ & Htyped & _ & Hfetch).
  change (cache s0) with (cache s) in Hfetch. change (fetched s0) with (fetched s) in Hfetch.
  change (typed s0) with (typed s) in Htyped.
  set (sL := (load_data process_weather_data dept_code s0).2) in *.
  assert (Hs : cache s' = cache sL /\ fetched s' = fetched sL /\ typed s' = typed sL).
  { unfold s'. rewrite Hmain. destruct (pd.empty d); [done |].
    match goal with
    | |- context [plot_visualizations ?df ?dept ?st] =>
        destruct (plot_visualizations_session df dept st) as (Hc & Hf & Ht & _)
    end.
    rewrite Hc, Hf, Ht. done. }
  destruct Hs as (Hc & Hf & Ht). rewrite Hc, Hf, Ht.
  split; [exact Htyped |]. split; [eauto |]. exact Hfetch.
Qed.

(** X3. One run of main calls the data source at most once: not at all
    when the memo table has an entry for the department code of the
    sidebar field ('04' until something is typed), and once, with that
    code, when it has none. *)
Theorem main_fetches_at_most_once s :
  let dept_code := default "04" (typed s) in
  fetched (main process_weather_data s).2 =
  match cache s !! dept_code with
  | Some _ => fetched s
  | None => fetched s ++ [dept_code]
  end.
Proof.
  intros dept_code.
  destruct (main_session s) as (_ & _ & H). fold dept_code in H.
  destruct (cache s !! dept_code); [by destruct H | exact H].
Qed.

Lemma insert_success (p : list element) (a b c i : element) (rest : list element) :
  <[length p + 3 := Success [Text "Données chargées!"]]> ((p ++ [a; b; c; i]) ++ rest)
  = p ++ [a; b; c; Success [Text "Données chargées!"]] ++ rest.
Proof.
  rewrite <- app_assoc. rewrite insert_app_r_alt by lia.
  replace (length p + 3 - length p) with 3 by lia. reflexivity.
Qed.

(** X4. A run of main in which the data source fails. main ends normally,
    and its page is: the title, the sidebar, the notice 'Données
    chargées!' that replaced the loading notice, the message of the failed
    load with the exception, and the message that the frame is empty. No
    chart is drawn. *)
Theorem main_reports_failed_load s e :
  let dept_code := default "04" (typed s) in
  cache s !! dept_code = None ->
  process_weather_data dept_code (fetched s) = Raise e ->
  (main process_weather_data s).1 = Ok tt /\
  page (main process_weather_data s).2 =
  page s ++
  [Title [Text "❄️ Analyse des Données Météo - Département 04"];
   Sidebar (Header [Text "Paramètres"]);
   Sidebar (TextInput "Code du Département (ex: 04)" dept_code);
   Success [Text "Données chargées!"];
   Error [Text "Erreur lors du chargement des données: "; Str e];
   Error [Text "Le DataFrame est vide. Veuillez vérifier les logs d'erreur ci-dessus."]].
Proof.
  intros dept_code Hmiss Hfail.
  pose proof (main_steps s) as Hm. cbv zeta in Hm. fold dept_code in Hm.
  set (s0 := with_page _ (with_layout (Some "wide") s)) in Hm.
  destruct Hm as (d & shown & Hheap & _ & _ & Hmain).
  assert (Hload : load_data process_weather_data dept_code s0 = _)
    by exact (load_data_miss process_weather_data dept_code s0 Hmiss).
  cbv zeta in Hload. change (fetched s0) with (fetched s) in Hload.
  rewrite Hfail in Hload.
  rewrite Hload in Hheap, Hmain. simpl in Hheap. apply app_inv_head in Hheap.
  injection Hheap as <-.
  rewrite Hmain. simpl. split; [reflexivity |].
  rewrite insert_success. rewrite <- app_assoc. reflexivity.
Qed.

(** X5. A rerun of main in the same session, with the sidebar field
    unchanged, ends the same way and rebuilds the same page as the run
    before it, without calling the data source and without changing the
    memo table. *)
Theorem rerun_rebuilds_page_without_fetching s h :
  let first := main process_weather_data s in
  let again := main process_weather_data (with_heap h (with_page (page s) first.2)) in
  again.1 = first.1 /\
  page again.2 = page first.2 /\
  fetched again.2 = fetched first.2 /\
  cache again.2 = cache first.2.
Proof.
  intros first again.
  set (s2 := with_heap h (with_page (page s) first.2)).
  destruct (main_session s) as (Htyped & (entry & Hentry) & _).
  fold first in Htyped, Hentry.
  assert (Hdept : default "04" (typed s2) = default "04" (typed s)).
  { change (typed s2) with (typed first.2). by rewrite Htyped. }
  destruct (main_session s2) as (_ & _ & Hsess). fold again in Hsess.
  rewrite Hdept in Hsess. change (cache s2) with (cache first.2) in Hsess.
  rewrite Hentry in Hsess. destruct Hsess as [Hf Hc].
  change (fetched s2) with (fetched first.2) in Hf.
  assert (Hpages : again.1 = first.1 /\ page again.2 = page first.2);
    [| by destruct Hpages].
  pose proof (main_steps s) as Hm. cbv zeta in Hm.
  pose proof (main_steps s2) as Hm2. cbv zeta in Hm2.
  rewrite Hdept in Hm2. change (page s2) with (page s) in Hm2.
  change (heap s2) with h in Hm2.
  set (dept_code := default "04" (typed s)) in *.
  set (p0 := page s ++ _) in Hm, Hm2.
  set (sa := with_page p0 (with_layout (Some "wide") s)) in Hm.
  set (sb := with_page p0 (with_layout (Some "wide") s2)) in Hm2.
  destruct Hm as (d & shown & Hheap & Hcache & Hpage & Hmain).
  destruct Hm2 as (d2 & shown2 & Hheap2 & Hcache2 & Hpage2 & Hmain2).
  destruct (load_data_steps dept_code sb) as (_ & _ & _ & _ & _ & _ & _ & _ & Hhit).
  change (cache sb) with (cache first.2) in Hhit. rewrite Hentry in Hhit.
  destruct Hhit as [_ Hcb]. change (cache sb) with (cache first.2) in Hcb.
  set (sL := (load_data process_weather_data dept_code sa).2) in *.
  set (sL2 := (load_data process_weather_data dept_code sb).2) in *.
  assert (Hcf : cache first.2 = cache sL).
  { unfold first. rewrite Hmain. destruct (pd.empty d); [reflexivity |].
    match goal with
    | |- context [plot_visualizations ?df ?dept ?st] =>
        destruct (plot_visualizations_session df dept st) as (Hx & _)
    end.
    by rewrite Hx. }
  rewrite Hcb, Hcf, Hcache in Hcache2. injection Hcache2 as <- <-.
  assert (HpL : page sL2 = page sL) by (by rewrite Hpage, Hpage2).
  unfold again. fold s2. rewrite Hmain2. unfold first. rewrite Hmain, HpL.
  destruct (pd.empty d); [done |].
  match goal with
  | |- context [plot_visualizations (length (heap s)) dept_code ?st1] =>
      match goal with
      | |- context [plot_visualizations (length h) dept_code ?st2] =>
          destruct (plot_visualizations_reads_frame
                      (length (heap s)) (length h) dept_code dept_code st1 st2 d)
            as (res & out & E1 & E2 & E3 & E4)
      end
  end.
  - simpl. fold sL. rewrite Hheap. by rewrite list_lookup_middle.
  - simpl. fold sL2. rewrite Hheap2. by rewrite list_lookup_middle.
  - rewrite E1, E2, E3, E4. done.
Qed.

(** What leaves plot_visualizations on a frame with numbers in its
    minimum-temperature column. *)
Lemma plot_visualizations_result df dept_code s d :
  heap s !! df = Some d ->
  numeric_columns plotted_columns (pd.rename column_names d) ->
  let run := plot_visualizations df dept_code s in
  run.1 = Ok tt \/
  exists missing,
    missing <> [] /\ (forall l, In l missing -> In l station_columns) /\
    run.1 = Raise (KeyError (NotInIndex missing)).
Proof.
  intros Hd Hnumeric run. subst run. rewrite (plot_visualizations_run _ _ _ _ Hd). cbv zeta.
  destruct (pd.assoc "AAAAMMJJ" _) as [[xs | xs | xs | xs] |]; try (by left).
  set (dY := pd.setitem "Year" (pd.years xs) (pd.rename column_names d)).
  set (s1 := with_heap (heap s ++ [dY]) s).
  assert (Hl : heap s1 !! length (heap s) = Some dY).
  { unfold s1; simpl. by rewrite list_lookup_middle. }
  destruct (sections_outcome (length (heap s)) s1 dY Hl) as (out & _ & Hres & Hnum).
  destruct Hres as [(H & _) | [(H & _) | (H & Hmiss & _)]]; [by left | |].
  - exfalso. revert H. apply (Hnum (pd.years xs)).
    + unfold dY. simpl. by rewrite assoc_set_assoc.
    + intros tn Hc. apply numbers_not_object.
      apply (Hnumeric "TN_float"); [simpl; tauto |].
      unfold dY in Hc. simpl in Hc. by rewrite assoc_set_assoc in Hc.
  - right. eexists. split; [exact Hmiss |]. split; [| exact H].
    intros l Hin. apply filter_In in Hin. tauto.
Qed.

Lemma drawable_empty_frame : drawable pd.empty_frame.
Proof.
  split; [constructor |]. split; [intros l c _ Hc | intros dates Hc]; discriminate Hc.
Qed.

(** The memo table only ever holds frames of the data source, or the
    empty frame. *)
Lemma load_data_keeps_drawable dept_code s :
  (forall dept calls d, process_weather_data dept calls = Ok d -> drawable d) ->
  (forall k d shown, cache s !! k = Some (d, shown) -> drawable d) ->
  forall k d shown,
    cache (load_data process_weather_data dept_code s).2 !! k = Some (d, shown) ->
    drawable d.
Proof.
  intros Hsource Hcache k d shown.
  destruct (cache s !! dept_code) as [[value shown'] |] eqn:Hc.
  - rewrite (load_data_hit _ _ _ _ _ Hc). simpl. apply Hcache.
  - rewrite (load_data_miss _ _ _ Hc). cbv zeta.
    destruct (process_weather_data dept_code (fetched s)) as [df | e] eqn:Hf; simpl.
    + destruct (decide (k = dept_code)) as [-> | Hne].
      * rewrite lookup_insert_eq. intros [= <- <-]. by eapply Hsource.
      * rewrite lookup_insert_ne by done. apply Hcache.
    + destruct (decide (k = dept_code)) as [-> | Hne].
      * rewrite lookup_insert_eq. intros [= <- <-]. apply drawable_empty_frame.
      * rewrite lookup_insert_ne by done. apply Hcache.
Qed.

(** X6. The exceptions of the application. When the data source returns
    drawable frames only, and the memo table holds such frames, main ends
    normally or raises the KeyError of the column selection of the second
    section, which lists columns among the five it selects. A failure of
    the data source never leaves main. *)
Theorem main_outcome s :
  (forall dept calls d, process_weather_data dept calls = Ok d -> drawable d) ->
  (forall k d shown, cache s !! k = Some (d, shown) -> drawable d) ->
  let run := main process_weather_data s in
  run.1 = Ok tt \/
  exists missing,
    missing <> [] /\ (forall l, In l missing -> In l station_columns) /\
    run.1 = Raise (KeyError (NotInIndex missing)).
Proof.
  intros Hsource Hcache run. subst run.
  pose proof (main_steps s) as Hm. cbv zeta in Hm.
  destruct Hm as (d & shown & Hheap & Hentry & _ & Hmain).
  assert (Hd : drawable d).
  { eapply load_data_keeps_drawable; [exact Hsource | | exact Hentry]. exact Hcache. }
  rewrite Hmain. destruct (pd.empty d); [by left |].
  eapply (plot_visualizations_result _ _ _ d); [| exact (proj1 (proj2 Hd))].
  simpl. rewrite Hheap. by rewrite list_lookup_middle.
Qed.

End Session.



(** * The boxplot of a frame that has every column *)

(** X7. The third chart. For a frame whose renamed copy has distinct
    labels, a date column of datetime type that holds a date, a minimum-temperature column, the
    five columns of the second section, and numbers in the columns that
    are plotted, plot_visualizations ends normally and the last three
    elements it writes are the header of the third section, the boxplot
    and its caption, after the two other sections. The boxplot has one box
    for each calendar year in which a date of the frame falls, and the box
    of a year holds the non-missing minimum temperatures of the rows dated
    in that year. *)
Theorem boxplot_of_complete_frame df dept_code s d dates t c :
  heap s !! df = Some d ->
  let d' := pd.rename column_names d in
  NoDup (pd.labels d') ->
  pd.getitem d' "AAAAMMJJ" = Ok (pd.Datetime64 dates) ->
  In (Some t) dates ->
  pd.getitem d' "TN_float" = Ok c ->
  numeric_columns plotted_columns d' ->
  (forall l, In l station_columns -> pd.contains d' l = true) ->
  exists ys before,
    NoDup ys /\
    (forall y, In y ys <-> In (Some y) (List.map (option_map pd.year_of) dates)) /\
    headers before = [header_1; header_2] /\
    (plot_visualizations df dept_code s).1 = Ok tt /\
    page (plot_visualizations df dept_code s).2 =
    page s ++ before ++
    [Header header_3;
     Pyplot
       {| plt.drawn :=
            plt.Boxes
              (List.map
                 (fun y =>
                    (year_value dates y,
                     omap snd
                       (List.filter (fun p => bool_decide (p.1 = Some y))
                          (zip (List.map (option_map pd.year_of) dates) (pd.cells c)))))
                 ys);
          plt.title := [Text "Distribution de la Température Minimale (TN) par Année"];
          plt.xlabel := "Année";
          plt.ylabel := "Température Minimale (°C)";
          plt.colorbar := None |};
     Markdown
       [Text "Chaque boîte représente la répartition des températures minimales pour une année donnée."]].
Proof.
  intros Hd d' _ Hdate _ Htn Hnumeric Hcols.
  apply getitem_assoc in Hdate, Htn.
  assert (Hnum : pd.dtype_of c <> pd.object).
  { apply numbers_not_object. apply (Hnumeric "TN_float"); [simpl; tauto | exact Htn]. }
  rewrite (plot_visualizations_run _ _ _ _ Hd). cbv zeta. fold d'. rewrite Hdate.
  set (dY := pd.setitem "Year" (pd.years dates) d').
  set (s1 := with_heap (heap s ++ [dY]) s).
  set (local := length (heap s)).
  assert (Hl : forall p, heap (with_page p s1) !! local = Some dY).
  { intros p. unfold s1, local; simpl. by rewrite list_lookup_middle. }
  assert (Hyear : pd.assoc "Year" (pd.columns dY) = Some (pd.years dates)).
  { unfold dY. simpl. by rewrite assoc_set_assoc. }
  assert (Htn' : pd.assoc "TN_float" (pd.columns dY) = Some c).
  { unfold dY. simpl. by rewrite assoc_set_assoc. }
  (* the first section *)
  destruct (visualisation_1_outcome local s1 dY (Hl (page s1)))
    as (res1 & out1 & Hrun1 & Hh1 & _).
  destruct (visualisation_1_completes local s1 dY (pd.years dates) (Hl (page s1)) Hyear)
    as (out1' & Hrun1' & _).
  { intros tn Htn''. congruence. }
  assert (res1 = Ok tt) as -> by (rewrite Hrun1' in Hrun1; congruence).
  rewrite run_bind, Hrun1.
  (* the second section *)
  set (s2 := with_page _ s1).
  destruct (visualisation_2_outcome local s2 dY (Hl _))
    as (res2 & out2 & Hrun2 & Hh2 & Hres2).
  unfold dY in Hres2. rewrite station_columns_setitem_Year in Hres2. fold dY in Hres2.
  assert (Hmiss : List.filter (fun l => negb (pd.contains d' l)) station_columns = []).
  { unfold station_columns. cbn [List.filter].
    rewrite !Hcols by (simpl; tauto). reflexivity. }
  destruct Hres2 as [[_ ->] | (Hne & _)]; [| by destruct Hne].
  rewrite run_bind, Hrun2.
  (* the third section *)
  set (s3 := with_page _ s2).
  destruct (boxplot_of_each_year local s3 dY dates c (Hl _) Hyear Htn')
    as (ys & Hnd & Hmem & Hrun3).
  rewrite Hrun3. fold header_3.
  exists ys, (Header header_1 :: out1 ++ Header header_2 :: out2).
  split; [exact Hnd |]. split; [exact Hmem |].
  split.
  { simpl. rewrite headers_app, Hh1. simpl. by rewrite Hh2. }
  split; [reflexivity |].
  unfold s3, s2. cbn [page with_page fst snd]. unfold s1. cbn [page with_heap].
  repeat (rewrite <- app_assoc; cbn [app]). reflexivity.
Qed.


(** * The station chosen among equally frequent ones *)

Lemma ascii_compare_Lt_trans a b c :
  Ascii.compare a b = Lt -> Ascii.compare b c = Lt -> Ascii.compare a c = Lt.
Proof.
  unfold Ascii.compare. rewrite !N.compare_lt_iff. apply N.lt_trans.
Qed.

Lemma string_compare_trans a b c :
  String.compare a b <> Gt -> String.compare b c <> Gt -> String.compare a c <> Gt.
Proof.
  revert b c. induction a as [| x a IH]; intros [| y b] [| z c]; simpl; try done.
  destruct (Ascii.compare x y) eqn:Hxy; [| | done].
  - apply Ascii.compare_eq_iff in Hxy as ->.
    destruct (Ascii.compare y z) eqn:Hyz; [apply IH | done | done].
  - destruct (Ascii.compare y z) eqn:Hyz; [| | done].
    + apply Ascii.compare_eq_iff in Hyz as ->. by rewrite Hxy.
    + by rewrite (ascii_compare_Lt_trans _ _ _ Hxy Hyz).
Qed.

Lemma string_leb_trans a b c :
  String.leb a b = true -> String.leb b c = true -> String.leb a c = true.
Proof.
  unfold String.leb. intros Hab Hbc.
  pose proof (string_compare_trans a b c) as H.
  destruct (String.compare a b), (String.compare b c), (String.compare a c);
    try done; exfalso; by apply H.
Qed.

Lemma scalar_leb_trans a b c :
  pd.scalar_leb a b = true -> pd.scalar_leb b c = true -> pd.scalar_leb a c = true.
Proof.
  destruct a, b, c; simpl; try done.
  - rewrite !Z.leb_le. lia.
  - rewrite !Qle_bool_iff. apply Qle_trans.
  - apply string_leb_trans.
  - rewrite !Z.leb_le. lia.
Qed.

Lemma scalar_leb_total a b :
  pd.scalar_leb a b = false -> pd.scalar_leb b a = true.
Proof.
  destruct a, b; simpl; try done.
  - rewrite Z.leb_gt, Z.leb_le. lia.
  - intros H. apply Qle_bool_iff. apply Qlt_le_weak, Qnot_le_lt.
    intros Hle. apply Qle_bool_iff in Hle. congruence.
  - intros H. destruct (String.leb_total s s0) as [H' | H']; congruence.
  - rewrite Z.leb_gt, Z.leb_le. lia.
Qed.

Lemma scalar_leb_congr a b c :
  pd.scalar_eqb b c = true -> pd.scalar_leb a b = true -> pd.scalar_leb a c = true.
Proof.
  destruct a, b, c; simpl; try done.
  - rewrite Z.eqb_eq. by intros ->.
  - intros Hq. apply Qeq_bool_iff in Hq. rewrite !Qle_bool_iff. by rewrite Hq.
  - rewrite String.eqb_eq. by intros ->.
  - rewrite Z.eqb_eq. by intros ->.
Qed.

Lemma scalar_leb_refl a : pd.scalar_leb a a = true.
Proof.
  destruct (pd.scalar_leb a a) eqn:E; [reflexivity |].
  pose proof (scalar_leb_total _ _ E). congruence.
Qed.

(** The first value of a sorted column is before every other. *)
Lemma sort_values_first l m rest z :
  pd.sort_values l = m :: rest -> In z l -> pd.scalar_leb m z = true.
Proof.
  revert m rest z. induction l as [| x l IH]; intros m rest z; simpl; [done |].
  destruct (pd.sort_values l) as [| y l'] eqn:Hs; simpl.
  - intros [= <- <-] [<- | Hz]; [apply scalar_leb_refl |].
    apply sort_values_In in Hz. rewrite Hs in Hz. destruct Hz.
  - assert (Hy : forall z, In z l -> pd.scalar_leb y z = true) 
      by (intros z0 Hz0; exact (IH y l' z0 eq_refl Hz0)).
    destruct (pd.scalar_leb x y) eqn:Hxy; intros [= <- <-] [<- | Hz].
    + apply scalar_leb_refl.
    + eapply scalar_leb_trans; [exact Hxy | by apply Hy].
    + by apply scalar_leb_total.
    + by apply Hy.
Qed.

(** The first entry of the mode comes first among the values that occur
    most often. *)
Lemma mode_first_is_least ids top w :
  pd.getitem_0 (pd.mode ids) = Ok (Some top) ->
  In (Some w) (pd.cells ids) ->
  pd.value_count (pd.dropna_cells (pd.cells ids)) top
    <= pd.value_count (pd.dropna_cells (pd.cells ids)) w ->
  pd.scalar_leb top w = true.
Proof.
  unfold pd.getitem_0. rewrite mode_cells.
  destruct (pd.mode_values ids) as [| m rest] eqn:Hm; [done |].
  simpl. intros [= ->] Hw Hcount.
  destruct (mode_values_spec ids top) as [_ Hmax]; [rewrite Hm; by left |].
  apply dropna_cells_In in Hw.
  apply unique_covers in Hw as (u & Hu & Huw).
  assert (Hin : In u (pd.mode_values ids)).
  { unfold pd.mode_values. apply sort_values_In, filter_In. split; [exact Hu |].
    apply Nat.eqb_eq.
    set (vs := pd.dropna_cells (pd.cells ids)) in *.
    assert (Htop : pd.value_count vs top = max_list (List.map (pd.value_count vs) vs)).
    { assert (Ht : In top (pd.mode_values ids)) by (rewrite Hm; by left).
      unfold pd.mode_values in Ht. apply sort_values_In, filter_In in Ht as [_ Ht].
      by apply Nat.eqb_eq in Ht. }
    rewrite <- Htop. rewrite (value_count_congr _ _ _ Huw).
    specialize (Hmax w). lia. }
  assert (Hle : pd.scalar_leb top u = true).
  { unfold pd.mode_values in Hm, Hin. apply (proj1 (sort_values_In _ _)) in Hin.
    exact (sort_values_first _ _ _ _ Hm Hin). }
  by eapply scalar_leb_congr.
Qed.

(** The first entry of a mode is a value. *)
Lemma mode_first_value ids top :
  pd.getitem_0 (pd.mode ids) = Ok top -> exists v, top = Some v.
Proof.
  unfold pd.getitem_0. rewrite mode_cells.
  destruct (pd.mode_values ids) as [| m rest]; [done |]. simpl. intros [= <-]. eauto.
Qed.

(** A chart of the first section is titled with the first entry of the
    mode of the station column. *)
Lemma visualisation_1_chart r s d :
  heap s !! r = Some d ->
  exists out,
    page (visualisation_1 r s).2 = page s ++ out /\
    forall fig, In (Pyplot fig) out ->
      exists ids top,
        pd.getitem d "NUM_POSTE" = Ok ids /\
        pd.getitem_0 (pd.mode ids) = Ok top /\
        plt.title fig = [Text "Température Minimale Moyenne Annuelle pour la station ";
                         Val top].
Proof.
  intros Hd.
  assert (Hnone : forall msg : text,
    exists out,
      page s ++ [Header header_1; Error msg] = page s ++ out /\
      forall fig, In (Pyplot fig) out ->
        exists ids top,
          pd.getitem d "NUM_POSTE" = Ok ids /\
          pd.getitem_0 (pd.mode ids) = Ok top /\
          plt.title fig = [Text "Température Minimale Moyenne Annuelle pour la station ";
                           Val top]).
  { intros msg. eexists. split; [reflexivity |].
    intros fig [H | [H | []]]; discriminate. }
  unfold visualisation_1, st.header. rewrite run_write_bind.
  unfold try_except. fold header_1.
  set (s1 := with_page _ s).
  assert (Hd1 : heap s1 !! r = Some d) by exact Hd.
  rewrite (run_bind_ok _ _ _ _ _ (run_deref _ _ _ Hd1)). cbv beta.
  rewrite run_lift_bind.
  destruct (pd.getitem d "NUM_POSTE") as [ids | e] eqn:Hids.
  2:{ apply getitem_raise in Hids as ->. simpl. rewrite <- app_assoc.
      apply Hnone. }
  rewrite run_lift_bind.
  destruct (pd.getitem_0 (pd.mode ids)) as [top | e] eqn:Htop.
  2:{ apply getitem_0_raise in Htop as ->. simpl. rewrite <- app_assoc.
      apply Hnone. }
  cbv beta zeta. rewrite run_lift_bind.
  destruct (pd.groupby_mean (pd.rows_where (pd.eq_mask ids top) d) "Year" "TN_float")
    as [df_annual | e] eqn:Hg.
  - revert Hg. unfold pd.groupby_mean.
    destruct (pd.getitem _ "Year") as [keys |]; [| discriminate].
    destruct (pd.assoc "TN_float" _) as [vals |]; [| discriminate].
    simpl. destruct (pd.group_means vals _) as [means |]; [| discriminate].
    simpl. intros [= <-].
    unfold pd.getitem. simpl pd.assoc. rewrite !run_lift_bind.
    unfold st.pyplot, st.markdown. rewrite !run_write_bind.
    eexists [_; _; _].
    split; [unfold st.write, s1; simpl; by repeat rewrite <- app_assoc |].
    intros fig [H | [H | [H | []]]]; try discriminate.
    injection H as <-. exists ids, top. done.
  - revert Hg. unfold pd.groupby_mean.
    destruct (pd.getitem _ "Year") as [keys | e'] eqn:Hy.
    2:{ apply getitem_raise in Hy as ->. simpl. intros [= <-]. simpl.
        rewrite <- app_assoc. apply Hnone. }
    destruct (pd.assoc "TN_float" _) as [vals |].
    2:{ simpl. intros [= <-]. simpl. rewrite <- app_assoc. apply Hnone. }
    simpl. destruct (pd.group_means vals _) as [means | e'] eqn:Hm; [discriminate |].
    apply group_means_raise in Hm as ->. simpl. intros [= <-].
    exists [Header header_1]. split; [reflexivity |].
    intros fig [H | []]; discriminate.
Qed.

(** The second and the third section draw no line chart. *)
Lemma later_sections_draw_no_line r :
  only_writes
    (fun e => forall fig x y, e = Pyplot fig -> plt.drawn fig <> plt.Line x y)
    (visualisation_2 r;; visualisation_3 r).
Proof.
  apply only_writes_bind; [| intros _].
  - unfold visualisation_2, st.header, st.subheader, st.map, st.pyplot, st.warning.
    apply only_writes_bind; [by apply only_writes_write | intros _].
    apply only_writes_bind; [apply only_writes_deref | intros d].
    apply only_writes_bind; [apply only_writes_lift | intros sel].
    apply only_writes_bind; [apply only_writes_lift | intros stations_map].
    destruct (negb _); repeat only_writes_step; try done.
    intros fig x y [= <-]. done.
  - eapply only_writes_weaken; [| apply visualisation_3_only_writes].
    intros e He fig x y -> Hl. simpl in He. by rewrite Hl in He.
Qed.

(** X8. The station of the trend chart. Whenever plot_visualizations
    draws a line chart, the chart is titled with a station identifier of
    the frame that no identifier outnumbers, and that comes first in the
    sort order among the identifiers with as many rows: ties between
    equally frequent stations go to the smallest identifier. *)
Theorem charted_station_is_least_most_frequent df dept_code s d out fig x y :
  heap s !! df = Some d ->
  page (plot_visualizations df dept_code s).2 = page s ++ out ->
  In (Pyplot fig) out ->
  plt.drawn fig = plt.Line x y ->
  exists ids top,
    pd.getitem (pd.rename column_names d) "NUM_POSTE" = Ok ids /\
    plt.title fig = [Text "Température Minimale Moyenne Annuelle pour la station ";
                     Val (Some top)] /\
    In (Some top) (pd.cells ids) /\
    (forall w, pd.value_count (pd.dropna_cells (pd.cells ids)) w
               <= pd.value_count (pd.dropna_cells (pd.cells ids)) top) /\
    (forall w, In (Some w) (pd.cells ids) ->
               pd.value_count (pd.dropna_cells (pd.cells ids)) top
                 <= pd.value_count (pd.dropna_cells (pd.cells ids)) w ->
               pd.scalar_leb top w = true).
Proof.
  intros Hd Hpage Hin Hline.
  rewrite (plot_visualizations_run _ _ _ _ Hd) in Hpage. cbv zeta in Hpage.
  set (d' := pd.rename column_names d) in *.
  assert (Hstop : page s ++ [date_error] = page s ++ out -> False).
  { intros H. apply app_inv_head in H. subst out. destruct Hin as [H | []]. discriminate. }
  destruct (pd.assoc "AAAAMMJJ" (pd.columns d')) as [[xs | xs | xs | xs] |];
    try (by destruct (Hstop Hpage)).
  clear Hstop.
  set (dY := pd.setitem "Year" (pd.years xs) d') in *.
  set (s1 := with_heap (heap s ++ [dY]) s) in *.
  assert (Hl : heap s1 !! length (heap s) = Some dY).
  { unfold s1; simpl. by rewrite list_lookup_middle. }
  destruct (visualisation_1_chart (length (heap s)) s1 dY Hl) as (out1 & Hp1 & Hfig).
  assert (Hout : exists out2,
            out = out1 ++ out2 /\
            Forall (fun e => forall fig x y, e = Pyplot fig -> plt.drawn fig <> plt.Line x y)
              out2).
  { rewrite run_bind in Hpage.
    destruct (visualisation_1 (length (heap s)) s1) as [[[] | e] s2] eqn:Hv1;
      simpl in Hp1.
    - destruct (later_sections_draw_no_line (length (heap s)) s2)
        as (_ & _ & _ & _ & _ & out2 & Hp2 & Hall).
      exists out2. split; [| exact Hall].
      rewrite Hp2, Hp1 in Hpage. change (page s1) with (page s) in Hpage.
      rewrite <- app_assoc in Hpage. by apply app_inv_head in Hpage.
    - exists []. split; [| constructor]. simpl in Hpage.
      rewrite Hp1 in Hpage. change (page s1) with (page s) in Hpage.
      apply app_inv_head in Hpage. by rewrite app_nil_r. }
  destruct Hout as (out2 & -> & Hall).
  apply in_app_or in Hin as [Hin | Hin].
  2:{ rewrite List.Forall_forall in Hall. by destruct (Hall _ Hin fig x y eq_refl). }
  destruct (Hfig fig Hin) as (ids & top & Hids & Htop & Htitle).
  destruct (mode_first_value _ _ Htop) as (v & ->).
  exists ids, v.
  split.
  { apply getitem_assoc in Hids. apply getitem_assoc.
    unfold dY in Hids. simpl in Hids. by rewrite assoc_set_assoc in Hids. }
  split; [exact Htitle |].
  assert (Hspec : In v (pd.mode_values ids)).
  { revert Htop. unfold pd.getitem_0. rewrite mode_cells.
    destruct (pd.mode_values ids); [done |]. simpl. intros [= ->]. by left. }
  apply mode_values_spec in Hspec as [Hv Hmax].
  split; [exact Hv |]. split; [exact Hmax |].
  intros w Hw Hc. by eapply mode_first_is_least.
Qed.


(** * A frame without minimum temperatures *)

(** X9. The guarded sections. For a frame whose renamed copy has
    distinct labels, a date column of datetime type, the five columns of the second section with
    numbers in the coordinates, and a station identifier, but no
    minimum-temperature column, plot_visualizations ends normally: the
    first and the third section each write, under their header, the
    message of their KeyError clause naming the column that was not found,
    and the second section runs between them. *)
Theorem missing_temperatures_reported df dept_code s d dates ids v :
  heap s !! df = Some d ->
  let d' := pd.rename column_names d in
  NoDup (pd.labels d') ->
  pd.getitem d' "AAAAMMJJ" = Ok (pd.Datetime64 dates) ->
  pd.contains d' "TN_float" = false ->
  (forall l, In l station_columns -> pd.contains d' l = true) ->
  numeric_columns coordinate_columns d' ->
  pd.getitem d' "NUM_POSTE" = Ok ids ->
  In (Some v) (pd.cells ids) ->
  exists out2,
    headers out2 = [] /\
    (plot_visualizations df dept_code s).1 = Ok tt /\
    page (plot_visualizations df dept_code s).2 =
    page s ++
    [Header header_1;
     Error [Text "Erreur de colonne pour la Visualisation 1: ";
            Str (KeyError (ColumnNotFound "TN_float"));
            Text ". Vérifiez le renommage des colonnes."]] ++
    Header header_2 :: out2 ++
    [Header header_3;
     Error [Text "Erreur de colonne pour la Visualisation 3: ";
            Str (KeyError (ColumnNotFound "TN_float"));
            Text ". Vérifiez le renommage des colonnes."]].
Proof.
  intros Hd d' _ Hdate Hno Hcols _ Hids Hv.
  apply getitem_assoc in Hdate, Hids.
  rewrite contains_assoc in Hno.
  assert (Htn : pd.assoc "TN_float" (pd.columns d') = None).
  { destruct (pd.assoc "TN_float" (pd.columns d')); [| reflexivity].
    by rewrite bool_decide_eq_true_2 in Hno by eauto. }
  rewrite (plot_visualizations_run _ _ _ _ Hd). cbv zeta. fold d'. rewrite Hdate.
  set (dY := pd.setitem "Year" (pd.years dates) d').
  set (s1 := with_heap (heap s ++ [dY]) s).
  set (local := length (heap s)).
  assert (Hl : forall p, heap (with_page p s1) !! local = Some dY).
  { intros p. unfold s1, local; simpl. by rewrite list_lookup_middle. }
  assert (Hyear : pd.assoc "Year" (pd.columns dY) = Some (pd.years dates)).
  { unfold dY. simpl. by rewrite assoc_set_assoc. }
  assert (Htn' : pd.assoc "TN_float" (pd.columns dY) = None).
  { unfold dY. simpl. by rewrite assoc_set_assoc. }
  assert (Hids' : pd.getitem dY "NUM_POSTE" = Ok ids).
  { apply getitem_assoc. unfold dY. simpl. by rewrite assoc_set_assoc. }
  destruct (mode_first ids v Hv) as (top & Htop & _).
  (* the first section *)
  assert (Hrun1 : visualisation_1 local s1 =
    (Ok tt,
     with_page
       (page s1 ++
        [Header header_1;
         Error [Text "Erreur de colonne pour la Visualisation 1: ";
                Str (KeyError (ColumnNotFound "TN_float"));
                Text ". Vérifiez le renommage des colonnes."]])
       s1)).
  { unfold visualisation_1, st.header. rewrite run_write_bind.
    unfold try_except. fold header_1.
    set (sh := with_page _ s1).
    rewrite (run_bind_ok _ _ _ _ _ (run_deref _ _ sh (Hl _))). cbv beta.
    rewrite Hids', run_lift_bind, Htop, run_lift_bind. cbv beta zeta.
    assert (Hg : pd.groupby_mean (pd.rows_where (pd.eq_mask ids (Some top)) dY)
                   "Year" "TN_float"
                 = Raise (KeyError (ColumnNotFound "TN_float"))).
    { unfold pd.groupby_mean, pd.getitem. rewrite !assoc_rows_where, Hyear, Htn'.
      reflexivity. }
    rewrite Hg, run_lift_bind.
    unfold st.error, st.write. simpl. by rewrite <- app_assoc. }
  rewrite run_bind, Hrun1.
  (* the second section *)
  set (s2 := with_page _ s1).
  destruct (visualisation_2_outcome local s2 dY (Hl _))
    as (res2 & out2 & Hrun2 & Hh2 & Hres2).
  unfold dY in Hres2. rewrite station_columns_setitem_Year in Hres2. fold dY in Hres2.
  assert (Hmiss : List.filter (fun l => negb (pd.contains d' l)) station_columns = []).
  { unfold station_columns. cbn [List.filter].
    rewrite !Hcols by (simpl; tauto). reflexivity. }
  destruct Hres2 as [[_ ->] | (Hne & _)]; [| by destruct Hne].
  rewrite run_bind, Hrun2.
  (* the third section *)
  set (s3 := with_page _ s2).
  assert (Hrun3 : visualisation_3 local s3 =
    (Ok tt,
     with_page
       (page s3 ++
        [Header header_3;
         Error [Text "Erreur de colonne pour la Visualisation 3: ";
                Str (KeyError (ColumnNotFound "TN_float"));
                Text ". Vérifiez le renommage des colonnes."]])
       s3)).
  { unfold visualisation_3, st.header. rewrite run_write_bind.
    unfold try_except. fold header_3.
    set (sh := with_page _ s3).
    assert (Hsh : heap sh !! local = Some dY) by apply (Hl (page s1)).
    rewrite (run_bind_ok _ _ _ _ _ (run_deref _ _ sh Hsh)). cbv beta.
    assert (Hg : pd.boxplot_groups dY "TN_float" "Year"
                 = Raise (KeyError (ColumnNotFound "TN_float"))).
    { unfold pd.boxplot_groups, pd.getitem. rewrite Hyear, Htn'. reflexivity. }
    rewrite Hg, run_lift_bind.
    unfold st.error, st.write. simpl. by rewrite <- app_assoc. }
  rewrite Hrun3.
  exists out2. split; [exact Hh2 |]. split; [reflexivity |].
  unfold s3, s2. cbn [page with_page fst snd]. unfold s1. cbn [page with_heap].
  repeat (rewrite <- app_assoc; cbn [app]). reflexivity.
Qed.


(** * Minimum temperatures held as text *)

Lemma zip_map_snd_In {A B C D} (f : B -> D) (la : list A) (lb : list B) (lc : list C) a b c :
  In (a, b, c) (zip (zip la lb) lc) ->
  In (a, f b, c) (zip (zip la (List.map f lb)) lc).
Proof.
  revert lb lc. induction la as [| a' la IH]; intros [| b' lb] [| c' lc]; simpl; try done.
  intros [H | H]; [left; by simplify_eq | right; by apply IH].
Qed.

(** The mean of a text column fails as soon as a group has a value. *)
Lemma group_means_text texts groups m v :
  In m groups -> In (Some v) (pd.take_where m texts) ->
  pd.group_means (pd.Object texts) groups = Raise mean_of_text.
Proof.
  intros Hm Hv. simpl.
  assert (H : existsb (fun m => existsb (fun o : option string => bool_decide (is_Some o))
                                  (pd.take_where m texts)) groups = true).
  { apply existsb_exists. exists m. split; [exact Hm |].
    apply existsb_exists. exists (Some v). split; [exact Hv |].
    by apply bool_decide_eq_true_2. }
  by rewrite H.
Qed.

(** X10. Minimum temperatures held as text. For a frame whose renamed
    copy has distinct labels, a date column of datetime type and a minimum-temperature
    column of text, in which a row of the most frequent station has a date
    and a temperature, the mean of the first section raises a TypeError
    that no clause catches: plot_visualizations raises it after the header
    of the first section, and writes nothing else. *)
Theorem text_temperatures_not_caught df dept_code s d dates ids texts top a t txt :
  heap s !! df = Some d ->
  let d' := pd.rename column_names d in
  NoDup (pd.labels d') ->
  pd.getitem d' "AAAAMMJJ" = Ok (pd.Datetime64 dates) ->
  pd.getitem d' "NUM_POSTE" = Ok ids ->
  pd.getitem d' "TN_float" = Ok (pd.Object texts) ->
  pd.getitem_0 (pd.mode ids) = Ok (Some top) ->
  In (a, Some t, Some txt) (zip (zip (pd.cells ids) dates) texts) ->
  pd.cell_eqb a (Some top) = true ->
  (plot_visualizations df dept_code s).1 = Raise mean_of_text /\
  page (plot_visualizations df dept_code s).2 = page s ++ [Header header_1].
Proof.
  intros Hd d' _ Hdate Hids Htn Htop Hrow Hstation.
  apply getitem_assoc in Hdate, Hids, Htn.
  rewrite (plot_visualizations_run _ _ _ _ Hd). cbv zeta. fold d'. rewrite Hdate.
  set (dY := pd.setitem "Year" (pd.years dates) d').
  set (s1 := with_heap (heap s ++ [dY]) s).
  set (local := length (heap s)).
  assert (Hyear : pd.assoc "Year" (pd.columns dY) = Some (pd.years dates)).
  { unfold dY. simpl. by rewrite assoc_set_assoc. }
  assert (Htn' : pd.assoc "TN_float" (pd.columns dY) = Some (pd.Object texts)).
  { unfold dY. simpl. by rewrite assoc_set_assoc. }
  assert (Hids' : pd.getitem dY "NUM_POSTE" = Ok ids).
  { apply getitem_assoc. unfold dY. simpl. by rewrite assoc_set_assoc. }
  set (mask := pd.eq_mask ids (Some top)).
  set (yr' := pd.select (fun A => pd.take_where mask) (pd.years dates)).
  set (yearsZ := List.map (option_map pd.year_of) dates).
  pose proof (zip_map_snd_In (option_map pd.year_of) _ _ _ _ _ _ Hrow) as Hrow'.
  simpl in Hrow'. fold yearsZ in Hrow'.
  set (y := pd.year_of t) in *.
  destruct (year_keys dates mask) as (ys & Hks & _ & Hmem). fold yr' in Hks.
  assert (Hy : In y ys).
  { apply Hmem. unfold mask, pd.eq_mask. rewrite take_where_filter.
    apply in_map_iff. exists (a, Some y). split; [reflexivity |].
    apply filter_In. split; [| exact Hstation].
    by apply zip_In_fst in Hrow'. }
  assert (Hmask : pd.eq_mask yr' (Some (year_value dates y))
    = List.map (fun oz => bool_decide (oz = Some y))
        (pd.take_where (List.map (fun x => pd.cell_eqb x (Some top)) (pd.cells ids)) yearsZ)).
  { unfold pd.eq_mask, yr', mask, pd.eq_mask.
    rewrite cells_select_take_where, cells_years, take_where_map, List.map_map.
    apply map_ext. intros oz. apply year_cell_eqb. }
  assert (Hg : pd.groupby_mean (pd.rows_where mask dY) "Year" "TN_float"
               = Raise mean_of_text).
  { unfold pd.groupby_mean, pd.getitem. rewrite !assoc_rows_where, Hyear, Htn'.
    cbn [fmap option_fmap option_map mbind result_bind]. fold yr'.
    change (pd.select (fun A => pd.take_where mask) (pd.Object texts))
      with (pd.Object (pd.take_where mask texts)).
    rewrite (group_means_text (pd.take_where mask texts)
               (List.map (fun k => pd.eq_mask yr' (Some k)) (pd.group_keys yr'))
               (pd.eq_mask yr' (Some (year_value dates y))) txt); [reflexivity | |].
    - apply in_map_iff. exists (year_value dates y). split; [reflexivity |].
      rewrite Hks. by apply in_map.
    - rewrite Hmask. unfold mask, pd.eq_mask. rewrite take_where_twice.
      apply in_map_iff. exists (a, Some y, Some txt). split; [reflexivity |].
      apply filter_In. split; [exact Hrow' |]. simpl. rewrite Hstation.
      by rewrite bool_decide_eq_true_2. }
  assert (Hrun1 : visualisation_1 local s1 =
    (Raise mean_of_text, with_page (page s1 ++ [Header header_1]) s1)).
  { unfold visualisation_1, st.header. rewrite run_write_bind.
    unfold try_except. fold header_1.
    set (sh := with_page _ s1).
    assert (Hsh : heap sh !! local = Some dY).
    { unfold sh, s1, local; simpl. by rewrite list_lookup_middle. }
    rewrite (run_bind_ok _ _ _ _ _ (run_deref _ _ sh Hsh)). cbv beta.
    rewrite Hids', run_lift_bind, Htop, run_lift_bind. cbv beta zeta.
    fold mask. rewrite Hg, run_lift_bind. reflexivity. }
  rewrite run_bind, Hrun1. split; reflexivity.
Qed.


(** * A run of main that draws every chart *)

Lemma insert_success_last (p : list element) (a b c i : element) :
  <[length p + 3 := Success [Text "Données chargées!"]]> (p ++ [a; b; c; i])
  = p ++ [a; b; c; Success [Text "Données chargées!"]].
Proof.
  rewrite insert_app_r_alt by lia.
  replace (length p + 3 - length p) with 3 by lia. reflexivity.
Qed.

Section Charts.
Variable process_weather_data : string -> list string -> result pd.DataFrame.

(** X11. A first load that succeeds. When the memo table has no entry for
    the department code, and the data source returns a non-empty frame
    whose renamed copy has distinct labels, a date column of datetime type
    that holds a date, the five columns of the second section, and numbers in the
    columns that are plotted, main ends normally. Its page is the title,
    the sidebar, the notice that replaced the loading notice, the line
    with the numbers of rows and columns, the preview of the frame and a
    rule, followed by the three sections with their headers. *)
Theorem main_draws_three_sections s d dates t :
  let dept_code := default "04" (typed s) in
  cache s !! dept_code = None ->
  process_weather_data dept_code (fetched s) = Ok d ->
  pd.empty d = false ->
  let d' := pd.rename column_names d in
  NoDup (pd.labels d') ->
  pd.getitem d' "AAAAMMJJ" = Ok (pd.Datetime64 dates) ->
  In (Some t) dates ->
  numeric_columns plotted_columns d' ->
  (forall l, In l station_columns -> pd.contains d' l = true) ->
  exists out,
    (main process_weather_data s).1 = Ok tt /\
    page (main process_weather_data s).2 =
    page s ++
    [Title [Text "❄️ Analyse des Données Météo - Département 04"];
     Sidebar (Header [Text "Paramètres"]);
     Sidebar (TextInput "Code du Département (ex: 04)" dept_code);
     Success [Text "Données chargées!"];
     Success [Text "Données chargées : "; Num (pd.nrows d); Text " lignes et ";
              Num (pd.ncols d); Text " colonnes."];
     Dataframe (pd.head d);
     Markdown [Text "---"]] ++ out /\
    headers out = [header_1; header_2; header_3].
Proof.
  intros dept_code Hmiss Hfetch Hempty d' _ Hdate _ Hnumeric Hcols.
  apply getitem_assoc in Hdate.
  pose proof (main_steps process_weather_data s) as Hm. cbv zeta in Hm.
  fold dept_code in Hm.
  set (s0 := with_page _ (with_layout (Some "wide") s)) in Hm.
  destruct Hm as (d0 & shown & Hheap & _ & _ & Hmain).
  assert (Hload : load_data process_weather_data dept_code s0 = _)
    by exact (load_data_miss process_weather_data dept_code s0 Hmiss).
  cbv zeta in Hload. change (fetched s0) with (fetched s) in Hload.
  rewrite Hfetch in Hload.
  rewrite Hload in Hheap, Hmain. simpl in Hheap. apply app_inv_head in Hheap.
  injection Hheap as <-.
  rewrite Hmain, Hempty. clear Hmain Hload.
  cbn [snd page heap with_page with_heap with_cache with_fetched with_layout].
  match goal with
  | |- context [plot_visualizations ?df dept_code ?st] => set (sp := st)
  end.
  assert (Hd : heap sp !! length (heap s) = Some d).
  { unfold sp. simpl. by rewrite list_lookup_middle. }
  rewrite (plot_visualizations_run _ _ _ _ Hd). cbv zeta. fold d'. rewrite Hdate.
  set (dY := pd.setitem "Year" (pd.years dates) d').
  set (s1 := with_heap (heap sp ++ [dY]) sp).
  assert (Hl : heap s1 !! length (heap sp) = Some dY).
  { unfold s1; simpl. by rewrite list_lookup_middle. }
  destruct (sections_outcome (length (heap sp)) s1 dY Hl) as (out & Hs & Hres & Hnum).
  unfold dY in Hres. rewrite station_columns_setitem_Year in Hres. fold dY in Hres.
  assert (Hmissing : List.filter (fun l => negb (pd.contains d' l)) station_columns = []).
  { unfold station_columns. cbn [List.filter].
    rewrite !Hcols by (simpl; tauto). reflexivity. }
  exists out.
  destruct Hres as [(Hok & _ & Hh) | [[H _] | (_ & Hne & _)]].
  - split; [exact Hok |]. split; [| exact Hh].
    rewrite Hs. unfold s1, sp, s0. cbn [page with_page with_heap with_layout].
    rewrite insert_success_last.
    repeat (rewrite <- app_assoc; cbn [app]). reflexivity.
  - exfalso. revert H. apply (Hnum (pd.years dates)).
    + unfold dY. simpl. by rewrite assoc_set_assoc.
    + intros tn Hc. apply numbers_not_object.
      apply (Hnumeric "TN_float"); [simpl; tauto |].
      unfold dY in Hc. simpl in Hc. by rewrite assoc_set_assoc in Hc.
  - by destruct Hne.
Qed.

End Charts.

End Further.

(** * Sample runs *)

(** The statements of this part are about the sample frames, with the
    means computed exactly. *)
Section Samples.
#[local] Existing Instance exact_means.

(** Columns of a sample frame, looked up by computation. *)
Ltac numeric_columns_by_computation :=
  let l := fresh "l" in
  let c := fresh "c" in
  let Hl := fresh "Hl" in
  let Hc := fresh "Hc" in
  intros l c Hl Hc; simpl in Hl;
  repeat (destruct Hl as [<- | Hl];
          [vm_compute in Hc; first [discriminate Hc | injection Hc as <-; eexists; reflexivity] |]);
  destruct Hl.

(** The sizes of sample numbers, compared by computation. *)
Ltac finite_sums_by_computation :=
  intros q Hq; simpl in Hq;
  repeat (destruct Hq as [Hq | Hq]; [simplify_eq; split; vm_compute; discriminate |]);
  destruct Hq.

(** Labels of a sample frame, compared by computation. *)
Ltac labels_distinct_by_computation :=
  match goal with
  | |- NoDup ?l =>
      let l' := eval vm_compute in l in
      apply (bool_decide_unpack (NoDup l')); vm_compute; exact I
  end.

Lemma plot_visualizations_leaves_argument_witness :
  heap (plot_visualizations 0 "04" (holding sample_frame)).2 !! 0%nat = Some sample_frame.
Proof.
  apply (plot_visualizations_leaves_argument 0 "04" (holding sample_frame) sample_frame).
  reflexivity.
Defined.

Lemma load_data_returns_source_frame_witness :
  cache fresh !! "04" = None /\
  exists r s',
    load_data sample_source "04" fresh = (Ok r, s') /\
    heap s' !! r = Some sample_frame /\ page s' = page fresh.
Proof.
  split; [reflexivity |].
  apply (load_data_returns_source_frame sample_source "04" fresh). reflexivity.
Defined.

Lemma first_station_found_witness :
  exists top out,
    pd.getitem (pd.rename column_names sample_frame) "NUM_POSTE"
      = Ok (pd.Object [Some "04049001"; Some "04070001"; Some "04049001"; None]) /\
    pd.getitem_0 (pd.mode (pd.Object [Some "04049001"; Some "04070001"; Some "04049001"; None]))
      = Ok (Some top) /\
    In (Some top) [Some (pd.SStr "04049001"); Some (pd.SStr "04070001");
                   Some (pd.SStr "04049001"); None] /\
    page (plot_visualizations 0 "04" (holding sample_frame)).2
      = page (holding sample_frame) ++ out /\
    ~ In no_first_entry out /\
    ~ In not_enough_data out.
Proof.
  apply (first_station_found 0 "04" (holding sample_frame) sample_frame
           (pd.Object [Some "04049001"; Some "04070001"; Some "04049001"; None])
           (pd.SStr "04070001")).
  - reflexivity.
  - labels_distinct_by_computation.
  - reflexivity.
  - simpl. right. by left.
Defined.

(** A frame that is not empty and has the station-identifier column, all
    of it missing: the mode is empty and has no first entry. *)
Lemma no_station_ids_no_mode :
  pd.empty no_station_ids = false /\
  pd.getitem no_station_ids "station_id" = Ok (pd.Object [None; None]) /\
  pd.len (pd.mode (pd.Object [None; None])) = 0 /\
  ~ exists top, pd.getitem_0 (pd.mode (pd.Object [None; None])) = Ok top.
Proof.
  repeat split; try reflexivity.
  intros [top Htop]. vm_compute in Htop. discriminate.
Qed.

(** C3, at a frame without latitude: the exception raised by the column
    selection of the second section leaves plot_visualizations and main,
    after the first chart and before the third section; the first and the
    third section do catch their [KeyError]s. *)
Theorem second_section_not_guarded :
  (plot_visualizations 0 "04" (holding no_latitude)).1
    = Raise (KeyError (NotInIndex ["LAT_float"])) /\
  headers (page (plot_visualizations 0 "04" (holding no_latitude)).2)
    = [[Text "1. Évolution Temporelle de la Température Minimale (TN) 📈"];
       [Text "2. Distribution Spatiale des Stations Météo 🗺️"]] /\
  charts (page (plot_visualizations 0 "04" (holding no_latitude)).2)
    = [plt.Line [Some (pd.SInt 2020)] [Some (pd.SFloat 1)]] /\
  (main (fun _ _ => Ok no_latitude) fresh).1 = Raise (KeyError (NotInIndex ["LAT_float"])) /\
  (forall r s k,
     (visualisation_1 r s).1 <> Raise (KeyError k) /\
     (visualisation_3 r s).1 <> Raise (KeyError k)).
Proof.
  split; [| split; [| split; [| split]]]; try (vm_compute; reflexivity).
  apply guarded_sections_catch_KeyError.
Qed.

(** C5, at a frame with a date column and minimum temperatures only: the
    exception of the second section ends the routine and no chart is drawn,
    the boxplot included. *)
Theorem boxplot_not_reached :
  (exists xs, pd.getitem dates_and_temperatures "date" = Ok (pd.Datetime64 xs)) /\
  pd.contains dates_and_temperatures "tmin" = true /\
  (plot_visualizations 0 "04" (holding dates_and_temperatures)).1
    = Raise (KeyError (NotInIndex
               ["NUM_POSTE"; "NOM_USUEL"; "LAT_float"; "LON_float"; "ALTI_float"])) /\
  charts (page (plot_visualizations 0 "04" (holding dates_and_temperatures)).2) = [].
Proof. repeat split; try (vm_compute; reflexivity). eexists. reflexivity. Qed.

(** Three frames with station identifiers and datetime-typed dates on
    which the first section draws nothing: one has no minimum temperature
    and one has no station identifier that is not missing (an error message
    is written and the first chart of the page is the scatter of the second
    section); one holds its minimum temperatures as text (the exception
    leaves the routine and the page has no chart). *)
Lemma trend_not_drawn :
  (pd.contains no_tmin "station_id" = true /\
   (exists xs, pd.getitem no_tmin "date" = Ok (pd.Datetime64 xs)) /\
   charts (page (plot_visualizations 0 "04" (holding no_tmin)).2)
     = [plt.Scatter [Some (pd.SFloat 6)] [Some (pd.SFloat 44)] [Some (pd.SFloat 1155)]]) /\
  (pd.contains no_station_ids "station_id" = true /\
   (exists xs, pd.getitem no_station_ids "date" = Ok (pd.Datetime64 xs)) /\
   charts (page (plot_visualizations 0 "04" (holding no_station_ids)).2)
     = [plt.Scatter [Some (pd.SFloat 6)] [Some (pd.SFloat 44)] [Some (pd.SFloat 1155)];
        plt.Boxes [(pd.SInt 2020, [pd.SFloat (1 # 2); pd.SFloat (3 # 2)])]]) /\
  (pd.contains text_temperatures "station_id" = true /\
   (exists xs, pd.getitem text_temperatures "date" = Ok (pd.Datetime64 xs)) /\
   (plot_visualizations 0 "04" (holding text_temperatures)).1
     = Raise (TypeError "agg function failed [how->mean,dtype->object]") /\
   charts (page (plot_visualizations 0 "04" (holding text_temperatures)).2) = []).
Proof.
  repeat split; try (vm_compute; reflexivity); eexists; reflexivity.
Qed.


Lemma charts_read_renamed_columns_witness :
  ((forall l, In l source_columns <-> pd.rename_label column_names l <> l) /\
   List.map (pd.rename_label column_names) source_columns = chart_columns) /\
  (exists local,
     heap (plot_visualizations 0 "04" (holding sample_frame)).2
       = heap (holding sample_frame) ++ [local] /\
     pd.index local = pd.index sample_frame /\
     without_year (pd.columns local)
     = without_year
         (List.map (fun lc => (pd.rename_label column_names lc.1, lc.2))
            (pd.columns sample_frame))) /\
  exists out,
    (plot_visualizations 0 "04" (holding sample_frame)).1
      = (plot_visualizations 0 "05" (holding annotated_frame)).1 /\
    page (plot_visualizations 0 "04" (holding sample_frame)).2
      = page (holding sample_frame) ++ out /\
    page (plot_visualizations 0 "05" (holding annotated_frame)).2
      = page (holding annotated_frame) ++ out.
Proof.
  destruct (charts_read_renamed_columns 0 "04" (holding sample_frame) sample_frame eq_refl)
    as (Htable & Hlocal & Hreads).
  split; [exact Htable |]. split; [exact Hlocal |].
  apply (Hreads 0%nat "05" (holding annotated_frame) annotated_frame).
  - reflexivity.
  - labels_distinct_by_computation.
  - labels_distinct_by_computation.
  - split; [reflexivity |]. intros l Hl. simpl in Hl.
    repeat (destruct Hl as [<- | Hl]; [reflexivity |]). destruct Hl.
Defined.

Lemma trend_of_most_frequent_station_witness :
  let ids := pd.Object [Some "04049001"; Some "04070001"; Some "04049001"; None] in
  let dates := [Some (18262 * day)%Z; Some (18263 * day)%Z; Some (18700 * day)%Z; None] in
  let temps := [Some (1 # 2); Some (3 # 1); Some (-5 # 2); Some (5 # 1)] in
  exists top ys rest,
    pd.getitem_0 (pd.mode ids) = Ok (Some top) /\
    (forall w, pd.value_count (pd.dropna_cells (pd.cells ids)) w
               <= pd.value_count (pd.dropna_cells (pd.cells ids)) top) /\
    NoDup ys /\
    (forall y, In y ys <->
               exists r, In r (readings ids dates temps) /\
                         at_station top r = true /\ r.1.2 = Some y) /\
    page (plot_visualizations 0 "04" (holding sample_frame)).2 =
    page (holding sample_frame) ++
    [Header [Text "1. Évolution Temporelle de la Température Minimale (TN) 📈"];
     Pyplot
       {| plt.drawn :=
            plt.Line (List.map (fun y => Some (year_value dates y)) ys)
                     (List.map (fun y => pd.SFloat <$> yearly_mean (readings ids dates temps) top y)
                        ys);
          plt.title := [Text "Température Minimale Moyenne Annuelle pour la station ";
                        Val (Some top)];
          plt.xlabel := "Année";
          plt.ylabel := "Température Minimale Moyenne (°C)";
          plt.colorbar := None |};
     Markdown
       [Text "Cette courbe montre la tendance annuelle de la température minimale pour la station la plus fréquente (";
        Val (Some top); Text ")."]]
    ++ rest.
Proof.
  apply (trend_of_most_frequent_station 0 "04" (holding sample_frame) sample_frame
           (pd.Object [Some "04049001"; Some "04070001"; Some "04049001"; None])
           [Some (18262 * day)%Z; Some (18263 * day)%Z; Some (18700 * day)%Z; None]
           (pd.Float64 [Some (1 # 2); Some (3 # 1); Some (-5 # 2); Some (5 # 1)])
           [Some (1 # 2); Some (3 # 1); Some (-5 # 2); Some (5 # 1)]
           (pd.SStr "04070001")).
  - reflexivity.
  - split; [labels_distinct_by_computation | repeat constructor].
  - reflexivity.
  - simpl. right. by left.
  - reflexivity.
  - reflexivity.
  - reflexivity.
  - finite_sums_by_computation.
Defined.


Lemma date_error_iff_no_datetime_column_witness :
  exists out,
    page (plot_visualizations 0 "04" (holding no_date)).2 = page (holding no_date) ++ out /\
    (In date_error out <->
     forall xs, pd.getitem (pd.rename column_names no_date) "AAAAMMJJ"
                <> Ok (pd.Datetime64 xs)) /\
    (In date_error out ->
     (plot_visualizations 0 "04" (holding no_date)).1 = Ok tt /\ out = [date_error]).
Proof.
  apply (date_error_iff_no_datetime_column 0 "04" (holding no_date) no_date).
  - reflexivity.
  - labels_distinct_by_computation.
Defined.

Lemma plot_visualizations_outcome_witness :
  exists out,
    page (plot_visualizations 0 "04" (holding no_latitude)).2
      = page (holding no_latitude) ++ out /\
    (plot_visualizations 0 "04" (holding no_latitude)).1
      = Raise (KeyError (NotInIndex ["LAT_float"])) /\
    headers out = [header_1; header_2].
Proof.
  destruct (plot_visualizations_outcome 0 "04" (holding no_latitude) no_latitude
              [Some (18262 * day)%Z; Some (18263 * day)%Z] (18262 * day)%Z)
    as (out & Hpage & Hres).
  - reflexivity.
  - labels_distinct_by_computation.
  - reflexivity.
  - simpl. by left.
  - numeric_columns_by_computation.
  - exists out. split; [exact Hpage |].
    destruct Hres as [(Hok & _) | (Hraise & _ & Hh)].
    + discriminate Hok.
    + split; [exact Hraise | exact Hh].
Defined.

Lemma main_reports_failed_load_witness :
  (main sample_source (typing "13")).1 = Ok tt /\
  page (main sample_source (typing "13")).2 =
  page (typing "13") ++
  [Title [Text "❄️ Analyse des Données Météo - Département 04"];
   Sidebar (Header [Text "Paramètres"]);
   Sidebar (TextInput "Code du Département (ex: 04)" "13");
   Success [Text "Données chargées!"];
   Error [Text "Erreur lors du chargement des données: ";
          Str (OtherException "ValueError" "unknown department")];
   Error [Text "Le DataFrame est vide. Veuillez vérifier les logs d'erreur ci-dessus."]].
Proof.
  apply (main_reports_failed_load sample_source (typing "13")
           (OtherException "ValueError" "unknown department")).
  - reflexivity.
  - reflexivity.
Defined.

Lemma main_outcome_witness :
  (main sample_source fresh).1 = Ok tt \/
  exists missing,
    missing <> [] /\ (forall l, In l missing -> In l station_columns) /\
    (main sample_source fresh).1 = Raise (KeyError (NotInIndex missing)).
Proof.
  apply (main_outcome sample_source fresh).
  - intros dept calls d. unfold sample_source.
    destruct (String.eqb dept "04"); [| discriminate]. intros [= <-].
    split; [labels_distinct_by_computation |].
    split; [numeric_columns_by_computation |].
    intros dates Hc. vm_compute in Hc. injection Hc as <-.
    eexists. left. reflexivity.
  - intros k d shown Hc. discriminate Hc.
Defined.

Lemma boxplot_of_complete_frame_witness :
  let dates := [Some (18262 * day)%Z; Some (18263 * day)%Z; Some (18700 * day)%Z; None] in
  exists ys before,
    NoDup ys /\
    (forall y, In y ys <-> In (Some y) (List.map (option_map pd.year_of) dates)) /\
    headers before = [header_1; header_2] /\
    (plot_visualizations 0 "04" (holding sample_frame)).1 = Ok tt /\
    page (plot_visualizations 0 "04" (holding sample_frame)).2 =
    page (holding sample_frame) ++ before ++
    [Header header_3;
     Pyplot
       {| plt.drawn :=
            plt.Boxes
              (List.map
                 (fun y =>
                    (year_value dates y,
                     omap snd
                       (List.filter (fun p => bool_decide (p.1 = Some y))
                          (zip (List.map (option_map pd.year_of) dates)
                             [Some (pd.SFloat (1 # 2)); Some (pd.SFloat (3 # 1));
                              Some (pd.SFloat (-5 # 2)); Some (pd.SFloat (5 # 1))]))))
                 ys);
          plt.title := [Text "Distribution de la Température Minimale (TN) par Année"];
          plt.xlabel := "Année";
          plt.ylabel := "Température Minimale (°C)";
          plt.colorbar := None |};
     Markdown
       [Text "Chaque boîte représente la répartition des températures minimales pour une année donnée."]].
Proof.
  apply (boxplot_of_complete_frame 0 "04" (holding sample_frame) sample_frame
           [Some (18262 * day)%Z; Some (18263 * day)%Z; Some (18700 * day)%Z; None]
           (18262 * day)%Z
           (pd.Float64 [Some (1 # 2); Some (3 # 1); Some (-5 # 2); Some (5 # 1)])).
  - reflexivity.
  - labels_distinct_by_computation.
  - reflexivity.
  - simpl. by left.
  - reflexivity.
  - numeric_columns_by_computation.
  - intros l Hl. simpl in Hl.
    repeat (destruct Hl as [<- | Hl]; [reflexivity |]). destruct Hl.
Defined.

Lemma charted_station_is_least_most_frequent_witness :
  exists ids top,
    pd.getitem (pd.rename column_names sample_frame) "NUM_POSTE" = Ok ids /\
    In (Some top) (pd.cells ids) /\
    (forall w, In (Some w) (pd.cells ids) ->
               pd.value_count (pd.dropna_cells (pd.cells ids)) top
                 <= pd.value_count (pd.dropna_cells (pd.cells ids)) w ->
               pd.scalar_leb top w = true).
Proof.
  destruct (charted_station_is_least_most_frequent 0 "04" (holding sample_frame) sample_frame
              (page (plot_visualizations 0 "04" (holding sample_frame)).2)
              {| plt.drawn :=
                   plt.Line [Some (pd.SFloat (2020 # 1)); Some (pd.SFloat (2021 # 1))]
                            [Some (pd.SFloat (1 # 2)); Some (pd.SFloat (-5 # 2))];
                 plt.title := [Text "Température Minimale Moyenne Annuelle pour la station ";
                               Val (Some (pd.SStr "04049001"))];
                 plt.xlabel := "Année";
                 plt.ylabel := "Température Minimale Moyenne (°C)";
                 plt.colorbar := None |}
              [Some (pd.SFloat (2020 # 1)); Some (pd.SFloat (2021 # 1))]
              [Some (pd.SFloat (1 # 2)); Some (pd.SFloat (-5 # 2))])
    as (ids & top & Hids & _ & Hin & _ & Hleast).
  - reflexivity.
  - reflexivity.
  - vm_compute. right. left. reflexivity.
  - reflexivity.
  - exists ids, top. split; [exact Hids |]. split; [exact Hin | exact Hleast].
Defined.

Lemma missing_temperatures_reported_witness :
  exists out2,
    headers out2 = [] /\
    (plot_visualizations 0 "04" (holding no_tmin)).1 = Ok tt /\
    page (plot_visualizations 0 "04" (holding no_tmin)).2 =
    page (holding no_tmin) ++
    [Header header_1;
     Error [Text "Erreur de colonne pour la Visualisation 1: ";
            Str (KeyError (ColumnNotFound "TN_float"));
            Text ". Vérifiez le renommage des colonnes."]] ++
    Header header_2 :: out2 ++
    [Header header_3;
     Error [Text "Erreur de colonne pour la Visualisation 3: ";
            Str (KeyError (ColumnNotFound "TN_float"));
            Text ". Vérifiez le renommage des colonnes."]].
Proof.
  apply (missing_temperatures_reported 0 "04" (holding no_tmin) no_tmin
           [Some (18262 * day)%Z; Some (18263 * day)%Z] station_ids (pd.SStr "04049001")).
  - reflexivity.
  - labels_distinct_by_computation.
  - reflexivity.
  - reflexivity.
  - intros l Hl. simpl in Hl.
    repeat (destruct Hl as [<- | Hl]; [reflexivity |]). destruct Hl.
  - numeric_columns_by_computation.
  - reflexivity.
  - simpl. by left.
Defined.

Lemma text_temperatures_not_caught_witness :
  (plot_visualizations 0 "04" (holding text_temperatures)).1 = Raise mean_of_text /\
  page (plot_visualizations 0 "04" (holding text_temperatures)).2
    = page (holding text_temperatures) ++ [Header header_1].
Proof.
  apply (text_temperatures_not_caught 0 "04" (holding text_temperatures) text_temperatures
           [Some (18262 * day)%Z; Some (18263 * day)%Z] station_ids
           [Some "0.5"; Some "1.5"] (pd.SStr "04049001")
           (Some (pd.SStr "04049001")) (18262 * day)%Z "0.5").
  - reflexivity.
  - labels_distinct_by_computation.
  - reflexivity.
  - reflexivity.
  - reflexivity.
  - reflexivity.
  - simpl. by left.
  - reflexivity.
Defined.

Lemma main_draws_three_sections_witness :
  exists out,
    (main sample_source fresh).1 = Ok tt /\
    page (main sample_source fresh).2 =
    page fresh ++
    [Title [Text "❄️ Analyse des Données Météo - Département 04"];
     Sidebar (Header [Text "Paramètres"]);
     Sidebar (TextInput "Code du Département (ex: 04)" "04");
     Success [Text "Données chargées!"];
     Success [Text "Données chargées : "; Num 4; Text " lignes et ";
              Num 7; Text " colonnes."];
     Dataframe (pd.head sample_frame);
     Markdown [Text "---"]] ++ out /\
    headers out = [header_1; header_2; header_3].
Proof.
  apply (main_draws_three_sections sample_source fresh sample_frame
           [Some (18262 * day)%Z; Some (18263 * day)%Z; Some (18700 * day)%Z; None]
           (18262 * day)%Z).
  - reflexivity.
  - reflexivity.
  - reflexivity.
  - labels_distinct_by_computation.
  - reflexivity.
  - simpl. by left.
  - numeric_columns_by_computation.
  - intros l Hl. simpl in Hl.
    repeat (destruct Hl as [<- | Hl]; [reflexivity |]). destruct Hl.
Defined.

End Samples.
